(** * Appointment slot availability (appointment/views.py, get_available_slots)

    A shallow embedding of the slot computation of the hospital management
    system: the AJAX view [get_available_slots] together with the rows of
    [appointment/models.py] it queries, then the validation and saving of
    appointments, availability windows and leave requests
    ([appointment/models.py], [appointment/forms.py]) and the views that
    change their status, followed by the properties of the slot lists the
    view returns and of the tables those operations leave. *)

From Stdlib Require Import ZArith List Bool String Ascii Lia Sorted.
Import ListNotations.
Open Scope Z_scope.

(* ================================================================== *)
(** * Calendar values *)

(** Python's [datetime] values have microsecond resolution.  A [time] is the
    number of microseconds since midnight, a [date] is a day ordinal, and a
    [datetime] is the number of microseconds since midnight of day 0, so
    that Python's comparison of two datetimes is the comparison of the two
    integers.  Python's calendar runs from 0001-01-01, ordinal 1, to
    9999-12-31, ordinal 3652059; arithmetic that leaves it raises
    [OverflowError]. *)

Definition minute_us : Z := 60000000.
Definition hour_us : Z := 60 * minute_us.
Definition day_us : Z := 24 * hour_us.

Definition time := Z.
Definition date := Z.
Definition datetime := Z.
Definition timedelta := Z.

(** [datetime.time(h, m)] *)
Definition mk_time (h m : Z) : time := h * hour_us + m * minute_us.

(** [datetime.timedelta(minutes=m)] *)
Definition minutes (m : Z) : timedelta := m * minute_us.

(** [datetime.datetime.combine(d, t)] *)
Definition combine (d : date) (t : time) : datetime := d * day_us + t.

(** [datetime.date.min.toordinal()], [datetime.date.max.toordinal()],
    [datetime.datetime.min] and [datetime.datetime.max]. *)
Definition date_min : date := 1.
Definition date_max : date := 3652059.
Definition datetime_min : datetime := combine date_min 0.
Definition datetime_max : datetime := combine date_max (day_us - 1).

(** The exception that the view does not name in its handlers and that
    this model can raise, and the outcome of a computation that may raise. *)
Inductive exception := OverflowError.

Inductive result (A : Type) :=
| Ok (a : A)
| Raise (e : exception).
Arguments Ok {A} a.
Arguments Raise {A} e.

(** [dt + delta]: [OverflowError] ("date value out of range") when the sum
    is not a datetime of the calendar. *)
Definition add_timedelta (dt : datetime) (delta : timedelta) : result datetime :=
  let sum := dt + delta in
  if (datetime_min <=? sum) && (sum <=? datetime_max) then Ok sum
  else Raise OverflowError.

(** [dt.date()] and [dt.time()] *)
Definition date_of (dt : datetime) : date := dt / day_us.
Definition time_of (dt : datetime) : time := dt mod day_us.

(** [dt.hour] and [dt.minute]; on a [time] they read the same fields. *)
Definition hour (dt : datetime) : Z := time_of dt / hour_us.
Definition minute (dt : datetime) : Z := (time_of dt / minute_us) mod 60.

(** [d.weekday()]: Monday is 0; ordinal 1 is a Monday. *)
Definition weekday (d : date) : Z := (d + 6) mod 7.

(** [strftime('%H:%M')]: two decimal digits, a colon, two decimal digits. *)
Definition digit (d : Z) : ascii := ascii_of_nat (48 + Z.to_nat d).

Definition two_digits (n : Z) : string :=
  String (digit (n / 10)) (String (digit (n mod 10)) EmptyString).

Definition strftime_HM (dt : datetime) : string :=
  (two_digits (hour dt) ++ ":" ++ two_digits (minute dt))%string.

Arguments mk_time : simpl never.
Arguments minutes : simpl never.
Arguments combine : simpl never.
Arguments date_of : simpl never.
Arguments time_of : simpl never.
Arguments strftime_HM : simpl never.
Arguments add_timedelta : simpl never.

(* ================================================================== *)
(** * Rows of appointment/models.py *)

Inductive appointment_status :=
  SCHEDULED | CONFIRMED | COMPLETED | CANCELLED | MISSED.

Record Appointment := mkAppointment {
  appt_doctor : Z;
  appt_date : date;
  appt_start_time : time;
  appt_end_time : time;
  appt_status : appointment_status
}.

Inductive leave_status :=
  LEAVE_PENDING | LEAVE_APPROVED | LEAVE_REJECTED | LEAVE_CANCELLED.

Record DoctorLeaveRequest := mkLeave {
  leave_doctor : Z;
  leave_start_date : date;
  leave_end_date : date;
  leave_start_time : time;
  leave_end_time : time;
  leave_status_of : leave_status
}.

Record DoctorAvailability := mkAvailability {
  avail_doctor : Z;
  avail_day_of_week : Z;
  avail_start_time : time;
  avail_end_time : time
}.

(** The tables the view reads.  [users] holds the primary keys of the
    user rows.  [leave_requests] lists its rows in the order of the model's
    [Meta.ordering] (newest first), which is the order [.first()] sees. *)
Record database := mkDatabase {
  users : list Z;
  appointments : list Appointment;
  leave_requests : list DoctorLeaveRequest;
  availabilities : list DoctorAvailability
}.

(** ** The queries of the view *)

(** [Appointment.objects.filter(doctor=doctor, date=date,
      status__in=[SCHEDULED, CONFIRMED])]; the loop that reads these rows
    only asks whether one of them overlaps, so their order is left as
    stored. *)
Definition is_active (a : Appointment) : bool :=
  match appt_status a with
  | SCHEDULED | CONFIRMED => true
  | _ => false
  end.

Definition existing_appointments (db : database) (doctor : Z) (d : date)
  : list Appointment :=
  filter (fun a => (appt_doctor a =? doctor) && (appt_date a =? d) && is_active a)
         (appointments db).

(** [DoctorLeaveRequest.objects.filter(doctor=doctor, status=APPROVED,
      start_date__lte=date, end_date__gte=date)] *)
Definition is_approved (l : DoctorLeaveRequest) : bool :=
  match leave_status_of l with
  | LEAVE_APPROVED => true
  | _ => false
  end.

Definition approved_leaves (db : database) (doctor : Z) (d : date)
  : list DoctorLeaveRequest :=
  filter (fun l => (leave_doctor l =? doctor) && is_approved l
                   && (leave_start_date l <=? d) && (d <=? leave_end_date l))
         (leave_requests db).

(** [.first()] *)
Definition first {A : Type} (rows : list A) : option A :=
  match rows with
  | [] => None
  | r :: _ => Some r
  end.

(** [.exists()] *)
Definition exists_ {A : Type} (rows : list A) : bool :=
  match rows with
  | [] => false
  | _ :: _ => true
  end.

(** [DoctorAvailability.objects.filter(doctor=doctor).exists()] *)
Definition doctor_has_slots (db : database) (doctor : Z) : bool :=
  exists_ (filter (fun s => avail_doctor s =? doctor) (availabilities db)).

(** The rows of one weekday come back ordered by [start_time]
    ([Meta.ordering = ['day_of_week', 'start_time']]). *)
Fixpoint insert_by_start (s : DoctorAvailability) (rows : list DoctorAvailability)
  : list DoctorAvailability :=
  match rows with
  | [] => [s]
  | r :: rest =>
      if avail_start_time s <? avail_start_time r then s :: r :: rest
      else r :: insert_by_start s rest
  end.

Definition order_by_start (rows : list DoctorAvailability) : list DoctorAvailability :=
  fold_right insert_by_start [] rows.

Definition day_slots (db : database) (doctor : Z) (d : date)
  : list DoctorAvailability :=
  order_by_start
    (filter (fun s => (avail_doctor s =? doctor) && (avail_day_of_week s =? weekday d))
            (availabilities db)).

(* ================================================================== *)
(** * The request and the response *)

(** A query-string parameter after the view has read it: absent (or empty),
    present but rejected by its parser with [ValueError], or parsed. *)
Inductive param (A : Type) :=
| Missing
| Unparsable
| Parsed (a : A).
Arguments Missing {A}.
Arguments Unparsable {A}.
Arguments Parsed {A} a.

(** [user_is_authenticated] is [request.user.is_authenticated], which
    [login_required] reads. *)
Record request := mkRequest {
  user_is_authenticated : bool;
  method_is_GET : bool;
  doctor_id : param Z;
  date_str : param date;
  is_emergency : bool
}.

(** One entry of the ['slots'] list. *)
Record slot := mkSlot {
  start : string;
  end_ : string;
  display : string
}.

(** What the decorated view answers: a [JsonResponse], either the slot list
    with its optional ['message'] and ['warning'] or an ['error'] with its
    HTTP status, or the redirect to the login page that [login_required]
    answers to an anonymous user.  The error text is kept without the text
    of the exception the view appends to it. *)
Inductive JsonResponse (A : Type) :=
| JsonSlots (slots : list A) (message : option string) (warning : option string)
| JsonError (error : string) (status : Z)
| RedirectToLogin.
Arguments JsonSlots {A} slots message warning.
Arguments JsonError {A} error status.
Arguments RedirectToLogin {A}.

Definition response_slots {A : Type} (r : JsonResponse A) : list A :=
  match r with
  | JsonSlots slots _ _ => slots
  | JsonError _ _ => []
  | RedirectToLogin => []
  end.

(** The dict appended for a free slot.  The emergency loop and the emergency
    fallback add the suffix, the three other loops do not. *)
Definition slot_dict (emergency : bool) (slot_start slot_end : datetime) : slot :=
  {| start := strftime_HM slot_start;
     end_ := strftime_HM slot_end;
     display := (strftime_HM slot_start ++ " - " ++ strftime_HM slot_end
                 ++ (if emergency then " (Emergency)" else ""))%string |}.

(* ================================================================== *)
(** * The loops *)

(** The inner [for appt in existing_appointments] loop with its [break]
    (views.py 259-266, 348-355, 399-406, 437-445). *)
Fixpoint is_available (d : date) (slot_start slot_end : datetime)
         (existing : list Appointment) : bool :=
  match existing with
  | [] => true
  | appt :: rest =>
      let appt_start := combine d (appt_start_time appt) in
      let appt_end := combine d (appt_end_time appt) in
      if (slot_start <? appt_end) && (slot_end >? appt_start) then false
      else is_available d slot_start slot_end rest
  end.

(** The leave test of the leave loop, on [.time()] values (views.py 340-345). *)
Definition on_leave (leave : option (time * time)) (slot_start slot_end : datetime)
  : bool :=
  match leave with
  | None => false
  | Some (leave_start, leave_end) =>
      let slot_start_time := time_of slot_start in
      let slot_end_time := time_of slot_end in
      (slot_start_time <? leave_end) && (slot_end_time >? leave_start)
  end.

Section SlotLoop.
(** The view has four copies of one [while slot_start < end_datetime]
    loop: emergency (views.py 253-275), leave (335-364), doctor-defined
    availability (393-415) and standard hours (429-454).
    They differ in the step (15 or 30 minutes), in the dict they append
    ([emit]) and in the leave test, which only the leave loop has
    ([leave = None] elsewhere). *)
Context {A : Type}.
Variable emit : datetime -> datetime -> A.
Variable d : date.
Variable leave : option (time * time).
Variable existing : list Appointment.
Variable end_datetime : datetime.
Variable step : timedelta.

(** [fuel] bounds the number of iterations; [None] means the bound was
    reached before the loop condition failed.  The addition raises before
    the sum is compared with [end_datetime]. *)
Fixpoint slot_loop (fuel : nat) (slot_start : datetime) (available_slots : list A)
  : option (result (list A)) :=
  if slot_start <? end_datetime then
    match fuel with
    | O => None
    | S fuel' =>
        match add_timedelta slot_start step with
        | Raise e => Some (Raise e)
        | Ok slot_end =>
            let slot_end := if slot_end >? end_datetime then end_datetime else slot_end in
            if on_leave leave slot_start slot_end then
              slot_loop fuel' slot_end available_slots
            else
              let available_slots :=
                if is_available d slot_start slot_end existing
                then available_slots ++ [emit slot_start slot_end]
                else available_slots in
              slot_loop fuel' slot_end available_slots
        end
    end
  else Some (Ok available_slots).
End SlotLoop.

(** Iterations a window needs: the number of steps that cover it. *)
Definition slot_count (slot_start end_datetime : datetime) (step : timedelta) : nat :=
  Z.to_nat ((end_datetime - slot_start + step - 1) / step).

Arguments slot_count : simpl never.

Definition run_slot_loop {A : Type} (emit : datetime -> datetime -> A) (d : date)
           (leave : option (time * time)) (existing : list Appointment)
           (slot_start end_datetime : datetime) (step : timedelta)
           (available_slots : list A) : option (result (list A)) :=
  slot_loop emit d leave existing end_datetime step
            (slot_count slot_start end_datetime step) slot_start available_slots.

(** The [for slot in day_slots] loop around the 30-minute loop
    (views.py 387-415). *)
Fixpoint day_slots_loop {A : Type} (emit : datetime -> datetime -> A) (d : date)
         (existing : list Appointment) (rows : list DoctorAvailability)
         (available_slots : list A) : option (result (list A)) :=
  match rows with
  | [] => Some (Ok available_slots)
  | row :: rest =>
      let slot_start := combine d (avail_start_time row) in
      let slot_end := combine d (avail_end_time row) in
      match run_slot_loop emit d None existing slot_start slot_end (minutes 30)
                          available_slots with
      | None => None
      | Some (Raise e) => Some (Raise e)
      | Some (Ok available_slots) => day_slots_loop emit d existing rest available_slots
      end
  end.

(* ================================================================== *)
(** * get_available_slots *)

Definition emergency_message : string := "Emergency appointments are available 24/7".
Definition leave_warning : string :=
  "Doctor is on partial leave for this day. Some time slots may not be available.".
Definition no_slots_message : string :=
  "No time slots available for the selected date and doctor.".
Definition error_processing : string := "Error processing request".

Section View.
(** [mk emergency slot_start slot_end] is the dict built for a slot; the
    view is [get_available_slots_with slot_dict].  [now] is the value that
    [timezone.now()] returns when the view reads the clock (views.py 281). *)
Context {A : Type}.
Variable mk : bool -> datetime -> datetime -> A.

(** The emergency branch (views.py 234-301). *)
Definition emergency_slots (db : database) (now : datetime) (doctor : Z) (d : date)
  : option (result (JsonResponse A)) :=
  let start_time := mk_time 0 0 in
  let end_time := mk_time 23 59 in
  let slot_start := combine d start_time in
  let end_datetime := combine d end_time in
  let existing := existing_appointments db doctor d in
  match run_slot_loop (mk true) d None existing slot_start end_datetime (minutes 15) []
  with
  | None => None
  | Some (Raise e) => Some (Raise e)
  | Some (Ok available_slots) =>
      let response available_slots :=
        JsonSlots available_slots (Some emergency_message) None in
      match available_slots with
      | [] =>
          if d =? date_of now then
            let current_hour := hour now in
            let current_minute := (minute now / 15) * 15 in
            let emergency_start := mk_time current_hour current_minute in
            match add_timedelta (combine d emergency_start) (minutes 15) with
            | Raise e => Some (Raise e)
            | Ok sum =>
                let emergency_end := time_of sum in
                (* the two times are formatted as such; a time prints as the
                   datetime that combines it with the date *)
                Some (Ok (response [mk true (combine d emergency_start)
                                       (combine d emergency_end)]))
            end
          else Some (Ok (response []))
      | _ => Some (Ok (response available_slots))
      end
  end.

(** The regular branch (views.py 303-464). *)
Definition regular_slots (db : database) (doctor : Z) (d : date)
  : option (result (JsonResponse A)) :=
  let start_time := mk_time 8 0 in
  let end_time := mk_time 22 0 in
  let doctor_leave := first (approved_leaves db doctor d) in
  let existing := existing_appointments db doctor d in
  let slot_start := combine d start_time in
  let end_datetime := combine d end_time in
  match doctor_leave with
  | Some doctor_leave =>
      let leave_start := leave_start_time doctor_leave in
      let leave_end := leave_end_time doctor_leave in
      match run_slot_loop (mk false) d (Some (leave_start, leave_end)) existing
                          slot_start end_datetime (minutes 30) [] with
      | None => None
      | Some (Raise e) => Some (Raise e)
      | Some (Ok available_slots) =>
          Some (Ok (JsonSlots available_slots None (Some leave_warning)))
      end
  | None =>
      let rows := day_slots db doctor d in
      if doctor_has_slots db doctor && exists_ rows then
        match day_slots_loop (mk false) d existing rows [] with
        | None => None
        | Some (Raise e) => Some (Raise e)
        | Some (Ok available_slots) => Some (Ok (JsonSlots available_slots None None))
        end
      else
        match run_slot_loop (mk false) d None existing slot_start end_datetime
                            (minutes 30) [] with
        | None => None
        | Some (Raise e) => Some (Raise e)
        | Some (Ok available_slots) =>
            Some (Ok (JsonSlots available_slots
                                (match available_slots with
                                 | [] => Some no_slots_message
                                 | _ => None
                                 end) None))
        end
  end.

(** The decorator (views.py 213), the checks of the request (216-231,
    475-476) and the two handlers of the [try] (466-473): [DoesNotExist]
    and [ValueError] are answered with status 400, any other exception with
    status 500. *)
Definition get_available_slots_with (rq : request) (db : database) (now : datetime)
  : option (JsonResponse A) :=
  if user_is_authenticated rq then
    if method_is_GET rq then
      match doctor_id rq, date_str rq with
      | Missing, _ | _, Missing => Some (JsonError "Missing parameters" 400)
      | Parsed doctor, Parsed d =>
          if existsb (Z.eqb doctor) (users db) then
            match (if is_emergency rq then emergency_slots db now doctor d
                   else regular_slots db doctor d) with
            | None => None
            | Some (Ok response) => Some response
            | Some (Raise OverflowError) => Some (JsonError error_processing 500)
            end
          else Some (JsonError "Invalid parameters" 400)
      | _, _ => Some (JsonError "Invalid parameters" 400)
      end
    else Some (JsonError "Invalid request" 400)
  else Some RedirectToLogin.
End View.

(** The view as the source has it, and the same run recording the bounds
    of each slot instead of their formatted text. *)
Definition get_available_slots : request -> database -> datetime
                                 -> option (JsonResponse slot) :=
  get_available_slots_with slot_dict.

Definition available_intervals : request -> database -> datetime
                                 -> option (JsonResponse (datetime * datetime)) :=
  get_available_slots_with (fun _ slot_start slot_end => (slot_start, slot_end)).

(* ================================================================== *)
(** * Vocabulary of the specification *)

(** An interval is the pair of its bounds, read half-open. *)
Definition interval := (Z * Z)%type.

Definition covers (c : interval) (t : Z) : Prop := fst c <= t < snd c.

Definition coversb (t : Z) (c : interval) : bool := (fst c <=? t) && (t <? snd c).

(** Strict overlap: [c.start < other.end] and [c.end > other.start]. *)
Definition overlaps (c other : interval) : Prop :=
  fst c < snd other /\ snd c > fst other.

Definition overlapsb (c other : interval) : bool :=
  (fst c <? snd other) && (snd c >? fst other).

(** [a] ends before [b] begins, and begins strictly earlier. *)
Definition precedes (a b : interval) : Prop := snd a <= fst b /\ fst a < fst b.

Definition booked_interval (d : date) (a : Appointment) : interval :=
  (combine d (appt_start_time a), combine d (appt_end_time a)).

Definition leave_interval (d : date) (lv : time * time) : interval :=
  (combine d (fst lv), combine d (snd lv)).

Definition window_of (d : date) (row : DoctorAvailability) : interval :=
  (combine d (avail_start_time row), combine d (avail_end_time row)).

(** The partition of [[open, close)] into consecutive candidates of length
    [step], the last one truncated at [close]. *)
Definition candidate (open close : datetime) (step : timedelta) (k : nat) : interval :=
  (open + Z.of_nat k * step, Z.min (open + (Z.of_nat k + 1) * step) close).

Definition candidates (open close : datetime) (step : timedelta) : list interval :=
  map (candidate open close step) (seq 0 (slot_count open close step)).

(** The same partition, produced front to back. *)
Fixpoint partition_from (n : nat) (slot_start close : datetime) (step : timedelta)
  : list interval :=
  match n with
  | O => []
  | S n' =>
      if slot_start <? close then
        let slot_end := Z.min (slot_start + step) close in
        (slot_start, slot_end) :: partition_from n' slot_end close step
      else []
  end.

(** A candidate is excluded by a booked interval or by the leave interval. *)
Definition booked (d : date) (existing : list Appointment) (c : interval) : Prop :=
  exists a, In a existing /\ overlaps c (booked_interval d a).

Definition blacked_out (d : date) (leave : option (time * time)) (c : interval) : Prop :=
  exists lv, leave = Some lv /\ overlaps c (leave_interval d lv).

Definition bookedb (d : date) (existing : list Appointment) (c : interval) : bool :=
  existsb (fun a => overlapsb c (booked_interval d a)) existing.

(** The test the loop applies to a candidate. *)
Definition free (d : date) (leave : option (time * time)) (existing : list Appointment)
           (c : interval) : bool :=
  negb (on_leave leave (fst c) (snd c)) && is_available d (fst c) (snd c) existing.

Definition pair_of {A : Type} (emit : datetime -> datetime -> A) (c : interval) : A :=
  emit (fst c) (snd c).

(** A request the view accepts: a GET of a logged-in user naming an
    existing doctor and a date. *)
Definition accepted (rq : request) (db : database) (doctor : Z) (d : date) : Prop :=
  user_is_authenticated rq = true /\ method_is_GET rq = true
  /\ doctor_id rq = Parsed doctor /\ date_str rq = Parsed d
  /\ In doctor (users db).

(** The window lies inside day [d]. *)
Definition within_day (d : date) (open close : datetime) : Prop :=
  combine d 0 <= open /\ close < combine d day_us.

Definition has_suffix (suffix s : string) : Prop :=
  exists prefix, s = (prefix ++ suffix)%string.

Fixpoint last_char (s : string) : option ascii :=
  match s with
  | EmptyString => None
  | String c EmptyString => Some c
  | String _ rest => last_char rest
  end.

(** The candidates the loops of the view keep, branch by branch, and the
    interval of the emergency fallback. *)
Definition loop_intervals (emergency : bool) (db : database) (doctor : Z) (d : date)
  : list interval :=
  let existing := existing_appointments db doctor d in
  if emergency then
    filter (free d None existing)
           (candidates (combine d (mk_time 0 0)) (combine d (mk_time 23 59)) (minutes 15))
  else
    match first (approved_leaves db doctor d) with
    | Some lv =>
        filter (free d (Some (leave_start_time lv, leave_end_time lv)) existing)
               (candidates (combine d (mk_time 8 0)) (combine d (mk_time 22 0))
                           (minutes 30))
    | None =>
        if doctor_has_slots db doctor && exists_ (day_slots db doctor d) then
          flat_map (fun row =>
                      filter (free d None existing)
                             (candidates (fst (window_of d row)) (snd (window_of d row))
                                         (minutes 30)))
                   (day_slots db doctor d)
        else
          filter (free d None existing)
                 (candidates (combine d (mk_time 8 0)) (combine d (mk_time 22 0))
                             (minutes 30))
    end.

Definition fallback_interval (d : date) (now : datetime) : interval :=
  let emergency_start := mk_time (hour now) (minute now / 15 * 15) in
  (combine d emergency_start,
   combine d (time_of (combine d emergency_start + minutes 15))).

Definition returned_intervals (emergency : bool) (db : database) (now : datetime)
           (doctor : Z) (d : date) : list interval :=
  match loop_intervals emergency db doctor d with
  | [] => if emergency && (d =? date_of now) then [fallback_interval d now] else []
  | kept => kept
  end.

(** The candidates of the emergency loop, and the slot expected of the
    fallback: the current time with its minutes rounded down to a multiple
    of 15, and a quarter of an hour after it. *)
Definition emergency_candidates (d : date) : list interval :=
  candidates (combine d (mk_time 0 0)) (combine d (mk_time 23 59)) (minutes 15).

Definition fallback_slot (now : datetime) : slot :=
  let rounded := mk_time (hour now) (minute now / 15 * 15) in
  {| start := strftime_HM rounded;
     end_ := strftime_HM (rounded + minutes 15);
     display := (strftime_HM rounded ++ " - " ++ strftime_HM (rounded + minutes 15)
                 ++ " (Emergency)")%string |}.

(** The windows the loops of a request partition. *)
Definition working_windows (emergency : bool) (db : database) (doctor : Z) (d : date)
  : list interval :=
  if emergency then [(combine d (mk_time 0 0), combine d (mk_time 23 59))]
  else
    match first (approved_leaves db doctor d) with
    | Some _ => [(combine d (mk_time 8 0), combine d (mk_time 22 0))]
    | None =>
        if doctor_has_slots db doctor && exists_ (day_slots db doctor d)
        then map (window_of d) (day_slots db doctor d)
        else [(combine d (mk_time 8 0), combine d (mk_time 22 0))]
    end.

(** The step of the loops of a request. *)
Definition step_of (emergency : bool) : timedelta :=
  if emergency then minutes 15 else minutes 30.

(** A run of the loop over [[open, close)] raises [OverflowError]: its
    first sum falls before the calendar, or its last sum falls beyond it. *)
Definition overflowing (open close : datetime) (step : timedelta) : bool :=
  (open <? close)
  && ((open + step <? datetime_min)
      || (datetime_max <? open + Z.of_nat (slot_count open close step) * step)).

(** One of the loops of a request raises [OverflowError]. *)
Definition calendar_overflow (emergency : bool) (db : database) (doctor : Z) (d : date)
  : bool :=
  existsb (fun w => overflowing (fst w) (snd w) (step_of emergency))
          (working_windows emergency db doctor d).

(** A non-empty interval [c] inside the window [w]. *)
Definition inside (w c : interval) : Prop :=
  fst c < snd c /\ fst w <= fst c /\ snd c <= snd w.

(** Each availability window ends no later than the next one begins. *)
Definition windows_in_sequence (rows : list DoctorAvailability) : Prop :=
  StronglySorted (fun r1 r2 => avail_end_time r1 <= avail_start_time r2) rows.

Definition map_response {A B : Type} (f : A -> B) (r : JsonResponse A) : JsonResponse B :=
  match r with
  | JsonSlots slots message warning => JsonSlots (map f slots) message warning
  | JsonError error status => JsonError error status
  | RedirectToLogin => RedirectToLogin
  end.

(* ================================================================== *)
(** * Sample requests and tables *)

(** Thursday 29 July 2021. *)
Definition sample_day : date := 738000.
Definition dr : Z := 7.

Definition rq_emergency : request :=
  mkRequest true true (Parsed dr) (Parsed sample_day) true.
Definition rq_regular : request :=
  mkRequest true true (Parsed dr) (Parsed sample_day) false.

(** One appointment filling the whole emergency window. *)
Definition db_fully_booked : database :=
  mkDatabase [dr]
             [mkAppointment dr sample_day (mk_time 0 0) (mk_time 23 59) SCHEDULED]
             [] [].

(** One ten-minute appointment inside the first standard slot. *)
Definition db_short_booking : database :=
  mkDatabase [dr]
             [mkAppointment dr sample_day (mk_time 8 10) (mk_time 8 20) CONFIRMED]
             [] [].

(** Two approved partial-day leaves on the same day, newest first. *)
Definition db_two_leaves : database :=
  mkDatabase [dr] []
             [mkLeave dr sample_day sample_day (mk_time 14 0) (mk_time 16 0) LEAVE_APPROVED;
              mkLeave dr sample_day sample_day (mk_time 9 0) (mk_time 10 0) LEAVE_APPROVED]
             [].

(** An availability row whose window is reversed (10:00 to 09:00), and a
    booked row whose interval is reversed. *)
Definition db_reversed : database :=
  mkDatabase [dr]
             [mkAppointment dr sample_day (mk_time 11 0) (mk_time 10 30) SCHEDULED]
             []
             [mkAvailability dr (weekday sample_day) (mk_time 10 0) (mk_time 9 0)].

(** One half-hour booking of [dr]. *)
Definition db_one_booking : database :=
  mkDatabase [dr]
             [mkAppointment dr sample_day (mk_time 9 0) (mk_time 9 30) SCHEDULED]
             [] [].

(** The same booking among rows that the queries of the view leave out:
    another doctor, another day, a cancelled appointment, a pending leave. *)
Definition db_one_booking_and_others : database :=
  mkDatabase [dr; 8]
             [mkAppointment 8 sample_day (mk_time 8 0) (mk_time 12 0) SCHEDULED;
              mkAppointment dr sample_day (mk_time 9 0) (mk_time 9 30) SCHEDULED;
              mkAppointment dr (sample_day + 1) (mk_time 10 0) (mk_time 11 0) CONFIRMED;
              mkAppointment dr sample_day (mk_time 13 0) (mk_time 14 0) CANCELLED]
             [mkLeave 8 sample_day sample_day (mk_time 8 0) (mk_time 22 0) LEAVE_APPROVED;
              mkLeave dr sample_day sample_day (mk_time 8 0) (mk_time 22 0) LEAVE_PENDING]
             [mkAvailability 8 (weekday sample_day) (mk_time 9 0) (mk_time 12 0)].

(** Two availability windows of [dr] for the weekday of [sample_day],
    stored latest first, and one booking inside the morning window. *)
Definition db_two_windows : database :=
  mkDatabase [dr]
             [mkAppointment dr sample_day (mk_time 10 0) (mk_time 10 45) SCHEDULED]
             []
             [mkAvailability dr (weekday sample_day) (mk_time 14 0) (mk_time 15 15);
              mkAvailability dr (weekday sample_day) (mk_time 9 0) (mk_time 11 30)].

(** Two availability windows of [dr] for the weekday of [sample_day] that
    overlap, 09:00 to 10:00 and 09:30 to 10:30, and no booking. *)
Definition db_overlapping_windows : database :=
  mkDatabase [dr] [] []
             [mkAvailability dr (weekday sample_day) (mk_time 9 0) (mk_time 10 0);
              mkAvailability dr (weekday sample_day) (mk_time 9 30) (mk_time 10 30)].

(** A GET that names the date but no doctor. *)
Definition rq_no_doctor : request :=
  mkRequest true true Missing (Parsed sample_day) false.

(** An emergency GET for the last day of the calendar, 9999-12-31, and an
    anonymous GET. *)
Definition rq_last_day : request :=
  mkRequest true true (Parsed dr) (Parsed date_max) true.
Definition rq_anonymous : request :=
  mkRequest false true (Parsed dr) (Parsed sample_day) false.

(** The leave from 09:00 to 10:00 of [db_two_leaves] alone. *)
Definition db_morning_leave : database :=
  mkDatabase [dr] []
             [mkLeave dr sample_day sample_day (mk_time 9 0) (mk_time 10 0) LEAVE_APPROVED]
             [].

Definition at_time (d : date) (h m : Z) : datetime := combine d (mk_time h m).

(* ================================================================== *)
(** * Validation and saving of appointments (appointment/models.py) *)

Inductive appointment_type := REGULAR | FOLLOW_UP | EMERGENCY.

(** A row of the appointments table with the columns that validation and
    the status views read besides those of [Appointment]: the primary key
    ([None] until the row is first saved), the patient, the type, the
    emergency flag and the notes. *)
Record Booking := mkBooking {
  appt_id : option Z;
  appt_patient : Z;
  appt_row : Appointment;
  appt_type : appointment_type;
  appt_is_emergency : bool;
  appt_notes : string
}.

(** The tables with their primary keys.  [database_of] is what the slot
    view reads of them. *)
Record clinic := mkClinic {
  staff : list Z;
  bookings : list Booking;
  leaves : list (Z * DoctorLeaveRequest);
  windows : list (Z * DoctorAvailability)
}.

Definition database_of (c : clinic) : database :=
  mkDatabase (staff c) (map appt_row (bookings c))
             (map snd (leaves c)) (map snd (windows c)).

(** [clean] returns, or raises [ValidationError] with a message.  Messages
    are kept without the text of the row that some of them end with. *)
Inductive validation :=
| Valid
| ValidationError (message : string).

(** [.exclude(id=self.id)]: a row that has no key yet excludes nothing. *)
Definition same_pk (a b : option Z) : bool :=
  match a, b with
  | Some x, Some y => x =? y
  | _, _ => false
  end.

(** [for leave in leave_requests] of [Appointment.clean] (models.py 228-232). *)
Fixpoint on_approved_leave (start_time end_time : time) (is_emergency : bool)
         (leave_requests : list DoctorLeaveRequest) : bool :=
  match leave_requests with
  | [] => false
  | leave :: rest =>
      if (start_time <? leave_end_time leave) && (end_time >? leave_start_time leave)
      then
        if negb is_emergency then true
        else on_approved_leave start_time end_time is_emergency rest
      else on_approved_leave start_time end_time is_emergency rest
  end.

(** [for appt in overlapping_doctor] and [for appt in overlapping_patient]
    (models.py 262-282). *)
Fixpoint overlaps_one (start_time end_time : time) (others : list Booking) : bool :=
  match others with
  | [] => false
  | appt :: rest =>
      if (start_time <? appt_end_time (appt_row appt))
         && (end_time >? appt_start_time (appt_row appt))
      then true
      else overlaps_one start_time end_time rest
  end.

Definition overlapping_doctor (c : clinic) (self : Booking) : list Booking :=
  filter (fun a => (appt_doctor (appt_row a) =? appt_doctor (appt_row self))
                   && (appt_date (appt_row a) =? appt_date (appt_row self))
                   && is_active (appt_row a)
                   && negb (same_pk (appt_id a) (appt_id self)))
         (bookings c).

Definition overlapping_patient (c : clinic) (self : Booking) : list Booking :=
  filter (fun a => (appt_patient a =? appt_patient self)
                   && (appt_date (appt_row a) =? appt_date (appt_row self))
                   && is_active (appt_row a)
                   && negb (same_pk (appt_id a) (appt_id self)))
         (bookings c).

(** [DoctorAvailability.objects.filter(doctor=..., day_of_week=...,
      start_time__lte=self.start_time, end_time__gte=self.end_time).exists()] *)
Definition covering_window (c : clinic) (self : Booking) : bool :=
  exists_ (filter (fun s => (avail_doctor s =? appt_doctor (appt_row self))
                            && (avail_day_of_week s =? weekday (appt_date (appt_row self)))
                            && (avail_start_time s <=? appt_start_time (appt_row self))
                            && (avail_end_time s >=? appt_end_time (appt_row self)))
                  (map snd (windows c))).

Definition msg_start_before_end : string :=
  "Appointment start time must be before end time".
Definition msg_on_leave : string := "Doctor is on approved leave during this time".
Definition msg_not_available : string := "Doctor is not available during this time slot".
Definition msg_outside_hours : string :=
  "Appointment time is outside standard hours (8:00 AM - 10:00 PM)".
Definition msg_doctor_busy : string :=
  "Doctor already has an appointment during this time".
Definition msg_patient_busy : string :=
  "Patient already has an appointment during this time".

(** [Appointment.clean] (models.py 212-282). *)
Definition Appointment_clean (c : clinic) (self : Booking) : validation :=
  let doctor := appt_doctor (appt_row self) in
  let d := appt_date (appt_row self) in
  let start_time := appt_start_time (appt_row self) in
  let end_time := appt_end_time (appt_row self) in
  if start_time >=? end_time then ValidationError msg_start_before_end
  else
    let is_emergency :=
      match appt_type self with EMERGENCY => true | _ => false end
      || appt_is_emergency self in
    let leave_requests := approved_leaves (database_of c) doctor d in
    if on_approved_leave start_time end_time is_emergency leave_requests
    then ValidationError msg_on_leave
    else
      let standard_start := mk_time 8 0 in
      let standard_end := mk_time 22 0 in
      let doctor_has_availability_slots := doctor_has_slots (database_of c) doctor in
      let hours :=
        if doctor_has_availability_slots then
          let availability := covering_window c self in
          if negb availability && negb is_emergency
          then ValidationError msg_not_available else Valid
        else
          if ((start_time <? standard_start) || (end_time >? standard_end))
             && negb is_emergency
          then ValidationError msg_outside_hours else Valid in
      match hours with
      | ValidationError message => ValidationError message
      | Valid =>
          if overlaps_one start_time end_time (overlapping_doctor c self)
          then ValidationError msg_doctor_busy
          else if overlaps_one start_time end_time (overlapping_patient c self)
               then ValidationError msg_patient_busy
               else Valid
      end.

(** The key the database gives a new row: one that no stored row has. *)
Definition stored_pks (rows : list Booking) : list Z :=
  flat_map (fun r => match appt_id r with Some i => [i] | None => [] end) rows.

Definition next_pk (pks : list Z) : Z := fold_right Z.max 0 pks + 1.

(** [Appointment.save] (models.py 284-287): [full_clean], then the row is
    written: updated in place when its key is stored, inserted otherwise. *)
Definition Appointment_save (c : clinic) (self : Booking) : clinic + string :=
  match Appointment_clean c self with
  | ValidationError message => inr message
  | Valid =>
      let rows := bookings c in
      let rows' :=
        match appt_id self with
        | Some i =>
            if existsb (fun r => same_pk (appt_id r) (Some i)) rows
            then map (fun r => if same_pk (appt_id r) (Some i) then self else r) rows
            else rows ++ [self]
        | None =>
            rows ++ [mkBooking (Some (next_pk (stored_pks rows))) (appt_patient self)
                               (appt_row self) (appt_type self) (appt_is_emergency self)
                               (appt_notes self)]
        end in
      inl (mkClinic (staff c) rows' (leaves c) (windows c))
  end.

(** The page posts the bounds of the slot picked from the list as the texts
    ['%H:%M'] that the slot view returned, and [strptime] reads them back
    (forms.py 108-117, views.py 110-116): a time loses its seconds. *)
Definition posted_time (x : datetime) : time := mk_time (hour x) (minute x).

(** The row [book_appointment] saves for a slot picked from the list
    (views.py 106-141): status SCHEDULED, the posted times of the slot, and
    the type EMERGENCY when the emergency box is ticked. *)
Definition new_booking (patient doctor : Z) (d : date) (slot : interval)
           (emergency : bool) : Booking :=
  mkBooking None patient
            (mkAppointment doctor d (posted_time (fst slot)) (posted_time (snd slot))
                           SCHEDULED)
            (if emergency then EMERGENCY else REGULAR) emergency "".

(** The same row with the times of the slot as they are. *)
Definition slot_booking (patient doctor : Z) (d : date) (slot : interval)
           (emergency : bool) : Booking :=
  mkBooking None patient
            (mkAppointment doctor d (time_of (fst slot)) (time_of (snd slot)) SCHEDULED)
            (if emergency then EMERGENCY else REGULAR) emergency "".

(** ** Vocabulary *)

Definition emergency_booking (self : Booking) : bool :=
  match appt_type self with EMERGENCY => true | _ => false end || appt_is_emergency self.

Definition times_overlap (a b : Appointment) : Prop :=
  appt_start_time a < appt_end_time b /\ appt_end_time a > appt_start_time b.

(** Two different active rows of one day that share the doctor, or the
    patient, do not overlap; stored rows have distinct keys. *)
Definition clash (a b : Booking) : Prop :=
  appt_date (appt_row a) = appt_date (appt_row b)
  /\ (appt_doctor (appt_row a) = appt_doctor (appt_row b)
      \/ appt_patient a = appt_patient b)
  /\ is_active (appt_row a) = true /\ is_active (appt_row b) = true
  /\ times_overlap (appt_row a) (appt_row b).

Definition no_double_booking (c : clinic) : Prop :=
  NoDup (stored_pks (bookings c))
  /\ Forall (fun r => appt_id r <> None) (bookings c)
  /\ forall a b, In a (bookings c) -> In b (bookings c) ->
                 appt_id a <> appt_id b -> ~ clash a b.

(** A time of day as Python has it. *)
Definition valid_time (t : time) : Prop := 0 <= t < day_us.

(** A time or datetime without seconds, which ['%H:%M'] renders in full. *)
Definition whole_minute (x : Z) : Prop := x mod minute_us = 0.

(** The patient has no active appointment that day overlapping the slot. *)
Definition patient_free (c : clinic) (patient : Z) (d : date) (slot : interval) : Prop :=
  forall a, In a (bookings c) -> appt_patient a = patient ->
            appt_date (appt_row a) = d -> is_active (appt_row a) = true ->
            ~ (time_of (fst slot) < appt_end_time (appt_row a)
               /\ time_of (snd slot) > appt_start_time (appt_row a)).

(** ** Sample tables *)

(** One appointment of patient 100 filling the whole emergency window. *)
Definition clinic_fully_booked : clinic :=
  mkClinic [dr]
           [mkBooking (Some 1) 100
                      (mkAppointment dr sample_day (mk_time 0 0) (mk_time 23 59) SCHEDULED)
                      REGULAR false ""]
           [] [].

(** Two appointments of [dr] on the sample day, and one approved leave from
    12:00 to 13:00. *)
Definition clinic_morning : clinic :=
  mkClinic [dr]
           [mkBooking (Some 1) 100
                      (mkAppointment dr sample_day (mk_time 8 10) (mk_time 8 20) CONFIRMED)
                      REGULAR false "";
            mkBooking (Some 2) 101
                      (mkAppointment dr sample_day (mk_time 9 0) (mk_time 9 30) SCHEDULED)
                      FOLLOW_UP false ""]
           [(1, mkLeave dr sample_day sample_day (mk_time 12 0) (mk_time 13 0)
                        LEAVE_APPROVED)]
           [].

(** Availability windows of [dr] on the weekday of the sample day. *)
Definition clinic_two_windows : clinic :=
  mkClinic [dr]
           [mkBooking (Some 1) 100
                      (mkAppointment dr sample_day (mk_time 10 0) (mk_time 10 45) SCHEDULED)
                      REGULAR false ""]
           []
           [(1, mkAvailability dr (weekday sample_day) (mk_time 14 0) (mk_time 15 15));
            (2, mkAvailability dr (weekday sample_day) (mk_time 9 0) (mk_time 11 30))].

(** An availability window of [dr] on the day after the sample day only. *)
Definition clinic_other_weekday : clinic :=
  mkClinic [dr] [] []
           [(1, mkAvailability dr (weekday (sample_day + 1)) (mk_time 9 0) (mk_time 12 0))].

(* ================================================================== *)
(** * Validation of availability windows (appointment/models.py) *)

Definition msg_window_start_before_end : string := "Start time must be before end time".
Definition msg_window_overlap : string :=
  "This time slot overlaps with an existing slot".

(** [for slot in overlapping] of [DoctorAvailability.clean] (models.py
    43-45): the test counts windows that merely touch. *)
Fixpoint touches_one (start_time end_time : time) (others : list (Z * DoctorAvailability))
  : bool :=
  match others with
  | [] => false
  | slot :: rest =>
      if (start_time <=? avail_end_time (snd slot))
         && (end_time >=? avail_start_time (snd slot))
      then true
      else touches_one start_time end_time rest
  end.

(** [DoctorAvailability.clean] (models.py 32-45) for the row [self] with
    primary key [pk]. *)
Definition DoctorAvailability_clean (c : clinic) (pk : option Z) (self : DoctorAvailability)
  : validation :=
  if avail_start_time self >=? avail_end_time self
  then ValidationError msg_window_start_before_end
  else
    let overlapping :=
      filter (fun r => (avail_doctor (snd r) =? avail_doctor self)
                       && (avail_day_of_week (snd r) =? avail_day_of_week self)
                       && negb (same_pk (Some (fst r)) pk))
             (windows c) in
    if touches_one (avail_start_time self) (avail_end_time self) overlapping
    then ValidationError msg_window_overlap
    else Valid.

(** Every stored window passes [clean] against the others; keys are distinct. *)
Definition windows_validated (c : clinic) : Prop :=
  NoDup (map fst (windows c))
  /\ Forall (fun r => DoctorAvailability_clean c (Some (fst r)) (snd r) = Valid)
            (windows c).

(** [r1] ends strictly before [r2] begins. *)
Definition window_before (r1 r2 : DoctorAvailability) : Prop :=
  avail_end_time r1 < avail_start_time r2.

Definition windows_apart (r1 r2 : DoctorAvailability) : Prop :=
  window_before r1 r2 \/ window_before r2 r1.

(* ================================================================== *)
(** * Leave requests (appointment/forms.py, models.py, views.py) *)

Definition msg_leave_dates : string := "Start date must be before or equal to end date".
Definition msg_leave_times : string := "Start time must be before end time".

Definition with_end_time (lv : DoctorLeaveRequest) (end_time : time) : DoctorLeaveRequest :=
  mkLeave (leave_doctor lv) (leave_start_date lv) (leave_end_date lv)
          (leave_start_time lv) end_time (leave_status_of lv).

Definition with_status (lv : DoctorLeaveRequest) (status : leave_status)
  : DoctorLeaveRequest :=
  mkLeave (leave_doctor lv) (leave_start_date lv) (leave_end_date lv)
          (leave_start_time lv) (leave_end_time lv) status.

(** [DoctorLeaveRequestForm.clean] (forms.py 221-242) on fields that parsed:
    the cleaned data, or the error.  Equal times at 00:00 ask for the full
    day and get the end time 23:59. *)
Definition DoctorLeaveRequestForm_clean (lv : DoctorLeaveRequest)
  : DoctorLeaveRequest + string :=
  let start_time := leave_start_time lv in
  let end_time := leave_end_time lv in
  if leave_start_date lv >? leave_end_date lv then inr msg_leave_dates
  else if (start_time =? end_time) && (hour start_time =? 0) && (minute start_time =? 0)
       then inl (with_end_time lv (mk_time 23 59))
       else if start_time >=? end_time then inr msg_leave_times
            else inl lv.

(** [DoctorLeaveRequest.clean] (models.py 87-111); its last block, on
    overlapping appointments, changes nothing. *)
Definition DoctorLeaveRequest_clean (lv : DoctorLeaveRequest) : validation :=
  let start_time := leave_start_time lv in
  let end_time := leave_end_time lv in
  if leave_start_date lv >? leave_end_date lv then ValidationError msg_leave_dates
  else if (hour start_time =? 0) && (minute start_time =? 0)
          && (hour end_time =? 23) && (minute end_time =? 59)
       then Valid
       else if start_time >=? end_time then ValidationError msg_leave_times
            else Valid.

(** [DoctorLeaveRequestForm.save] (forms.py 244-256) sets the doctor and the
    status of the row it hands to the model. *)
Definition DoctorLeaveRequestForm_save (doctor : Z) (cleaned : DoctorLeaveRequest)
  : DoctorLeaveRequest :=
  mkLeave doctor (leave_start_date cleaned) (leave_end_date cleaned)
          (leave_start_time cleaned) (leave_end_time cleaned) LEAVE_PENDING.

(** ** The users and the answers of the views *)

Inductive role := ADMIN | DOCTOR | NURSE | RECEPTIONIST | PHARMACIST | OTHER_ROLE.

(** [request.user]; [None] is the anonymous user. *)
Record user := mkUser {
  user_pk : Z;
  user_role : role
}.

Definition has_role (u : option user) (r : role) : bool :=
  match u with
  | Some u =>
      match user_role u, r with
      | ADMIN, ADMIN | DOCTOR, DOCTOR | NURSE, NURSE
      | RECEPTIONIST, RECEPTIONIST | PHARMACIST, PHARMACIST => true
      | _, _ => false
      end
  | None => false
  end.

(** What a view answers: a redirect, a rendered page, [Http404] of
    [get_object_or_404], or an exception that nothing catches. *)
Inductive http_response :=
| Redirect (name : string)
| Render (template : string)
| Http404
| Raised (message : string).

(** ** The leave views *)

Definition find_leave (c : clinic) (pk : Z) : option (Z * DoctorLeaveRequest) :=
  find (fun r => fst r =? pk) (leaves c).

(** [DoctorLeaveRequest.save] (models.py 113-121) of a stored row:
    [full_clean], then the row with that key is rewritten. *)
Definition DoctorLeaveRequest_save (c : clinic) (pk : Z) (lv : DoctorLeaveRequest)
  : clinic + string :=
  match DoctorLeaveRequest_clean lv with
  | ValidationError message => inr message
  | Valid =>
      inl (mkClinic (staff c) (bookings c)
                    (map (fun r => if fst r =? pk then (pk, lv) else r) (leaves c))
                    (windows c))
  end.

(** [cancel_leave_request] (views.py 850-866), behind [doctor_required]. *)
Definition cancel_leave_request (u : option user) (is_POST : bool) (pk : Z) (c : clinic)
  : http_response * clinic :=
  if has_role u DOCTOR then
    match u, find_leave c pk with
    | Some u, Some (_, leave_request) =>
        if leave_doctor leave_request =? user_pk u then
          match leave_status_of leave_request with
          | LEAVE_PENDING =>
              if is_POST then
                match DoctorLeaveRequest_save c pk (with_status leave_request LEAVE_CANCELLED)
                with
                | inl c' => (Redirect "doctor_leave_history", c')
                | inr message => (Raised message, c)
                end
              else (Render "appointment/cancel_leave_request.html", c)
          | _ => (Redirect "doctor_leave_history", c)
          end
        else (Http404, c)
    | _, _ => (Http404, c)
    end
  else (Redirect "dashboard", c).

(** [LeaveRequestReviewForm.is_valid] (forms.py 259-281): the status must be
    one of the two choices of the form, and the instance must pass the
    model's [clean]. *)
Definition LeaveRequestReviewForm_is_valid (leave_request : DoctorLeaveRequest)
           (status : option leave_status) : option DoctorLeaveRequest :=
  match status with
  | Some LEAVE_APPROVED | Some LEAVE_REJECTED =>
      match status with
      | Some s =>
          match DoctorLeaveRequest_clean (with_status leave_request s) with
          | Valid => Some (with_status leave_request s)
          | ValidationError _ => None
          end
      | None => None
      end
  | _ => None
  end.

(** [review_leave_request] (views.py 904-939), behind [admin_required]. *)
Definition review_leave_request (u : option user) (is_POST : bool)
           (status : option leave_status) (pk : Z) (c : clinic)
  : http_response * clinic :=
  if has_role u ADMIN then
    match find_leave c pk with
    | Some (_, leave_request) =>
        match leave_status_of leave_request with
        | LEAVE_PENDING =>
            if is_POST then
              match LeaveRequestReviewForm_is_valid leave_request status with
              | Some reviewed =>
                  match DoctorLeaveRequest_save c pk reviewed with
                  | inl c' => (Redirect "admin_leave_requests", c')
                  | inr message => (Raised message, c)
                  end
              | None => (Render "appointment/review_leave_request.html", c)
              end
            else (Render "appointment/review_leave_request.html", c)
        | _ => (Redirect "admin_leave_requests", c)
        end
    | None => (Http404, c)
    end
  else (Redirect "dashboard", c).

(** One request to a leave view. *)
Inductive leave_event :=
| CancelLeave (u : option user) (is_POST : bool) (pk : Z)
| ReviewLeave (u : option user) (is_POST : bool) (status : option leave_status) (pk : Z).

Definition leave_step (c : clinic) (ev : leave_event) : clinic :=
  match ev with
  | CancelLeave u is_POST pk => snd (cancel_leave_request u is_POST pk c)
  | ReviewLeave u is_POST status pk => snd (review_leave_request u is_POST status pk c)
  end.

Definition leave_status_at (c : clinic) (pk : Z) : option leave_status :=
  option_map (fun r => leave_status_of (snd r)) (find_leave c pk).

(** ** Sample leave tables *)

(** An approved full-day leave of [dr] over three days, and nothing else. *)
Definition db_full_day_leave : database :=
  mkDatabase [dr] []
             [mkLeave dr (sample_day - 1) (sample_day + 1) (mk_time 0 0) (mk_time 23 59)
                      LEAVE_APPROVED]
             [].

(** One pending and one approved leave request of [dr]. *)
Definition clinic_leaves : clinic :=
  mkClinic [dr; 1] []
           [(1, mkLeave dr sample_day sample_day (mk_time 9 0) (mk_time 12 0) LEAVE_PENDING);
            (2, mkLeave dr (sample_day + 7) (sample_day + 7) (mk_time 0 0) (mk_time 23 59)
                        LEAVE_APPROVED)]
           [].

Definition the_doctor : user := mkUser dr DOCTOR.
Definition the_admin : user := mkUser 1 ADMIN.

(* ================================================================== *)
(** * The status views of an appointment (appointment/views.py) *)

Definition newline : string := String (ascii_of_nat 10) EmptyString.

Definition is_empty (s : string) : bool :=
  match s with
  | EmptyString => true
  | String _ _ => false
  end.

(** [get_object_or_404(Appointment, pk=pk)] *)
Definition find_booking (c : clinic) (pk : Z) : option Booking :=
  find (fun r => same_pk (appt_id r) (Some pk)) (bookings c).

Definition with_status_and_notes (a : Booking) (status : appointment_status)
           (notes : string) : Booking :=
  mkBooking (appt_id a) (appt_patient a)
            (mkAppointment (appt_doctor (appt_row a)) (appt_date (appt_row a))
                           (appt_start_time (appt_row a)) (appt_end_time (appt_row a))
                           status)
            (appt_type a) (appt_is_emergency a) notes.

(** The note a view adds: [stamp] is the text of
    [timezone.now().strftime('%Y-%m-%d %H:%M')], [tag] what follows it
    inside the brackets. *)
Definition add_note (notes stamp tag text : string) : string :=
  if is_empty text then notes
  else if is_empty notes
       then ("[" ++ stamp ++ tag ++ "] " ++ text)%string
       else (notes ++ newline ++ "[" ++ stamp ++ tag ++ "] " ++ text)%string.

(** [user.is_admin or user.is_receptionist or user == appointment.doctor] *)
Definition may_update (u : user) (appointment : Booking) : bool :=
  has_role (Some u) ADMIN || has_role (Some u) RECEPTIONIST
  || (user_pk u =? appt_doctor (appt_row appointment)).

(** [update_appointment_status] (views.py 522-548), behind [login_required].
    [status] is the cleaned status of [AppointmentStatusForm], [None] when
    the form is not valid; [notes] its cleaned notes. *)
Definition update_appointment_status (u : option user) (is_POST : bool)
           (status : option appointment_status) (notes stamp : string) (pk : Z)
           (c : clinic) : http_response * clinic :=
  match u with
  | None => (Redirect "login", c)
  | Some u =>
      match find_booking c pk with
      | None => (Http404, c)
      | Some appointment =>
          if negb (may_update u appointment) then (Redirect "appointment_detail", c)
          else if is_POST then
                 match status with
                 | Some status =>
                     match Appointment_save
                             c (with_status_and_notes
                                  appointment status
                                  (add_note (appt_notes appointment) stamp "" notes))
                     with
                     | inl c' => (Redirect "appointment_detail", c')
                     | inr message => (Raised message, c)
                     end
                 | None => (Redirect "appointment_detail", c)
                 end
               else (Redirect "appointment_detail", c)
      end
  end.

(** [cancel_appointment] (views.py 551-572), behind [receptionist_required]. *)
Definition cancel_appointment (u : option user) (is_POST : bool) (reason stamp : string)
           (pk : Z) (c : clinic) : http_response * clinic :=
  if has_role u RECEPTIONIST then
    match find_booking c pk with
    | None => (Http404, c)
    | Some appointment =>
        if is_POST then
          match Appointment_save
                  c (with_status_and_notes
                       appointment CANCELLED
                       (add_note (appt_notes appointment) stamp " - CANCELLED" reason))
          with
          | inl c' => (Redirect "appointment_list", c')
          | inr message => (Raised message, c)
          end
        else (Render "appointment/cancel_appointment.html", c)
    end
  else (Redirect "dashboard", c).

(** Everything of a row but its status and notes. *)
Definition same_appointment (a b : Booking) : Prop :=
  appt_id a = appt_id b /\ appt_patient a = appt_patient b
  /\ appt_doctor (appt_row a) = appt_doctor (appt_row b)
  /\ appt_date (appt_row a) = appt_date (appt_row b)
  /\ appt_start_time (appt_row a) = appt_start_time (appt_row b)
  /\ appt_end_time (appt_row a) = appt_end_time (appt_row b)
  /\ appt_type a = appt_type b /\ appt_is_emergency a = appt_is_emergency b.

(** The tables [c'] differ from [c] at most in the status and the notes of
    the appointment with key [pk]. *)
Definition differ_in_status_and_notes (pk : Z) (c c' : clinic) : Prop :=
  staff c' = staff c /\ leaves c' = leaves c /\ windows c' = windows c
  /\ Forall2 (fun r r' => same_appointment r r' /\ (r' <> r -> appt_id r = Some pk))
             (bookings c) (bookings c').

(** An approved leave of the doctor of [a], on its day, overlapping it. *)
Definition inside_approved_leave (c : clinic) (a : Booking) : Prop :=
  exists lv, In lv (approved_leaves (database_of c) (appt_doctor (appt_row a))
                                    (appt_date (appt_row a)))
             /\ appt_start_time (appt_row a) < leave_end_time lv
             /\ appt_end_time (appt_row a) > leave_start_time lv.

(** An appointment of [dr] that a leave approved later has come to cover. *)
Definition clinic_leave_after_booking : clinic :=
  mkClinic [dr; 1; 2]
           [mkBooking (Some 1) 100
                      (mkAppointment dr sample_day (mk_time 9 0) (mk_time 9 30) SCHEDULED)
                      REGULAR false ""]
           [(1, mkLeave dr sample_day sample_day (mk_time 8 0) (mk_time 12 0)
                        LEAVE_APPROVED)]
           [].

Definition the_receptionist : user := mkUser 2 RECEPTIONIST.
(* ================================================================== *)
(* ================================================================== *)
(** * Properties *)

(** ** Arithmetic of the iteration count *)

Lemma slot_count_done (slot_start close step : Z) :
  0 < step -> close <= slot_start -> slot_count slot_start close step = O.
Proof.
  intros Hs Hc. unfold slot_count.
  assert (H : (close - slot_start + step - 1) / step <= 0).
  { apply Z.lt_succ_r. apply Z.div_lt_upper_bound; lia. }
  lia.
Qed.

Lemma slot_count_step (slot_start close step : Z) :
  0 < step -> slot_start < close ->
  slot_count slot_start close step
  = S (slot_count (Z.min (slot_start + step) close) close step).
Proof.
  intros Hs Hlt. unfold slot_count.
  destruct (Z.le_gt_cases (slot_start + step) close) as [Hle | Hgt].
  - rewrite Z.min_l by lia.
    replace (close - slot_start + step - 1)
      with ((close - (slot_start + step) + step - 1) + 1 * step) by lia.
    rewrite Z.div_add by lia.
    assert (0 <= (close - (slot_start + step) + step - 1) / step)
      by (apply Z.div_pos; lia).
    lia.
  - rewrite Z.min_r by lia.
    replace (close - close + step - 1) with (step - 1) by lia.
    rewrite (Z.div_small (step - 1)) by lia.
    replace (close - slot_start + step - 1)
      with ((close - slot_start - 1) + 1 * step) by lia.
    rewrite Z.div_add by lia.
    rewrite Z.div_small by lia. reflexivity.
Qed.

(* ================================================================== *)
(** * The partition *)

Section Partition.
Variables (close : datetime) (step : timedelta).
Hypothesis step_pos : 0 < step.

Lemma partition_from_bounds (n : nat) (slot_start : datetime) :
  Forall (fun c => slot_start <= fst c /\ fst c < snd c /\ snd c <= close
                   /\ snd c - fst c <= step
                   /\ (snd c - fst c < step -> snd c = close))
         (partition_from n slot_start close step).
Proof.
  revert slot_start. induction n as [| n IH]; intros slot_start; simpl.
  - constructor.
  - destruct (Z.ltb_spec slot_start close) as [Hlt | Hge]; [| constructor].
    constructor.
    + simpl. lia.
    + eapply Forall_impl; [| apply IH]. simpl. intros c Hc. lia.
Qed.

Lemma partition_from_sorted (n : nat) (slot_start : datetime) :
  StronglySorted precedes (partition_from n slot_start close step).
Proof.
  revert slot_start. induction n as [| n IH]; intros slot_start; simpl.
  - constructor.
  - destruct (Z.ltb_spec slot_start close) as [Hlt | Hge]; [| constructor].
    constructor; [apply IH |].
    eapply Forall_impl; [| apply partition_from_bounds].
    unfold precedes. simpl. intros c Hc. lia.
Qed.

Lemma partition_from_covers (n : nat) (slot_start t : datetime) :
  (slot_count slot_start close step <= n)%nat ->
  slot_start <= t < close ->
  exists c, In c (partition_from n slot_start close step) /\ covers c t.
Proof.
  revert slot_start. induction n as [| n IH]; intros slot_start Hn Ht.
  - rewrite (slot_count_step _ _ _ step_pos) in Hn; lia.
  - rewrite (slot_count_step _ _ _ step_pos) in Hn by lia. simpl.
    destruct (Z.ltb_spec slot_start close); [| lia].
    destruct (Z.lt_ge_cases t (Z.min (slot_start + step) close)) as [Hin | Hout].
    + exists (slot_start, Z.min (slot_start + step) close).
      split; [left; reflexivity | unfold covers; simpl; lia].
    + destruct (IH (Z.min (slot_start + step) close)) as (c & Hc & Hcov);
        [lia | lia |].
      exists c. split; [right; exact Hc | exact Hcov].
Qed.

Lemma partition_from_candidates (open : datetime) (n k : nat) :
  n = slot_count (open + Z.of_nat k * step) close step ->
  partition_from n (open + Z.of_nat k * step) close step
  = map (candidate open close step) (seq k n).
Proof.
  revert k. induction n as [| n IH]; intros k Hn; [reflexivity |].
  simpl. destruct (Z.ltb_spec (open + Z.of_nat k * step) close) as [Hlt | Hge].
  - rewrite (slot_count_step _ _ _ step_pos Hlt) in Hn.
    injection Hn as Hn. unfold candidate at 1.
    replace (open + (Z.of_nat k + 1) * step)
      with (open + Z.of_nat k * step + step) by lia.
    f_equal.
    destruct (Z.le_gt_cases (open + Z.of_nat k * step + step) close) as [Hle | Hgt].
    + rewrite Z.min_l in * by lia.
      replace (open + Z.of_nat k * step + step)
        with (open + Z.of_nat (S k) * step) in * by lia.
      apply IH. exact Hn.
    + rewrite Z.min_r in * by lia.
      rewrite slot_count_done in Hn by lia. subst n. reflexivity.
  - rewrite slot_count_done in Hn by lia. discriminate.
Qed.

Lemma partition_is_candidates (open : datetime) :
  partition_from (slot_count open close step) open close step
  = candidates open close step.
Proof.
  unfold candidates.
  pose proof (partition_from_candidates open (slot_count open close step) 0) as H.
  simpl in H. rewrite Z.add_0_r in H. apply H. reflexivity.
Qed.
End Partition.

(* ================================================================== *)
(** * The loops compute the free candidates of the partition *)

Lemma clamp_is_min (slot_start close step : Z) :
  (if slot_start + step >? close then close else slot_start + step)
  = Z.min (slot_start + step) close.
Proof.
  destruct (Z.gtb_spec (slot_start + step) close); lia.
Qed.

Lemma slot_count_last (slot_start close step : Z) :
  0 < step -> slot_start < close -> close <= slot_start + step ->
  slot_count slot_start close step = 1%nat.
Proof.
  intros Hstep Hlt Hle. rewrite (slot_count_step _ _ _ Hstep Hlt).
  rewrite Z.min_r by lia. rewrite slot_count_done by lia. reflexivity.
Qed.

Lemma add_timedelta_cases (dt : datetime) (delta : timedelta) :
  (add_timedelta dt delta = Ok (dt + delta)
   /\ datetime_min <= dt + delta <= datetime_max)
  \/ (add_timedelta dt delta = Raise OverflowError
      /\ (dt + delta < datetime_min \/ datetime_max < dt + delta)).
Proof.
  unfold add_timedelta. cbv zeta.
  destruct (Z.leb_spec datetime_min (dt + delta));
    destruct (Z.leb_spec (dt + delta) datetime_max); simpl; auto.
Qed.

(** What a run of the loop raises is decided by its first and last sums. *)
Lemma overflowing_first (slot_start close step : Z) :
  0 < step -> slot_start < close ->
  (slot_start + step < datetime_min \/ datetime_max < slot_start + step) ->
  overflowing slot_start close step = true.
Proof.
  intros Hstep Hlt Hout. unfold overflowing.
  rewrite (proj2 (Z.ltb_lt _ _) Hlt). simpl.
  apply orb_true_iff. destruct Hout as [Hmin | Hmax].
  - left. now apply Z.ltb_lt.
  - right. apply Z.ltb_lt. rewrite (slot_count_step _ _ _ Hstep Hlt).
    rewrite Nat2Z.inj_succ.
    pose proof (Nat2Z.is_nonneg
                  (slot_count (Z.min (slot_start + step) close) close step)).
    nia.
Qed.

Lemma overflowing_next (slot_start close step : Z) :
  0 < step -> slot_start < close ->
  datetime_min <= slot_start + step <= datetime_max ->
  overflowing slot_start close step
  = overflowing (Z.min (slot_start + step) close) close step.
Proof.
  intros Hstep Hlt Hin. unfold overflowing.
  rewrite (proj2 (Z.ltb_lt _ _) Hlt).
  rewrite (proj2 (Z.ltb_ge (slot_start + step) datetime_min)) by lia.
  cbn [andb orb].
  destruct (Z.le_gt_cases close (slot_start + step)) as [Hle | Hgt].
  - rewrite (slot_count_last _ _ _ Hstep Hlt Hle), Z.min_r by lia.
    rewrite Z.ltb_irrefl. cbn [andb]. apply Z.ltb_ge.
    change (Z.of_nat 1) with 1. lia.
  - rewrite (slot_count_step _ _ _ Hstep Hlt), Z.min_l by lia.
    rewrite (proj2 (Z.ltb_lt _ _) Hgt).
    rewrite (proj2 (Z.ltb_ge (slot_start + step + step) datetime_min)) by lia.
    cbn [andb orb]. f_equal. rewrite Nat2Z.inj_succ. lia.
Qed.

Section LoopSpec.
Context {A : Type}.
Variables (emit : datetime -> datetime -> A) (d : date)
          (leave : option (time * time)) (existing : list Appointment)
          (close : datetime) (step : timedelta).
Hypothesis step_pos : 0 < step.

Lemma slot_loop_spec (fuel : nat) (slot_start : datetime) (acc : list A) :
  (slot_count slot_start close step <= fuel)%nat ->
  slot_loop emit d leave existing close step fuel slot_start acc
  = Some (if overflowing slot_start close step then Raise OverflowError
          else Ok (acc ++ map (pair_of emit)
                              (filter (free d leave existing)
                                      (partition_from fuel slot_start close step)))).
Proof.
  revert slot_start acc.
  induction fuel as [| fuel IH]; intros slot_start acc Hfuel.
  - simpl. destruct (Z.ltb_spec slot_start close) as [Hlt | Hge].
    + rewrite (slot_count_step _ _ _ step_pos Hlt) in Hfuel. lia.
    + unfold overflowing. rewrite (proj2 (Z.ltb_ge _ _) Hge). simpl.
      now rewrite app_nil_r.
  - simpl. destruct (Z.ltb_spec slot_start close) as [Hlt | Hge].
    + destruct (add_timedelta_cases slot_start step) as [[Hadd Hin] | [Hadd Hout]];
        rewrite Hadd.
      * rewrite clamp_is_min.
        rewrite (overflowing_next _ _ _ step_pos Hlt Hin).
        rewrite (slot_count_step _ _ _ step_pos Hlt) in Hfuel.
        assert (Hfuel' : (slot_count (Z.min (slot_start + step) close) close step
                          <= fuel)%nat) by lia.
        simpl. unfold free at 1. simpl.
        destruct (on_leave leave slot_start (Z.min (slot_start + step) close)); simpl.
        -- apply IH. exact Hfuel'.
        -- destruct (is_available d slot_start (Z.min (slot_start + step) close)
                                  existing).
           ++ rewrite IH by exact Hfuel'. simpl.
              now rewrite <- app_assoc.
           ++ apply IH. exact Hfuel'.
      * now rewrite (overflowing_first _ _ _ step_pos Hlt Hout).
    + unfold overflowing. rewrite (proj2 (Z.ltb_ge _ _) Hge). simpl.
      now rewrite app_nil_r.
Qed.

Lemma run_slot_loop_spec (open : datetime) (acc : list A) :
  run_slot_loop emit d leave existing open close step acc
  = Some (if overflowing open close step then Raise OverflowError
          else Ok (acc ++ map (pair_of emit)
                              (filter (free d leave existing)
                                      (candidates open close step)))).
Proof.
  unfold run_slot_loop. rewrite slot_loop_spec by lia.
  now rewrite (partition_is_candidates close step step_pos).
Qed.
End LoopSpec.

Lemma minutes_pos (m : Z) : 0 < m -> 0 < minutes m.
Proof. unfold minutes, minute_us. lia. Qed.

Lemma day_slots_loop_spec {A : Type} (emit : datetime -> datetime -> A) (d : date)
      (existing : list Appointment) (rows : list DoctorAvailability) (acc : list A) :
  day_slots_loop emit d existing rows acc
  = Some (if existsb (fun w => overflowing (fst w) (snd w) (minutes 30))
                     (map (window_of d) rows)
          then Raise OverflowError
          else Ok (acc ++ map (pair_of emit)
                              (flat_map (fun row =>
                                           filter (free d None existing)
                                                  (candidates (fst (window_of d row))
                                                              (snd (window_of d row))
                                                              (minutes 30)))
                                        rows))).
Proof.
  revert acc. induction rows as [| row rows IH]; intros acc; simpl.
  - now rewrite app_nil_r.
  - rewrite run_slot_loop_spec by (apply minutes_pos; lia).
    destruct (overflowing _ _ _); simpl; [reflexivity |].
    rewrite IH. destruct (existsb _ _); [reflexivity |].
    rewrite map_app, app_assoc. reflexivity.
Qed.

(** ** What the tests of the loop decide *)

Lemma overlapsb_spec (c other : interval) :
  overlapsb c other = true <-> overlaps c other.
Proof.
  unfold overlapsb, overlaps. rewrite andb_true_iff, Z.ltb_lt, Z.gtb_ltb, Z.ltb_lt. lia.
Qed.

Lemma bookedb_spec (d : date) (existing : list Appointment) (c : interval) :
  bookedb d existing c = true <-> booked d existing c.
Proof.
  unfold bookedb, booked. rewrite existsb_exists.
  split; intros (a & Ha & Ho); exists a; split; auto; now apply overlapsb_spec.
Qed.

Lemma is_available_bookedb (d : date) (slot_start slot_end : datetime)
      (existing : list Appointment) :
  is_available d slot_start slot_end existing
  = negb (bookedb d existing (slot_start, slot_end)).
Proof.
  induction existing as [| appt rest IH]; simpl; [reflexivity |].
  unfold overlapsb at 1. simpl.
  destruct ((slot_start <? combine d (appt_end_time appt))
            && (slot_end >? combine d (appt_start_time appt))); simpl; auto.
Qed.

Lemma is_available_spec (d : date) (slot_start slot_end : datetime)
      (existing : list Appointment) :
  is_available d slot_start slot_end existing = true
  <-> ~ booked d existing (slot_start, slot_end).
Proof.
  rewrite is_available_bookedb, negb_true_iff, <- bookedb_spec.
  destruct (bookedb d existing (slot_start, slot_end)); split; congruence.
Qed.

Lemma time_of_within (d : date) (x : datetime) :
  combine d 0 <= x < combine d day_us -> time_of x = x - d * day_us.
Proof.
  unfold combine, time_of. intros H.
  symmetry. apply Z.mod_unique with (q := d); [left; lia | lia].
Qed.

Lemma on_leave_spec (d : date) (leave : option (time * time)) (c : interval) :
  combine d 0 <= fst c -> fst c <= snd c -> snd c < combine d day_us ->
  on_leave leave (fst c) (snd c) = true <-> blacked_out d leave c.
Proof.
  intros H1 H2 H3. unfold on_leave, blacked_out.
  destruct leave as [[leave_start leave_end] |].
  - rewrite !(time_of_within d) by lia.
    rewrite andb_true_iff, Z.ltb_lt, Z.gtb_ltb, Z.ltb_lt.
    unfold overlaps, leave_interval, combine. simpl. split.
    + intros H. exists (leave_start, leave_end). split; [reflexivity | simpl; lia].
    + intros (lv & Heq & Ho). injection Heq as <-. simpl in Ho. lia.
  - split; [discriminate |]. intros (lv & Heq & _). discriminate.
Qed.

Lemma free_spec (d : date) (leave : option (time * time))
      (existing : list Appointment) (c : interval) :
  combine d 0 <= fst c -> fst c <= snd c -> snd c < combine d day_us ->
  free d leave existing c = true
  <-> ~ booked d existing c /\ ~ blacked_out d leave c.
Proof.
  intros H1 H2 H3. unfold free.
  rewrite andb_true_iff, negb_true_iff.
  destruct c as [s e]. simpl fst in *. simpl snd in *.
  rewrite is_available_spec.
  pose proof (on_leave_spec d leave (s, e) H1 H2 H3) as Hl. simpl in Hl.
  destruct (on_leave leave s e); split.
  - intros [Hf _]. discriminate.
  - intros [_ Hn]. exfalso. apply Hn. now apply Hl.
  - intros [_ Hb]. split; [exact Hb |]. intros Hbl. apply Hl in Hbl. discriminate.
  - intros [Hb _]. split; [reflexivity | exact Hb].
Qed.

Lemma free_no_leave (d : date) (existing : list Appointment) (c : interval) :
  free d None existing c = negb (bookedb d existing c).
Proof.
  unfold free. simpl. destruct c. apply is_available_bookedb.
Qed.

(* ================================================================== *)
(** * The calendar *)

Lemma hour_range (x : Z) : 0 <= hour x < 24.
Proof.
  unfold hour, time_of.
  pose proof (Z.mod_pos_bound x day_us) as H.
  generalize dependent (x mod day_us).
  unfold day_us, hour_us, minute_us. intros r H. split.
  - apply Z.div_pos; lia.
  - apply Z.div_lt_upper_bound; lia.
Qed.

Lemma minute_range (x : Z) : 0 <= minute x < 60.
Proof. unfold minute. apply Z.mod_pos_bound. lia. Qed.

Lemma hour_mk_time (h m : Z) : 0 <= h < 24 -> 0 <= m < 60 -> hour (mk_time h m) = h.
Proof.
  intros Hh Hm. unfold hour, time_of, mk_time.
  rewrite (Z.mod_small (h * hour_us + m * minute_us) day_us)
    by (unfold day_us, hour_us, minute_us; lia).
  symmetry. apply Z.div_unique with (r := m * minute_us);
    unfold hour_us, minute_us; lia.
Qed.

Lemma minute_mk_time (h m : Z) : 0 <= h < 24 -> 0 <= m < 60 -> minute (mk_time h m) = m.
Proof.
  intros Hh Hm. unfold minute, time_of, mk_time.
  rewrite (Z.mod_small (h * hour_us + m * minute_us) day_us)
    by (unfold day_us, hour_us, minute_us; lia).
  replace ((h * hour_us + m * minute_us) / minute_us) with (m + h * 60).
  - rewrite Z.mod_add by lia. apply Z.mod_small. exact Hm.
  - apply Z.div_unique with (r := 0); unfold hour_us, minute_us; lia.
Qed.

Lemma emergency_slot_count (d : date) :
  slot_count (combine d (mk_time 0 0)) (combine d (mk_time 23 59)) (minutes 15) = 96%nat.
Proof.
  unfold slot_count, combine.
  replace (d * day_us + mk_time 23 59 - (d * day_us + mk_time 0 0) + minutes 15 - 1)
    with (mk_time 23 59 - mk_time 0 0 + minutes 15 - 1) by lia.
  reflexivity.
Qed.

Lemma standard_slot_count (d : date) :
  slot_count (combine d (mk_time 8 0)) (combine d (mk_time 22 0)) (minutes 30) = 28%nat.
Proof.
  unfold slot_count, combine.
  replace (d * day_us + mk_time 22 0 - (d * day_us + mk_time 8 0) + minutes 30 - 1)
    with (mk_time 22 0 - mk_time 8 0 + minutes 30 - 1) by lia.
  reflexivity.
Qed.

(** The emergency loop raises on the last day of the calendar, where
    23:45 plus a quarter of an hour is no datetime, and on no other day. *)
Lemma emergency_overflow (d : date) :
  overflowing (combine d (mk_time 0 0)) (combine d (mk_time 23 59)) (minutes 15)
  = negb ((date_min <=? d) && (d <? date_max)).
Proof.
  unfold overflowing. rewrite emergency_slot_count.
  unfold combine, datetime_min, datetime_max, date_min, date_max, combine, mk_time,
    minutes, day_us, hour_us, minute_us.
  destruct (Z.leb_spec 1 d); destruct (Z.ltb_spec d 3652059); simpl;
    repeat match goal with
           | |- context [?a <? ?b] => destruct (Z.ltb_spec a b); try lia; simpl
           end; reflexivity.
Qed.

(** The loop over the standard hours raises on no day of the calendar. *)
Lemma standard_overflow (d : date) :
  overflowing (combine d (mk_time 8 0)) (combine d (mk_time 22 0)) (minutes 30)
  = negb ((date_min <=? d) && (d <=? date_max)).
Proof.
  unfold overflowing. rewrite standard_slot_count.
  unfold combine, datetime_min, datetime_max, date_min, date_max, combine, mk_time,
    minutes, day_us, hour_us, minute_us.
  destruct (Z.leb_spec 1 d); destruct (Z.leb_spec d 3652059); simpl;
    repeat match goal with
           | |- context [?a <? ?b] => destruct (Z.ltb_spec a b); try lia; simpl
           end; reflexivity.
Qed.

Lemma standard_in_calendar (d : date) :
  date_min <= d <= date_max ->
  overflowing (combine d (mk_time 8 0)) (combine d (mk_time 22 0)) (minutes 30) = false.
Proof.
  intros [Hmin Hmax]. rewrite standard_overflow.
  now rewrite (proj2 (Z.leb_le _ _) Hmin), (proj2 (Z.leb_le _ _) Hmax).
Qed.

Lemma calendar_overflow_emergency (db : database) (doctor : Z) (d : date) :
  calendar_overflow true db doctor d = negb ((date_min <=? d) && (d <? date_max)).
Proof.
  unfold calendar_overflow, working_windows. simpl existsb.
  rewrite orb_false_r. apply emergency_overflow.
Qed.

(** Before the last day, the quarter of an hour that the fallback adds
    stays in the calendar. *)
Lemma fallback_sum (d : date) (now : datetime) :
  date_min <= d < date_max ->
  add_timedelta (combine d (mk_time (hour now) (minute now / 15 * 15))) (minutes 15)
  = Ok (combine d (mk_time (hour now) (minute now / 15 * 15)) + minutes 15).
Proof.
  intros Hd.
  destruct (add_timedelta_cases
              (combine d (mk_time (hour now) (minute now / 15 * 15))) (minutes 15))
    as [[Hadd _] | [_ Hout]]; [exact Hadd | exfalso].
  pose proof (hour_range now) as Hh. pose proof (minute_range now) as Hm.
  assert (Hq : 0 <= minute now / 15 * 15 <= minute now).
  { pose proof (Z.div_mod (minute now) 15) as Hdm.
    pose proof (Z.mod_pos_bound (minute now) 15). lia. }
  unfold combine, datetime_min, datetime_max, date_min, date_max, combine, mk_time,
    minutes, day_us, hour_us, minute_us in *.
  lia.
Qed.

(* ================================================================== *)
(** * The view returns the kept candidates, or the fallback *)

Section ViewSpec.
Context {A : Type}.
Variable mk : bool -> datetime -> datetime -> A.
Variables (rq : request) (db : database) (now : datetime) (doctor : Z) (d : date).
Hypothesis Hacc : accepted rq db doctor d.

Lemma accepted_dispatch :
  get_available_slots_with mk rq db now
  = match (if is_emergency rq then emergency_slots mk db now doctor d
           else regular_slots mk db doctor d) with
    | None => None
    | Some (Ok response) => Some response
    | Some (Raise OverflowError) => Some (JsonError error_processing 500)
    end.
Proof.
  destruct Hacc as (Hauth & Hget & Hdoc & Hdate & Huser).
  unfold get_available_slots_with. rewrite Hauth, Hget, Hdoc, Hdate.
  assert (Hex : existsb (Z.eqb doctor) (users db) = true).
  { apply existsb_exists. exists doctor. split; [exact Huser | apply Z.eqb_refl]. }
  now rewrite Hex.
Qed.

Lemma emergency_slots_spec :
  emergency_slots mk db now doctor d
  = Some (if calendar_overflow true db doctor d then Raise OverflowError
          else Ok (JsonSlots (map (pair_of (mk true))
                                  (returned_intervals true db now doctor d))
                             (Some emergency_message) None)).
Proof.
  rewrite calendar_overflow_emergency.
  unfold emergency_slots, returned_intervals, loop_intervals.
  rewrite run_slot_loop_spec by reflexivity. rewrite emergency_overflow.
  destruct (Z.leb_spec date_min d) as [Hmin | Hmin]; simpl; [| reflexivity].
  destruct (Z.ltb_spec d date_max) as [Hmax | Hmax]; simpl; [| reflexivity].
  destruct (filter _ _) as [| c kept]; [| reflexivity].
  simpl. destruct (d =? date_of now); [| reflexivity].
  rewrite fallback_sum by lia. reflexivity.
Qed.

Lemma regular_slots_spec :
  exists message warning,
    regular_slots mk db doctor d
    = Some (if calendar_overflow false db doctor d then Raise OverflowError
            else Ok (JsonSlots (map (pair_of (mk false))
                                    (returned_intervals false db now doctor d))
                               message warning)).
Proof.
  unfold regular_slots, returned_intervals, loop_intervals, calendar_overflow,
    working_windows.
  destruct (first (approved_leaves db doctor d)) as [lv |].
  - rewrite run_slot_loop_spec by reflexivity. simpl existsb. rewrite orb_false_r.
    simpl app. destruct (overflowing _ _ _); [exists None, None; reflexivity |].
    destruct (filter _ _); eexists _, _; reflexivity.
  - destruct (doctor_has_slots db doctor && exists_ (day_slots db doctor d)).
    + rewrite day_slots_loop_spec. simpl app.
      destruct (existsb _ _); [exists None, None; reflexivity |].
      destruct (flat_map _ _); eexists _, _; reflexivity.
    + rewrite run_slot_loop_spec by reflexivity. simpl existsb. rewrite orb_false_r.
      simpl app. destruct (overflowing _ _ _); [exists None, None; reflexivity |].
      destruct (filter _ _); eexists _, _; reflexivity.
Qed.

Lemma view_spec :
  exists message warning,
    get_available_slots_with mk rq db now
    = Some (if calendar_overflow (is_emergency rq) db doctor d
            then JsonError error_processing 500
            else JsonSlots (map (pair_of (mk (is_emergency rq)))
                                (returned_intervals (is_emergency rq) db now doctor d))
                           message warning).
Proof.
  rewrite accepted_dispatch. destruct (is_emergency rq).
  - rewrite emergency_slots_spec. exists (Some emergency_message), None.
    destruct (calendar_overflow true db doctor d); reflexivity.
  - destruct regular_slots_spec as (message & warning & Heq). rewrite Heq.
    exists message, warning.
    destruct (calendar_overflow false db doctor d); reflexivity.
Qed.
End ViewSpec.

(** ** The scenarios of the specification, run through the loop *)

Example scenario_no_booking :
  run_slot_loop (slot_dict false) sample_day None []
                (at_time sample_day 8 0) (at_time sample_day 10 0) (minutes 30) []
  = Some (Ok [mkSlot "08:00" "08:30" "08:00 - 08:30";
              mkSlot "08:30" "09:00" "08:30 - 09:00";
              mkSlot "09:00" "09:30" "09:00 - 09:30";
              mkSlot "09:30" "10:00" "09:30 - 10:00"]).
Proof. vm_compute. reflexivity. Qed.

Example scenario_one_booking :
  run_slot_loop (slot_dict false) sample_day None
                [mkAppointment dr sample_day (mk_time 8 30) (mk_time 9 0) SCHEDULED]
                (at_time sample_day 8 0) (at_time sample_day 10 0) (minutes 30) []
  = Some (Ok [mkSlot "08:00" "08:30" "08:00 - 08:30";
              mkSlot "09:00" "09:30" "09:00 - 09:30";
              mkSlot "09:30" "10:00" "09:30 - 10:00"]).
Proof. vm_compute. reflexivity. Qed.

Example scenario_leave :
  run_slot_loop (slot_dict false) sample_day (Some (mk_time 8 0, mk_time 9 0)) []
                (at_time sample_day 8 0) (at_time sample_day 10 0) (minutes 30) []
  = Some (Ok [mkSlot "09:00" "09:30" "09:00 - 09:30";
              mkSlot "09:30" "10:00" "09:30 - 10:00"]).
Proof. vm_compute. reflexivity. Qed.

Example scenario_truncated_last_slot :
  run_slot_loop (fun a b => (a, b)) sample_day None []
                (at_time sample_day 8 0) (at_time sample_day 8 50) (minutes 30) []
  = Some (Ok [(at_time sample_day 8 0, at_time sample_day 8 30);
              (at_time sample_day 8 30, at_time sample_day 8 50)]).
Proof. vm_compute. reflexivity. Qed.

Example scenario_reversed_window :
  run_slot_loop (slot_dict false) sample_day None []
                (at_time sample_day 10 0) (at_time sample_day 9 0) (minutes 30) []
  = Some (Ok []).
Proof. vm_compute. reflexivity. Qed.

(** On the last day of the calendar the emergency loop raises at 23:45. *)
Example scenario_last_day :
  run_slot_loop (slot_dict true) date_max None []
                (at_time date_max 0 0) (at_time date_max 23 59) (minutes 15) []
  = Some (Raise OverflowError).
Proof. vm_compute. reflexivity. Qed.

(** The sample requests name a doctor of the sample tables. *)
Ltac sample_accepted :=
  unfold accepted; simpl; repeat split; try reflexivity; left; reflexivity.

(* ================================================================== *)
(** * The emergency branch *)

Lemma filter_none {A : Type} (f : A -> bool) (l : list A) :
  (forall x, In x l -> f x = false) -> filter f l = [].
Proof.
  induction l as [| x l IH]; intros H; simpl; [reflexivity |].
  rewrite (H x) by (left; reflexivity). apply IH. intros y Hy. apply H. now right.
Qed.

Lemma all_booked_reflect (d : date) (existing : list Appointment) (l : list interval) :
  forallb (bookedb d existing) l = true ->
  forall c, In c l -> booked d existing c.
Proof.
  intros H c Hc. rewrite forallb_forall in H. apply bookedb_spec. now apply H.
Qed.

Lemma emergency_all_booked (db : database) (doctor : Z) (d : date) :
  (forall c, In c (emergency_candidates d) ->
             booked d (existing_appointments db doctor d) c) ->
  loop_intervals true db doctor d = [].
Proof.
  intros H. unfold loop_intervals. apply filter_none. intros c Hc.
  rewrite free_no_leave. apply H in Hc. apply bookedb_spec in Hc. now rewrite Hc.
Qed.

Lemma time_of_combine (d : date) (t : time) : time_of (combine d t) = time_of t.
Proof.
  unfold time_of, combine. rewrite Z.add_comm. apply Z_mod_plus_full.
Qed.

Lemma time_of_idem (x : Z) : time_of (time_of x) = time_of x.
Proof. unfold time_of. apply Z.mod_mod. unfold day_us, hour_us, minute_us. lia. Qed.

Lemma strftime_HM_time_of (x y : Z) :
  time_of x = time_of y -> strftime_HM x = strftime_HM y.
Proof. unfold strftime_HM, hour, minute. now intros ->. Qed.

Lemma strftime_HM_combine (d : date) (t : time) :
  strftime_HM (combine d t) = strftime_HM t.
Proof. apply strftime_HM_time_of, time_of_combine. Qed.

Lemma fallback_slot_dict (d : date) (now : datetime) :
  pair_of (slot_dict true) (fallback_interval d now) = fallback_slot now.
Proof.
  unfold pair_of, fallback_interval, slot_dict, fallback_slot. simpl fst. simpl snd.
  rewrite strftime_HM_combine.
  rewrite (strftime_HM_time_of
             (combine d (time_of (combine d (mk_time (hour now) (minute now / 15 * 15))
                                  + minutes 15)))
             (mk_time (hour now) (minute now / 15 * 15) + minutes 15)).
  - reflexivity.
  - rewrite time_of_combine, time_of_idem.
    unfold combine. rewrite <- Z.add_assoc. apply (time_of_combine d).
Qed.

(** The fallback starts at the current hour and at the last quarter of an
    hour that is not after the current minute. *)
Lemma fallback_slot_start (now : datetime) :
  start (fallback_slot now)
  = (two_digits (hour now) ++ ":" ++ two_digits (minute now / 15 * 15))%string
  /\ minute now / 15 * 15 <= minute now < minute now / 15 * 15 + 15
  /\ (minute now / 15 * 15) mod 15 = 0.
Proof.
  pose proof (hour_range now) as Hh. pose proof (minute_range now) as Hm.
  assert (Hq : minute now / 15 * 15 <= minute now < minute now / 15 * 15 + 15).
  { pose proof (Z.div_mod (minute now) 15) as Hd.
    pose proof (Z.mod_pos_bound (minute now) 15). lia. }
  split; [| split; [exact Hq | apply Z.mod_mul; lia]].
  unfold fallback_slot, strftime_HM. simpl start.
  rewrite hour_mk_time, minute_mk_time by lia. reflexivity.
Qed.

Lemma in_calendar (d : date) :
  date_min <= d < date_max -> negb ((date_min <=? d) && (d <? date_max)) = false.
Proof.
  intros [Hmin Hmax].
  now rewrite (proj2 (Z.leb_le _ _) Hmin), (proj2 (Z.ltb_lt _ _) Hmax).
Qed.

(** An accepted emergency request for a day before the last of the calendar
    gets the slots its loop kept, or the fallback. *)
Lemma emergency_view_spec {A : Type} (mk : bool -> datetime -> datetime -> A)
      (rq : request) (db : database) (now : datetime) (doctor : Z) (d : date) :
  accepted rq db doctor d ->
  is_emergency rq = true ->
  date_min <= d < date_max ->
  get_available_slots_with mk rq db now
  = Some (JsonSlots (map (pair_of (mk true)) (returned_intervals true db now doctor d))
                    (Some emergency_message) None).
Proof.
  intros Hacc Hem Hd.
  rewrite (accepted_dispatch mk rq db now doctor d Hacc), Hem.
  rewrite emergency_slots_spec, calendar_overflow_emergency, (in_calendar d Hd).
  reflexivity.
Qed.

(** An accepted request none of whose loops leaves the calendar gets the
    slots its loops kept, or the fallback. *)
Lemma view_spec_in_calendar {A : Type} (mk : bool -> datetime -> datetime -> A)
      (rq : request) (db : database) (now : datetime) (doctor : Z) (d : date) :
  accepted rq db doctor d ->
  calendar_overflow (is_emergency rq) db doctor d = false ->
  exists message warning,
    get_available_slots_with mk rq db now
    = Some (JsonSlots (map (pair_of (mk (is_emergency rq)))
                           (returned_intervals (is_emergency rq) db now doctor d))
                      message warning).
Proof.
  intros Hacc Hcal.
  destruct (view_spec mk rq db now doctor d Hacc) as (message & warning & Heq).
  rewrite Hcal in Heq. eauto.
Qed.

(** C9.  An emergency request for a day other than the current one, all of
    whose candidates are excluded by booked intervals, gets the empty slot
    list: the fallback is built only when the requested date is today.  The
    requested day is any day of the calendar but the last, 9999-12-31, on
    which the emergency loop raises and the view answers with status 500. *)
Theorem emergency_other_day_no_fallback
        (rq : request) (db : database) (now : datetime) (doctor : Z) (d : date) :
  accepted rq db doctor d ->
  is_emergency rq = true ->
  date_min <= d < date_max ->
  d <> date_of now ->
  (forall c, In c (emergency_candidates d) ->
             booked d (existing_appointments db doctor d) c) ->
  get_available_slots rq db now = Some (JsonSlots [] (Some emergency_message) None).
Proof.
  intros Hacc Hem Hd Hday Hall. unfold get_available_slots.
  rewrite (emergency_view_spec slot_dict rq db now doctor d Hacc Hem Hd).
  unfold returned_intervals. rewrite (emergency_all_booked _ _ _ Hall).
  apply Z.eqb_neq in Hday. rewrite Hday. reflexivity.
Qed.

Lemma emergency_other_day_no_fallback_witness :
  get_available_slots rq_emergency db_fully_booked (at_time (sample_day + 1) 8 10)
  = Some (JsonSlots [] (Some emergency_message) None).
Proof.
  apply (emergency_other_day_no_fallback rq_emergency db_fully_booked
           (at_time (sample_day + 1) 8 10) dr sample_day).
  - sample_accepted.
  - reflexivity.
  - vm_compute. split; [discriminate | reflexivity].
  - vm_compute. discriminate.
  - apply all_booked_reflect. vm_compute. reflexivity.
Defined.

(** On the last day of the calendar the emergency request is answered with
    status 500, booked or not. *)
Lemma emergency_last_day
      (rq : request) (db : database) (now : datetime) (doctor : Z) :
  accepted rq db doctor date_max ->
  is_emergency rq = true ->
  get_available_slots rq db now = Some (JsonError error_processing 500).
Proof.
  intros Hacc Hem. unfold get_available_slots.
  rewrite (accepted_dispatch slot_dict rq db now doctor date_max Hacc), Hem.
  rewrite emergency_slots_spec, calendar_overflow_emergency. reflexivity.
Qed.

(** The fallback of the current day: an emergency request for the current
    day never gets an empty slot list; when every candidate is excluded by
    a booked interval the list is exactly the one fallback slot, which
    starts at the current hour with the minutes rounded down to a multiple
    of 15 and ends a quarter of an hour later. *)
Lemma emergency_today_never_empty
      (rq : request) (db : database) (now : datetime) (doctor : Z) (d : date) :
  accepted rq db doctor d ->
  is_emergency rq = true ->
  date_min <= d < date_max ->
  d = date_of now ->
  exists slots,
    get_available_slots rq db now = Some (JsonSlots slots (Some emergency_message) None)
    /\ slots <> []
    /\ ((forall c, In c (emergency_candidates d) ->
                   booked d (existing_appointments db doctor d) c) ->
        slots = [fallback_slot now]).
Proof.
  intros Hacc Hem Hd Hday. unfold get_available_slots.
  rewrite (emergency_view_spec slot_dict rq db now doctor d Hacc Hem Hd).
  eexists. split; [reflexivity |]. unfold returned_intervals.
  assert (Heq : (d =? date_of now) = true) by now apply Z.eqb_eq.
  rewrite Heq. simpl andb. split.
  - destruct (loop_intervals true db doctor d); simpl; discriminate.
  - intros Hall. rewrite (emergency_all_booked _ _ _ Hall). simpl.
    now rewrite fallback_slot_dict.
Qed.

Example fallback_at_ten_past_eight :
  get_available_slots rq_emergency db_fully_booked (at_time sample_day 8 10)
  = Some (JsonSlots [mkSlot "08:00" "08:15" "08:00 - 08:15 (Emergency)"]
                    (Some emergency_message) None).
Proof. vm_compute. reflexivity. Qed.

(** C1 at its failing input.  The day [sample_day] is fully booked: one
    appointment from 00:00 to 23:59 excludes every candidate of the
    emergency loop.  Requested at 08:10 of the day before, the emergency
    list comes back empty, against the comment of the view ("Always return
    at least one slot for emergency cases") and against the claim; the same
    request made at 08:10 of the day itself gets the fallback slot. *)
Theorem emergency_can_be_empty :
  is_emergency rq_emergency = true
  /\ accepted rq_emergency db_fully_booked dr sample_day
  /\ (forall c, In c (emergency_candidates sample_day) ->
                booked sample_day (existing_appointments db_fully_booked dr sample_day) c)
  /\ get_available_slots rq_emergency db_fully_booked (at_time (sample_day - 1) 8 10)
     = Some (JsonSlots [] (Some emergency_message) None)
  /\ get_available_slots rq_emergency db_fully_booked (at_time sample_day 8 10)
     = Some (JsonSlots [mkSlot "08:00" "08:15" "08:00 - 08:15 (Emergency)"]
                       (Some emergency_message) None).
Proof.
  split; [reflexivity |]. split; [sample_accepted |]. split.
  - apply all_booked_reflect. vm_compute. reflexivity.
  - split; vm_compute; reflexivity.
Qed.

(* ================================================================== *)
(** * Labels *)

Lemma string_app_nil_r (s : string) : (s ++ "")%string = s.
Proof. induction s as [| c s IH]; simpl; [reflexivity | now rewrite IH]. Qed.

Lemma last_char_app (s t : string) :
  t <> EmptyString -> last_char (s ++ t) = last_char t.
Proof.
  intros Ht. induction s as [| c s IH]; [reflexivity |].
  simpl append. simpl last_char.
  destruct (s ++ t)%string eqn:E.
  - destruct s; [simpl in E; contradiction | discriminate].
  - exact IH.
Qed.

Lemma digit_is_not_a_bracket (n : Z) : 0 <= n < 10 -> digit n <> ")"%char.
Proof.
  intros H. unfold digit.
  assert (Hn : (Z.to_nat n < 10)%nat) by lia.
  destruct (Z.to_nat n) as [|[|[|[|[|[|[|[|[|[|k]]]]]]]]]]; try discriminate; lia.
Qed.

Lemma last_char_strftime_HM (x : Z) :
  last_char (strftime_HM x) = Some (digit (minute x mod 10)).
Proof.
  unfold strftime_HM. rewrite !last_char_app by discriminate. reflexivity.
Qed.

Lemma last_char_plain_label (slot_start slot_end : datetime) :
  last_char (display (slot_dict false slot_start slot_end))
  = Some (digit (minute slot_end mod 10)).
Proof.
  cbv [display slot_dict]. rewrite string_app_nil_r.
  rewrite (last_char_app (strftime_HM slot_start)) by discriminate.
  rewrite (last_char_app " - ").
  - apply last_char_strftime_HM.
  - unfold strftime_HM. discriminate.
Qed.

Lemma plain_label_has_no_suffix (slot_start slot_end : datetime) :
  ~ has_suffix "(Emergency)" (display (slot_dict false slot_start slot_end)).
Proof.
  intros [prefix Heq].
  apply (f_equal last_char) in Heq.
  rewrite last_char_plain_label, (last_char_app prefix) in Heq by discriminate.
  simpl in Heq. injection Heq as Heq.
  apply (digit_is_not_a_bracket (minute slot_end mod 10)); [| exact Heq].
  apply Z.mod_pos_bound. lia.
Qed.

(** C7.  An emergency request runs the loop over the whole day, 00:00 to
    23:59, in steps of 15 minutes, and every slot it returns is labelled
    with its formatted range followed by "(Emergency)"; the slots of any
    other request are labelled with the formatted range alone.  The request
    is one whose loops stay in the calendar: for an emergency request, one
    for any day but 9999-12-31. *)
Theorem emergency_window_and_labels
        (rq : request) (db : database) (now : datetime) (doctor : Z) (d : date) :
  accepted rq db doctor d ->
  calendar_overflow (is_emergency rq) db doctor d = false ->
  exists slots message warning,
    get_available_slots rq db now = Some (JsonSlots slots message warning)
    /\ (is_emergency rq = true ->
        date_min <= d < date_max
        /\ (forall s, In s slots ->
                      display s = (start s ++ " - " ++ end_ s ++ " (Emergency)")%string)
        /\ (let kept :=
              filter (fun c => negb (bookedb d (existing_appointments db doctor d) c))
                     (candidates (combine d (mk_time 0 0)) (combine d (mk_time 23 59))
                                 (minutes 15)) in
            kept <> [] -> slots = map (pair_of (slot_dict true)) kept))
    /\ (is_emergency rq = false ->
        forall s, In s slots ->
                  display s = (start s ++ " - " ++ end_ s)%string
                  /\ ~ has_suffix "(Emergency)" (display s)).
Proof.
  intros Hacc Hcal. unfold get_available_slots.
  destruct (view_spec_in_calendar slot_dict rq db now doctor d Hacc Hcal)
    as (message & warning & Heq).
  exists (map (pair_of (slot_dict (is_emergency rq)))
              (returned_intervals (is_emergency rq) db now doctor d)), message, warning.
  split; [exact Heq |]. split; intros Hem; rewrite Hem in *.
  - split; [| split].
    + rewrite calendar_overflow_emergency in Hcal. apply negb_false_iff in Hcal.
      apply andb_true_iff in Hcal. destruct Hcal as [H1 H2].
      apply Z.leb_le in H1. apply Z.ltb_lt in H2. auto.
    + intros s Hs. apply in_map_iff in Hs. destruct Hs as (c & <- & _). reflexivity.
    + cbv zeta. unfold returned_intervals, loop_intervals.
      rewrite (filter_ext _ _ (free_no_leave d (existing_appointments db doctor d))).
      destruct (filter _ _); [contradiction | reflexivity].
  - intros s Hs. apply in_map_iff in Hs. destruct Hs as (c & <- & _). split.
    + cbv [pair_of slot_dict display start end_]. now rewrite string_app_nil_r.
    + apply plain_label_has_no_suffix.
Qed.

Lemma emergency_window_and_labels_witness :
  exists slots message warning,
    get_available_slots rq_emergency db_one_booking (at_time sample_day 8 10)
    = Some (JsonSlots slots message warning)
    /\ nth_error slots 0 = Some (mkSlot "00:00" "00:15" "00:00 - 00:15 (Emergency)")
    /\ nth_error slots 93 = Some (mkSlot "23:45" "23:59" "23:45 - 23:59 (Emergency)")
    /\ List.length slots = 94%nat.
Proof.
  destruct (emergency_window_and_labels rq_emergency db_one_booking
              (at_time sample_day 8 10) dr sample_day)
    as (slots & message & warning & Heq & Hem & _).
  - sample_accepted.
  - reflexivity.
  - exists slots, message, warning. split; [exact Heq |].
    destruct (Hem eq_refl) as (_ & _ & Hkept).
    rewrite Hkept by (vm_compute; discriminate).
    vm_compute. repeat split; reflexivity.
Defined.

(* ================================================================== *)
(** * The slots one run of the loop keeps *)

Lemma pair_of_pair (l : list interval) :
  map (pair_of (fun slot_start slot_end : datetime => (slot_start, slot_end))) l = l.
Proof.
  induction l as [| [a b] l IH]; simpl; [reflexivity |]. now rewrite IH.
Qed.

Lemma filter_sorted {A : Type} (R : A -> A -> Prop) (f : A -> bool) (l : list A) :
  StronglySorted R l -> StronglySorted R (filter f l).
Proof.
  induction 1 as [| x l Hs IH Hx]; simpl; [constructor |].
  destruct (f x); [| exact IH].
  constructor; [exact IH |].
  rewrite Forall_forall in *. intros y Hy. apply filter_In in Hy. apply Hx, Hy.
Qed.

Lemma filter_Forall {A : Type} (P : A -> Prop) (f : A -> bool) (l : list A) :
  Forall P l -> Forall P (filter f l).
Proof.
  rewrite !Forall_forall. intros H x Hx. apply filter_In in Hx. apply H, Hx.
Qed.

Section Candidates.
Variables (open close : datetime) (step : timedelta).
Hypothesis step_pos : 0 < step.

Lemma candidates_bounds :
  Forall (fun c => open <= fst c /\ fst c < snd c /\ snd c <= close
                   /\ snd c - fst c <= step
                   /\ (snd c - fst c < step -> snd c = close))
         (candidates open close step).
Proof.
  rewrite <- (partition_is_candidates close step step_pos).
  apply partition_from_bounds. exact step_pos.
Qed.

Lemma candidates_sorted : StronglySorted precedes (candidates open close step).
Proof.
  rewrite <- (partition_is_candidates close step step_pos).
  apply partition_from_sorted. exact step_pos.
Qed.

Lemma candidates_cover (t : datetime) :
  open <= t < close ->
  exists c, In c (candidates open close step) /\ covers c t.
Proof.
  rewrite <- (partition_is_candidates close step step_pos).
  apply partition_from_covers; [exact step_pos | lia].
Qed.
End Candidates.

Lemma sorted_full_before_next (close : datetime) (step : timedelta)
      (kept : list interval) :
  StronglySorted precedes kept ->
  Forall (fun c => fst c < snd c /\ snd c <= close
                   /\ (snd c - fst c < step -> snd c = close)) kept ->
  forall before c after,
    kept = before ++ c :: after -> after <> [] -> step <= snd c - fst c.
Proof.
  intros Hs Hb before c after -> Hafter.
  destruct after as [| c' after]; [contradiction |].
  assert (Hc : fst c < snd c /\ snd c <= close /\ (snd c - fst c < step -> snd c = close)).
  { rewrite Forall_forall in Hb. apply Hb, in_elt. }
  assert (Hc' : fst c' < snd c' /\ snd c' <= close).
  { rewrite Forall_forall in Hb.
    destruct (Hb c') as (? & ? & _); [| split; assumption].
    apply in_or_app. right. right. left. reflexivity. }
  assert (Hp : precedes c c').
  { clear Hb. induction before as [| b before IH]; simpl in Hs.
    - apply StronglySorted_inv in Hs. destruct Hs as [_ Hall].
      rewrite Forall_forall in Hall. apply Hall. left. reflexivity.
    - apply StronglySorted_inv in Hs. apply IH, Hs. }
  unfold precedes in Hp. lia.
Qed.

Lemma covered_once (kept : list interval) (c : interval) (t : Z) :
  StronglySorted precedes kept ->
  Forall (fun c => fst c < snd c) kept ->
  In c kept -> covers c t ->
  filter (coversb t) kept = [c].
Proof.
  unfold covers. intros Hs Hne Hin Hcov.
  induction Hs as [| x l Hs IH Hx]; [contradiction |].
  apply Forall_cons_iff in Hne. destruct Hne as [Hxne Hne].
  simpl. destruct Hin as [-> | Hin].
  - unfold coversb at 1.
    replace ((fst c <=? t) && (t <? snd c)) with true
      by (symmetry; apply andb_true_iff; rewrite Z.leb_le, Z.ltb_lt; lia).
    f_equal. apply filter_none. intros y Hy.
    rewrite Forall_forall in Hx. specialize (Hx y Hy). unfold precedes in Hx.
    unfold coversb. apply andb_false_iff. rewrite Z.leb_gt, Z.ltb_ge. lia.
  - rewrite Forall_forall in Hx. specialize (Hx c Hin). unfold precedes in Hx.
    unfold coversb at 1.
    replace ((fst x <=? t) && (t <? snd x)) with false
      by (symmetry; apply andb_false_iff; rewrite Z.leb_gt, Z.ltb_ge; lia).
    apply IH; assumption.
Qed.

Lemma candidate_within_day (d : date) (open close : datetime) (step : timedelta)
      (c : interval) :
  0 < step -> within_day d open close -> In c (candidates open close step) ->
  combine d 0 <= fst c /\ fst c <= snd c /\ snd c < combine d day_us.
Proof.
  intros Hstep [Ho Hc] Hin.
  pose proof (candidates_bounds open close step Hstep) as Hb.
  rewrite Forall_forall in Hb. specialize (Hb c Hin). lia.
Qed.

(** C10.  Every slot a run of the loop keeps has start < end and lasts at
    most one step; a slot shorter than the step ends at the close of the
    window, and a slot followed by another one lasts exactly one step.  A
    run one of whose sums leaves the calendar raises [OverflowError]
    instead of returning its slots. *)
Theorem loop_slot_durations
        (d : date) (leave : option (time * time)) (existing : list Appointment)
        (open close : datetime) (step : timedelta) :
  0 < step ->
  exists kept,
    (forall (A : Type) (emit : datetime -> datetime -> A) (acc : list A),
        run_slot_loop emit d leave existing open close step acc
        = Some (if overflowing open close step then Raise OverflowError
                else Ok (acc ++ map (pair_of emit) kept)))
    /\ Forall (fun c => fst c < snd c /\ snd c - fst c <= step
                        /\ (snd c - fst c < step -> snd c = close)) kept
    /\ (forall before c after,
           kept = before ++ c :: after -> after <> [] -> snd c - fst c = step).
Proof.
  intros Hstep.
  exists (filter (free d leave existing) (candidates open close step)).
  pose proof (filter_Forall _ (free d leave existing) _
                (candidates_bounds open close step Hstep)) as Hb.
  pose proof (filter_sorted _ (free d leave existing) _
                (candidates_sorted open close step Hstep)) as Hs.
  split; [| split].
  - intros A emit acc. now apply run_slot_loop_spec.
  - eapply Forall_impl; [| exact Hb]. simpl. intros c Hc. lia.
  - intros before c after Heq Hafter.
    assert (Hfull : step <= snd c - fst c).
    { eapply (sorted_full_before_next close step); eauto.
      eapply Forall_impl; [| exact Hb]. simpl. intros c0 Hc0. lia. }
    rewrite Forall_forall in Hb.
    assert (Hin : In c (filter (free d leave existing) (candidates open close step)))
      by (rewrite Heq; apply in_elt).
    specialize (Hb c Hin). lia.
Qed.

Lemma loop_slot_durations_witness :
  exists kept,
    run_slot_loop (slot_dict true) sample_day None [] (at_time sample_day 0 0)
                  (at_time sample_day 23 59) (minutes 15) []
    = Some (Ok (map (pair_of (slot_dict true)) kept))
    /\ last kept (0, 0) = (at_time sample_day 23 45, at_time sample_day 23 59)
    /\ Forall (fun c => fst c < snd c /\ snd c - fst c <= minutes 15) kept.
Proof.
  destruct (loop_slot_durations sample_day None [] (at_time sample_day 0 0)
              (at_time sample_day 23 59) (minutes 15)) as (kept & Hrun & Hb & _).
  - reflexivity.
  - exists kept. split; [apply (Hrun slot (slot_dict true) []) |]. split.
    + pose proof (Hrun interval (fun a b => (a, b)) []) as Hp.
      rewrite pair_of_pair in Hp. simpl app in Hp.
      vm_compute in Hp. injection Hp as <-. vm_compute. reflexivity.
    + eapply Forall_impl; [| exact Hb]. simpl. intros c Hc. lia.
Defined.

Lemma free_false_iff (d : date) (leave : option (time * time))
      (existing : list Appointment) (c : interval) :
  combine d 0 <= fst c -> fst c <= snd c -> snd c < combine d day_us ->
  free d leave existing c = false <-> booked d existing c \/ blacked_out d leave c.
Proof.
  intros H1 H2 H3.
  pose proof (free_spec d leave existing c H1 H2 H3) as Hfree.
  pose proof (bookedb_spec d existing c) as Hb.
  pose proof (on_leave_spec d leave c H1 H2 H3) as Hl.
  destruct (free d leave existing c) eqn:E; split.
  - discriminate.
  - intros Hex. destruct Hfree as [Hfree _]. destruct (Hfree eq_refl) as [Hnb Hnl].
    destruct Hex; contradiction.
  - intros _.
    destruct (bookedb d existing c); [left; now apply Hb |].
    destruct (on_leave leave (fst c) (snd c)); [right; now apply Hl |].
    assert (Ht : false = true); [| discriminate].
    apply Hfree. split.
    + intros Hbk. apply Hb in Hbk. discriminate.
    + intros Hbl. apply Hl in Hbl. discriminate.
  - reflexivity.
Qed.

(** A run of the loop that stays in the calendar drops a candidate exactly
    when a booked interval, or the leave interval when the loop has one,
    strictly overlaps it ([candidate.start < other.end] and
    [candidate.end > other.start]); a candidate that every booked interval
    merely abuts is kept. *)
Lemma candidate_dropped_iff_overlap
      (d : date) (leave : option (time * time)) (existing : list Appointment)
      (open close : datetime) (step : timedelta) :
  0 < step ->
  within_day d open close ->
  overflowing open close step = false ->
  exists kept,
    (forall (A : Type) (emit : datetime -> datetime -> A) (acc : list A),
        run_slot_loop emit d leave existing open close step acc
        = Some (Ok (acc ++ map (pair_of emit) kept)))
    /\ forall c, In c (candidates open close step) ->
         (~ In c kept <->
          (exists a, In a existing
                     /\ fst c < snd (booked_interval d a)
                     /\ snd c > fst (booked_interval d a))
          \/ (exists lv, leave = Some lv
                         /\ fst c < snd (leave_interval d lv)
                         /\ snd c > fst (leave_interval d lv)))
         /\ ((forall a, In a existing ->
                        snd c = fst (booked_interval d a)
                        \/ fst c = snd (booked_interval d a)) ->
             leave = None -> In c kept).
Proof.
  intros Hstep Hday Hcal.
  exists (filter (free d leave existing) (candidates open close step)).
  split.
  { intros A emit acc. rewrite run_slot_loop_spec by exact Hstep.
    now rewrite Hcal. }
  intros c Hc.
  destruct (candidate_within_day d open close step c Hstep Hday Hc) as (H1 & H2 & H3).
  pose proof (free_false_iff d leave existing c H1 H2 H3) as Hfalse.
  unfold booked, blacked_out, overlaps in Hfalse.
  split.
  - split.
    + intros Hnot. apply Hfalse.
      destruct (free d leave existing c) eqn:E; [| reflexivity].
      exfalso. apply Hnot, filter_In. now split.
    + intros Hex Hin. apply filter_In in Hin. destruct Hin as [_ Hf].
      apply Hfalse in Hex. congruence.
  - intros Habut ->. apply filter_In. split; [exact Hc |].
    destruct (free d None existing c); [reflexivity |].
    destruct (proj1 Hfalse eq_refl) as [(a & Ha & Hlt & Hgt) | (lv & Hlv & _)].
    + destruct (Habut a Ha); lia.
    + discriminate.
Qed.

(* ================================================================== *)
(** * Slots and their bounds *)

(** The text of the slots is a rendering of the bounds the same run keeps. *)
Lemma get_available_slots_with_map {A B : Type} (f : A -> B)
      (mk : bool -> datetime -> datetime -> A)
      (rq : request) (db : database) (now : datetime) :
  get_available_slots_with (fun e slot_start slot_end => f (mk e slot_start slot_end))
                           rq db now
  = option_map (map_response f) (get_available_slots_with mk rq db now).
Proof.
  assert (Hmap : forall e l,
             map (pair_of (fun a b => f (mk e a b))) l = map f (map (pair_of (mk e)) l)).
  { intros e l. rewrite map_map. reflexivity. }
  unfold get_available_slots_with.
  destruct (user_is_authenticated rq); [| reflexivity].
  destruct (method_is_GET rq); [| reflexivity].
  destruct (doctor_id rq) as [| | doctor], (date_str rq) as [| | d]; try reflexivity.
  destruct (existsb (Z.eqb doctor) (users db)); [| reflexivity].
  destruct (is_emergency rq).
  - rewrite !emergency_slots_spec.
    destruct (calendar_overflow true db doctor d); [reflexivity |].
    simpl. rewrite <- Hmap. reflexivity.
  - unfold regular_slots.
    destruct (first (approved_leaves db doctor d)) as [lv |].
    + rewrite !run_slot_loop_spec by reflexivity.
      destruct (overflowing _ _ _); [reflexivity |].
      simpl. rewrite <- Hmap. reflexivity.
    + destruct (doctor_has_slots db doctor && exists_ (day_slots db doctor d)).
      * rewrite !day_slots_loop_spec.
        destruct (existsb _ _); [reflexivity |].
        simpl. rewrite <- Hmap. reflexivity.
      * rewrite !run_slot_loop_spec by reflexivity.
        destruct (overflowing _ _ _); [reflexivity |].
        simpl. rewrite <- Hmap.
        destruct (filter _ _); reflexivity.
Qed.

Lemma get_available_slots_renders (rq : request) (db : database) (now : datetime) :
  get_available_slots rq db now
  = option_map (map_response (pair_of (slot_dict (is_emergency rq))))
               (available_intervals rq db now).
Proof.
  unfold available_intervals.
  rewrite <- (get_available_slots_with_map (pair_of (slot_dict (is_emergency rq)))).
  unfold get_available_slots, get_available_slots_with, pair_of. simpl.
  destruct (method_is_GET rq); [| reflexivity].
  destruct (doctor_id rq) as [| | doctor], (date_str rq) as [| | d]; try reflexivity.
  destruct (existsb (Z.eqb doctor) (users db)); [| reflexivity].
  destruct (is_emergency rq); reflexivity.
Qed.

Lemma available_intervals_spec (rq : request) (db : database) (now : datetime)
      (doctor : Z) (d : date) :
  accepted rq db doctor d ->
  calendar_overflow (is_emergency rq) db doctor d = false ->
  exists message warning,
    available_intervals rq db now
    = Some (JsonSlots (returned_intervals (is_emergency rq) db now doctor d)
                      message warning).
Proof.
  intros Hacc Hcal. unfold available_intervals.
  destruct (view_spec_in_calendar (fun _ a b => (a, b)) rq db now doctor d Hacc Hcal)
    as (message & warning & Heq).
  exists message, warning. rewrite Heq, pair_of_pair. reflexivity.
Qed.

(* ================================================================== *)
(** * Order and bounds of the returned slots *)

Lemma sorted_app {A : Type} (R : A -> A -> Prop) (l1 l2 : list A) :
  StronglySorted R l1 -> StronglySorted R l2 ->
  (forall x y, In x l1 -> In y l2 -> R x y) ->
  StronglySorted R (l1 ++ l2).
Proof.
  intros H1 H2 Hcross. induction H1 as [| x l1 Hs IH Hx]; simpl; [exact H2 |].
  constructor.
  - apply IH. intros a b Ha Hb. apply Hcross; [now right | exact Hb].
  - apply Forall_app. split; [exact Hx |].
    apply Forall_forall. intros y Hy. apply Hcross; [now left | exact Hy].
Qed.

Lemma kept_candidates_inside (f : interval -> bool) (open close : datetime)
      (step : timedelta) :
  0 < step ->
  Forall (inside (open, close)) (filter f (candidates open close step)).
Proof.
  intros Hstep. apply filter_Forall.
  eapply Forall_impl; [| apply (candidates_bounds open close step Hstep)].
  unfold inside. simpl. intros c Hc. lia.
Qed.

Lemma kept_candidates_sorted (f : interval -> bool) (open close : datetime)
      (step : timedelta) :
  0 < step -> StronglySorted precedes (filter f (candidates open close step)).
Proof.
  intros Hstep. apply filter_sorted, candidates_sorted, Hstep.
Qed.

Lemma day_slots_intervals_ordered (d : date) (f : interval -> bool)
      (rows : list DoctorAvailability) :
  windows_in_sequence rows ->
  let kept := flat_map (fun row => filter f (candidates (fst (window_of d row))
                                                        (snd (window_of d row))
                                                        (minutes 30))) rows in
  StronglySorted precedes kept
  /\ Forall (fun c => exists row, In row rows /\ inside (window_of d row) c) kept.
Proof.
  unfold windows_in_sequence. cbv zeta.
  induction 1 as [| row rows Hs IH Hrow]; simpl; [split; constructor |].
  destruct IH as [IHs IHb].
  pose proof (kept_candidates_inside f (fst (window_of d row)) (snd (window_of d row))
                                     (minutes 30) eq_refl) as Hin.
  split.
  - apply sorted_app; [now apply kept_candidates_sorted | exact IHs |].
    intros x y Hx Hy.
    rewrite Forall_forall in Hin, IHb, Hrow.
    specialize (Hin x Hx). destruct (IHb y Hy) as (row' & Hrow' & Hy').
    specialize (Hrow row' Hrow').
    unfold inside, window_of, combine in *. simpl in *. unfold precedes. lia.
  - apply Forall_app. split.
    + eapply Forall_impl; [| exact Hin]. intros c Hc. exists row.
      split; [now left |]. destruct (window_of d row). exact Hc.
    + eapply Forall_impl; [| exact IHb]. intros c (row' & Hrow' & Hc).
      exists row'. split; [now right | exact Hc].
Qed.

Lemma loop_intervals_ordered (emergency : bool) (db : database) (doctor : Z) (d : date) :
  (emergency = false -> windows_in_sequence (day_slots db doctor d)) ->
  StronglySorted precedes (loop_intervals emergency db doctor d)
  /\ Forall (fun c => exists w, In w (working_windows emergency db doctor d)
                                /\ inside w c)
            (loop_intervals emergency db doctor d).
Proof.
  intros Hseq. unfold loop_intervals, working_windows.
  assert (Hone : forall f open close,
             StronglySorted precedes (filter f (candidates open close (minutes 30)))
             /\ Forall (fun c => exists w, In w [(open, close)] /\ inside w c)
                       (filter f (candidates open close (minutes 30)))).
  { intros f open close. split; [now apply kept_candidates_sorted |].
    eapply Forall_impl; [| apply (kept_candidates_inside f open close (minutes 30) eq_refl)].
    intros c Hc. exists (open, close). split; [now left | exact Hc]. }
  destruct emergency.
  - split; [now apply kept_candidates_sorted |].
    eapply Forall_impl; [| apply kept_candidates_inside; reflexivity].
    intros c Hc. eexists. split; [now left | exact Hc].
  - destruct (first (approved_leaves db doctor d)); [apply Hone |].
    destruct (doctor_has_slots db doctor && exists_ (day_slots db doctor d));
      [| apply Hone].
    destruct (day_slots_intervals_ordered
                d (free d None (existing_appointments db doctor d))
                (day_slots db doctor d) (Hseq eq_refl)) as [Hs Hb].
    split; [exact Hs |].
    eapply Forall_impl; [| exact Hb]. intros c (row & Hrow & Hc).
    exists (window_of d row). split; [now apply in_map | exact Hc].
Qed.

Lemma first_In {A : Type} (rows : list A) (r : A) : first rows = Some r -> In r rows.
Proof.
  destruct rows as [| x rows]; simpl; [discriminate |].
  intros H. injection H as <-. now left.
Qed.

Lemma standard_window_within_day (d : date) :
  within_day d (combine d (mk_time 8 0)) (combine d (mk_time 22 0)).
Proof.
  unfold within_day, combine, mk_time, day_us, hour_us, minute_us. lia.
Qed.

(** A candidate of one of the windows of a request that no booked interval
    and, for a request that is no emergency, no approved leave of the day
    overlaps is among the candidates the loops keep. *)
Lemma free_candidate_kept (emergency : bool) (db : database) (doctor : Z) (d : date)
      (w c : interval) :
  In w (working_windows emergency db doctor d) ->
  In c (candidates (fst w) (snd w) (step_of emergency)) ->
  ~ booked d (existing_appointments db doctor d) c ->
  (emergency = false ->
   forall lv, In lv (approved_leaves db doctor d) ->
              ~ overlaps c (leave_interval d (leave_start_time lv, leave_end_time lv))) ->
  In c (loop_intervals emergency db doctor d).
Proof.
  intros Hw Hc Hnb Hnl. unfold working_windows in Hw. unfold loop_intervals.
  assert (Hfree : free d None (existing_appointments db doctor d) c = true).
  { rewrite free_no_leave. apply negb_true_iff.
    destruct (bookedb d (existing_appointments db doctor d) c) eqn:E; [| reflexivity].
    apply bookedb_spec in E. contradiction. }
  destruct emergency.
  - destruct Hw as [<- | []]. apply filter_In. split; assumption.
  - destruct (first (approved_leaves db doctor d)) as [lv |] eqn:Hfirst.
    + destruct Hw as [<- | []]. apply filter_In. split; [exact Hc |].
      destruct (candidate_within_day d _ _ (minutes 30) c eq_refl
                  (standard_window_within_day d) Hc) as (H1 & H2 & H3).
      apply free_spec; [assumption .. |]. split; [exact Hnb |].
      intros (lv' & Hlv' & Hov). injection Hlv' as <-.
      exact (Hnl eq_refl lv (first_In _ _ Hfirst) Hov).
    + destruct (doctor_has_slots db doctor && exists_ (day_slots db doctor d)).
      * apply in_map_iff in Hw. destruct Hw as (row & <- & Hrow).
        apply in_flat_map. exists row. split; [exact Hrow |].
        apply filter_In. split; assumption.
      * destruct Hw as [<- | []]. apply filter_In. split; assumption.
Qed.

(** C2, as amended.  For an accepted request whose loops stay in the
    calendar and whose availability windows of the day follow one another
    without overlap, every point of each window lies in exactly one
    candidate of that window; when no booked interval and, for a request
    that is no emergency, no approved leave of the day overlaps that
    candidate, exactly one of the returned slots covers the point. *)
Theorem free_candidate_points_covered_once
        (rq : request) (db : database) (now : datetime) (doctor : Z) (d : date) :
  accepted rq db doctor d ->
  calendar_overflow (is_emergency rq) db doctor d = false ->
  (is_emergency rq = false -> windows_in_sequence (day_slots db doctor d)) ->
  exists kept message warning,
    available_intervals rq db now = Some (JsonSlots kept message warning)
    /\ forall w t,
         In w (working_windows (is_emergency rq) db doctor d) ->
         fst w <= t < snd w ->
         exists c,
           filter (coversb t) (candidates (fst w) (snd w) (step_of (is_emergency rq)))
           = [c]
           /\ covers c t
           /\ (~ booked d (existing_appointments db doctor d) c ->
               (is_emergency rq = false ->
                forall lv, In lv (approved_leaves db doctor d) ->
                           ~ overlaps c (leave_interval
                                           d (leave_start_time lv, leave_end_time lv))) ->
               filter (coversb t) kept = [c]).
Proof.
  intros Hacc Hcal Hseq.
  destruct (available_intervals_spec rq db now doctor d Hacc Hcal)
    as (message & warning & Heq).
  exists (returned_intervals (is_emergency rq) db now doctor d), message, warning.
  split; [exact Heq |]. intros w t Hw Ht.
  assert (Hstep : 0 < step_of (is_emergency rq)) by (destruct (is_emergency rq); reflexivity).
  destruct (candidates_cover (fst w) (snd w) _ Hstep t Ht) as (c & Hc & Hcov).
  exists c. split.
  { apply covered_once; [now apply candidates_sorted | | exact Hc | exact Hcov].
    eapply Forall_impl; [| apply (candidates_bounds (fst w) (snd w) _ Hstep)].
    simpl. intros c0 Hc0. lia. }
  split; [exact Hcov |]. intros Hnb Hnl.
  pose proof (free_candidate_kept _ db doctor d w c Hw Hc Hnb Hnl) as Hin.
  destruct (loop_intervals_ordered (is_emergency rq) db doctor d Hseq) as [Hs Hb].
  unfold returned_intervals.
  destruct (loop_intervals (is_emergency rq) db doctor d) as [| c0 kept] eqn:E;
    [destruct Hin |].
  apply covered_once; [exact Hs | | exact Hin | exact Hcov].
  eapply Forall_impl; [| exact Hb]. unfold inside. intros c1 (w1 & _ & H1 & _). exact H1.
Qed.

Lemma free_candidate_points_covered_once_witness :
  exists kept message warning,
    available_intervals rq_regular db_short_booking (at_time sample_day 7 0)
    = Some (JsonSlots kept message warning)
    /\ filter (coversb (at_time sample_day 8 45)) kept
       = [(at_time sample_day 8 30, at_time sample_day 9 0)].
Proof.
  destruct (free_candidate_points_covered_once rq_regular db_short_booking
              (at_time sample_day 7 0) dr sample_day)
    as (kept & message & warning & Heq & Hcov).
  - sample_accepted.
  - reflexivity.
  - intros _. vm_compute. constructor.
  - exists kept, message, warning. split; [exact Heq |].
    destruct (Hcov (at_time sample_day 8 0, at_time sample_day 22 0)
                   (at_time sample_day 8 45)) as (c & Hc & _ & Hkept).
    + left. reflexivity.
    + split; vm_compute; [discriminate | reflexivity].
    + vm_compute in Hc. injection Hc as <-. apply Hkept.
      * intros Hb. apply bookedb_spec in Hb. vm_compute in Hb. discriminate.
      * intros _ lv [].
Defined.

(** C2, as stated, fails twice.  With a booking from 08:10 to 08:20 the
    point 08:25 lies in the standard window and in no booked interval, and
    no returned slot covers it: the first returned slot starts at 08:30.
    And with two availability windows that overlap, 09:00 to 10:00 and 09:30
    to 10:30, and no booking at all, the point 09:45 is covered by two
    returned slots. *)
Lemma free_point_not_covered :
  (let t := at_time sample_day 8 25 in
   let now := at_time sample_day 7 0 in
   at_time sample_day 8 0 <= t < at_time sample_day 22 0
   /\ (forall a, In a (existing_appointments db_short_booking dr sample_day) ->
                 ~ covers (booked_interval sample_day a) t)
   /\ approved_leaves db_short_booking dr sample_day = []
   /\ exists kept slots,
        available_intervals rq_regular db_short_booking now
        = Some (JsonSlots kept None None)
        /\ filter (coversb t) kept = []
        /\ get_available_slots rq_regular db_short_booking now
           = Some (JsonSlots slots None None)
        /\ nth_error slots 0 = Some (mkSlot "08:30" "09:00" "08:30 - 09:00"))
  /\ (let t := at_time sample_day 9 45 in
      let now := at_time sample_day 7 0 in
      let c := (at_time sample_day 9 30, at_time sample_day 10 0) in
      In (at_time sample_day 9 0, at_time sample_day 10 0)
         (working_windows false db_overlapping_windows dr sample_day)
      /\ at_time sample_day 9 0 <= t < at_time sample_day 10 0
      /\ existing_appointments db_overlapping_windows dr sample_day = []
      /\ approved_leaves db_overlapping_windows dr sample_day = []
      /\ exists kept,
           available_intervals rq_regular db_overlapping_windows now
           = Some (JsonSlots kept None None)
           /\ filter (coversb t) kept = [c; c]).
Proof.
  cbv zeta. split.
  - split; [vm_compute; split; [discriminate | reflexivity] |].
    split.
    { intros a [<- | []]. unfold covers. vm_compute. intros [_ H]. discriminate. }
    split; [reflexivity |].
    eexists _, _. split; [vm_compute; reflexivity |].
    split; [vm_compute; reflexivity |].
    split; [vm_compute; reflexivity |].
    reflexivity.
  - split; [vm_compute; tauto |].
    split; [vm_compute; split; [discriminate | reflexivity] |].
    split; [reflexivity |]. split; [reflexivity |].
    eexists. split; [vm_compute; reflexivity |]. vm_compute. reflexivity.
Qed.

(** The fallback of a time before 23:45 lies within the emergency window. *)
Lemma fallback_inside_window (d : date) (now : datetime) :
  time_of now < mk_time 23 45 ->
  inside (combine d (mk_time 0 0), combine d (mk_time 23 59)) (fallback_interval d now).
Proof.
  intros Hnow.
  pose proof (hour_range now) as Hh. pose proof (minute_range now) as Hm.
  assert (Hq : 0 <= minute now / 15 * 15 <= minute now).
  { pose proof (Z.div_mod (minute now) 15) as Hdm.
    pose proof (Z.mod_pos_bound (minute now) 15). lia. }
  assert (Hmult : (minute now / 15 * 15) mod 15 = 0) by (apply Z.mod_mul; lia).
  assert (Hlate : hour now = 23 -> minute now < 45).
  { intros H23. unfold hour, minute in *.
    assert (Hpos : 0 <= time_of now)
      by (unfold time_of; apply Z.mod_pos_bound; reflexivity).
    assert (Hdd : time_of now / minute_us / 60 = time_of now / hour_us)
      by (rewrite Z.div_div by (unfold minute_us; lia); reflexivity).
    pose proof (Z.div_mod (time_of now / minute_us) 60) as Hdm.
    assert (Hlt : time_of now / minute_us < 1425)
      by (apply Z.div_lt_upper_bound; unfold mk_time, hour_us, minute_us in *; lia).
    lia. }
  assert (Hstart : mk_time (hour now) (minute now / 15 * 15) + minutes 15
                   <= mk_time 23 45).
  { assert (hour now < 23 \/ hour now = 23) as [Hlt | H23] by lia.
    - unfold mk_time, minutes, hour_us, minute_us. lia.
    - specialize (Hlate H23).
      assert (minute now / 15 * 15 <= 30).
      { assert (minute now / 15 < 3) by (apply Z.div_lt_upper_bound; lia). lia. }
      rewrite H23. unfold mk_time, minutes, hour_us, minute_us. lia. }
  unfold inside, fallback_interval. cbv zeta. simpl fst. simpl snd.
  assert (Hend : time_of (combine d (mk_time (hour now) (minute now / 15 * 15))
                          + minutes 15)
                 = mk_time (hour now) (minute now / 15 * 15) + minutes 15).
  { rewrite (time_of_within d);
      unfold combine, mk_time, minutes, day_us, hour_us, minute_us in *; lia. }
  rewrite Hend.
  unfold combine, mk_time, minutes, day_us, hour_us, minute_us in *. lia.
Qed.

(** C6, as amended.  For an accepted request whose loops stay in the
    calendar and whose availability windows of the day follow one another
    without overlap, the returned slots are pairwise non-overlapping and
    come in strictly increasing order of start, and each of them lies
    within a window the request partitions; of the emergency fallback this
    is stated when the current time is before 23:45. *)
Theorem returned_slots_ordered_within_windows
        (rq : request) (db : database) (now : datetime) (doctor : Z) (d : date) :
  accepted rq db doctor d ->
  calendar_overflow (is_emergency rq) db doctor d = false ->
  (is_emergency rq = false -> windows_in_sequence (day_slots db doctor d)) ->
  exists kept message warning,
    available_intervals rq db now = Some (JsonSlots kept message warning)
    /\ get_available_slots rq db now
       = Some (JsonSlots (map (pair_of (slot_dict (is_emergency rq))) kept)
                         message warning)
    /\ StronglySorted precedes kept
    /\ (Forall (fun c => fst c < snd c
                         /\ exists w, In w (working_windows (is_emergency rq) db doctor d)
                                      /\ fst w <= fst c /\ snd c <= snd w) kept
        \/ (is_emergency rq = true /\ d = date_of now
            /\ mk_time 23 45 <= time_of now
            /\ kept = [fallback_interval d now])).
Proof.
  intros Hacc Hcal Hseq.
  destruct (available_intervals_spec rq db now doctor d Hacc Hcal)
    as (message & warning & Heq).
  exists (returned_intervals (is_emergency rq) db now doctor d), message, warning.
  split; [exact Heq |].
  split; [rewrite get_available_slots_renders, Heq; reflexivity |].
  destruct (loop_intervals_ordered (is_emergency rq) db doctor d Hseq) as [Hs Hb].
  assert (Hb' : Forall (fun c => fst c < snd c
                         /\ exists w, In w (working_windows (is_emergency rq) db doctor d)
                                      /\ fst w <= fst c /\ snd c <= snd w)
                       (loop_intervals (is_emergency rq) db doctor d)).
  { eapply Forall_impl; [| exact Hb]. unfold inside.
    intros c (w & Hw & H1 & H2 & H3). split; [exact H1 |]. exists w. auto. }
  unfold returned_intervals.
  destruct (loop_intervals (is_emergency rq) db doctor d) as [| c kept] eqn:E.
  - destruct (is_emergency rq); simpl.
    + destruct (Z.eqb_spec d (date_of now)).
      * split; [repeat constructor |].
        destruct (Z.lt_ge_cases (time_of now) (mk_time 23 45)) as [Hearly | Hlate].
        -- left. constructor; [| constructor].
           destruct (fallback_inside_window d now Hearly) as (H1 & H2 & H3).
           split; [exact H1 |]. eexists. split; [left; reflexivity |]. auto.
        -- right. auto.
      * split; [constructor |]. left. constructor.
    + split; [constructor |]. left. constructor.
  - split; [exact Hs |]. left. exact Hb'.
Qed.

Lemma returned_slots_ordered_within_windows_witness :
  windows_in_sequence (day_slots db_two_windows dr sample_day)
  /\ exists kept message warning,
       available_intervals rq_regular db_two_windows (at_time sample_day 8 10)
       = Some (JsonSlots kept message warning)
       /\ StronglySorted precedes kept
       /\ kept = [(at_time sample_day 9 0, at_time sample_day 9 30);
                  (at_time sample_day 9 30, at_time sample_day 10 0);
                  (at_time sample_day 11 0, at_time sample_day 11 30);
                  (at_time sample_day 14 0, at_time sample_day 14 30);
                  (at_time sample_day 14 30, at_time sample_day 15 0);
                  (at_time sample_day 15 0, at_time sample_day 15 15)].
Proof.
  assert (Hseq : windows_in_sequence (day_slots db_two_windows dr sample_day)).
  { vm_compute. repeat constructor. discriminate. }
  split; [exact Hseq |].
  destruct (returned_slots_ordered_within_windows
              rq_regular db_two_windows (at_time sample_day 8 10) dr sample_day)
    as (kept & message & warning & Heq & _ & Hs & _).
  - sample_accepted.
  - reflexivity.
  - intros _. exact Hseq.
  - exists kept, message, warning. split; [exact Heq |]. split; [exact Hs |].
    vm_compute in Heq. injection Heq as <- _ _. vm_compute. reflexivity.
Defined.

(** C6, as stated, fails: the view runs its loop over each availability
    window of the day in turn and concatenates what the loops keep.  With
    two windows that overlap, 09:00 to 10:00 and 09:30 to 10:30, the slot
    09:30 to 10:00 is returned twice: two returned slots overlap, and the
    starts do not increase strictly. *)
Lemma overlapping_windows_repeat_slots :
  let now := at_time sample_day 7 0 in
  let c := (at_time sample_day 9 30, at_time sample_day 10 0) in
  available_intervals rq_regular db_overlapping_windows now
  = Some (JsonSlots [(at_time sample_day 9 0, at_time sample_day 9 30); c; c;
                     (at_time sample_day 10 0, at_time sample_day 10 30)] None None)
  /\ get_available_slots rq_regular db_overlapping_windows now
     = Some (JsonSlots [mkSlot "09:00" "09:30" "09:00 - 09:30";
                        mkSlot "09:30" "10:00" "09:30 - 10:00";
                        mkSlot "09:30" "10:00" "09:30 - 10:00";
                        mkSlot "10:00" "10:30" "10:00 - 10:30"] None None)
  /\ overlaps c c
  /\ ~ fst c < fst c.
Proof.
  cbv zeta. split; [vm_compute; reflexivity |]. split; [vm_compute; reflexivity |].
  split; [split; reflexivity | vm_compute; discriminate].
Qed.

(** At 23:45 and after, the fallback is built from [.time()] of a sum that
    has passed midnight (views.py 287-288): on a fully booked day, at
    23:50, the one returned slot runs from 23:45 to 00:00 and does not lie
    within the emergency window 00:00 to 23:59, whether its end is read on
    the same day or on the next. *)
Lemma fallback_outside_window :
  let now := at_time sample_day 23 50 in
  let open := at_time sample_day 0 0 in
  let close := at_time sample_day 23 59 in
  get_available_slots rq_emergency db_fully_booked now
  = Some (JsonSlots [mkSlot "23:45" "00:00" "23:45 - 00:00 (Emergency)"]
                    (Some emergency_message) None)
  /\ exists c,
       available_intervals rq_emergency db_fully_booked now
       = Some (JsonSlots [c] (Some emergency_message) None)
       /\ ~ (open <= fst c /\ fst c < snd c /\ snd c <= close)
       /\ ~ (open <= fst c /\ fst c < snd c + day_us /\ snd c + day_us <= close).
Proof.
  cbv zeta. split; [vm_compute; reflexivity |].
  eexists. split; [vm_compute; reflexivity |].
  split; vm_compute; intros (_ & H1 & H2); try discriminate H1; apply H2; reflexivity.
Qed.

(* ================================================================== *)
(** * Errors *)

Lemma accepted_dec (rq : request) (db : database) :
  (exists doctor d, accepted rq db doctor d)
  \/ (forall doctor d, ~ accepted rq db doctor d).
Proof.
  unfold accepted.
  destruct (user_is_authenticated rq); [| right; intros doctor d (H & _); discriminate].
  destruct (method_is_GET rq); [| right; intros doctor d (_ & H & _); discriminate].
  destruct (doctor_id rq) as [| | doctor];
    try (right; intros doctor' d' (_ & _ & H & _); discriminate).
  destruct (date_str rq) as [| | d];
    try (right; intros doctor' d' (_ & _ & _ & H & _); discriminate).
  destruct (existsb (Z.eqb doctor) (users db)) eqn:Hex.
  - left. exists doctor, d. repeat split.
    apply existsb_exists in Hex. destruct Hex as (x & Hx & Heq).
    apply Z.eqb_eq in Heq. now subst x.
  - right. intros doctor' d' (_ & _ & Hd & _ & Hin). injection Hd as <-.
    assert (Ht : existsb (Z.eqb doctor) (users db) = true).
    { apply existsb_exists. exists doctor. split; [exact Hin | apply Z.eqb_refl]. }
    congruence.
Qed.

Lemma anonymous_redirected (rq : request) (db : database) (now : datetime) :
  user_is_authenticated rq = false ->
  get_available_slots rq db now = Some RedirectToLogin.
Proof.
  intros Hanon. unfold get_available_slots, get_available_slots_with.
  now rewrite Hanon.
Qed.

Lemma rejected_request_error (rq : request) (db : database) (now : datetime) :
  user_is_authenticated rq = true ->
  (forall doctor d, ~ accepted rq db doctor d) ->
  exists error, get_available_slots rq db now = Some (JsonError error 400).
Proof.
  intros Hauth Hnot. unfold get_available_slots, get_available_slots_with.
  rewrite Hauth.
  destruct (method_is_GET rq) eqn:Hget; [| eauto].
  destruct (doctor_id rq) as [| | doctor] eqn:Hdoc;
    destruct (date_str rq) as [| | d] eqn:Hdate; eauto.
  destruct (existsb (Z.eqb doctor) (users db)) eqn:Hex; [| eauto].
  exfalso. apply (Hnot doctor d). unfold accepted. repeat split; try assumption.
  apply existsb_exists in Hex. destruct Hex as (x & Hx & Heq).
  apply Z.eqb_eq in Heq. now subst x.
Qed.

(** C5, as amended.  The view always answers.  An anonymous request is
    redirected to the login page.  A request of a logged-in user gets an
    error with status 400 exactly when the request itself is not acceptable
    (not a GET, a missing or unparsable parameter, an unknown doctor),
    before any slot is generated.  An accepted request gets an error, with
    status 500, exactly when one of its loops leaves the calendar, and
    otherwise a slot list, possibly empty: the windows and intervals are
    never validated. *)
Theorem errors_come_from_the_request (rq : request) (db : database) (now : datetime) :
  exists r,
    get_available_slots rq db now = Some r
    /\ (user_is_authenticated rq = false -> r = RedirectToLogin)
    /\ (user_is_authenticated rq = true ->
        ~ (exists doctor d, accepted rq db doctor d) ->
        exists error, r = JsonError error 400)
    /\ (forall doctor d,
           accepted rq db doctor d ->
           (calendar_overflow (is_emergency rq) db doctor d = true ->
            r = JsonError error_processing 500)
           /\ (calendar_overflow (is_emergency rq) db doctor d = false ->
               exists slots message warning, r = JsonSlots slots message warning)).
Proof.
  destruct (accepted_dec rq db) as [(doctor & d & Hacc) | Hnot].
  - destruct (view_spec slot_dict rq db now doctor d Hacc)
      as (message & warning & Heq).
    eexists. split; [exact Heq |].
    assert (Hauth : user_is_authenticated rq = true) by apply Hacc.
    split; [congruence |]. split.
    + intros _ Hno. exfalso. apply Hno. eauto.
    + intros doctor' d' Hacc'.
      assert (doctor' = doctor /\ d' = d) as [-> ->].
      { destruct Hacc as (_ & _ & Hdoc & Hdate & _).
        destruct Hacc' as (_ & _ & Hdoc' & Hdate' & _).
        split; congruence. }
      split; intros Hcal; rewrite Hcal; eauto.
  - destruct (user_is_authenticated rq) eqn:Hauth.
    + destruct (rejected_request_error rq db now Hauth Hnot) as (error & Heq).
      eexists. split; [exact Heq |]. split; [discriminate |]. split.
      * intros _ _. eauto.
      * intros doctor d Hacc. exfalso. exact (Hnot doctor d Hacc).
    + eexists. split; [apply anonymous_redirected; exact Hauth |].
      split; [reflexivity |]. split; [discriminate |].
      intros doctor d Hacc. exfalso. exact (Hnot doctor d Hacc).
Qed.

(** C5, as stated, fails in both directions.  An availability window
    running from 10:00 back to 09:00 and a booked interval running from
    11:00 back to 10:30 are not rejected: the request gets the normal,
    empty, slot list.  And errors come with well-formed tables: a request
    without a doctor id gets status 400, and an emergency request for
    9999-12-31 gets status 500, raised while the slots are generated. *)
Lemma reversed_intervals_not_rejected :
  (exists row, In row (day_slots db_reversed dr sample_day)
               /\ avail_start_time row >= avail_end_time row)
  /\ (exists a, In a (existing_appointments db_reversed dr sample_day)
                /\ appt_start_time a >= appt_end_time a)
  /\ get_available_slots rq_regular db_reversed (at_time sample_day 7 0)
     = Some (JsonSlots [] None None)
  /\ Forall (fun a => appt_start_time a < appt_end_time a) (appointments db_one_booking)
  /\ leave_requests db_one_booking = []
  /\ availabilities db_one_booking = []
  /\ get_available_slots rq_no_doctor db_one_booking (at_time sample_day 7 0)
     = Some (JsonError "Missing parameters" 400)
  /\ get_available_slots rq_last_day db_one_booking (at_time sample_day 7 0)
     = Some (JsonError error_processing 500).
Proof.
  split; [| split; [| split; [| split; [| split; [| split; [| split]]]]]].
  - eexists. split; [left; reflexivity |]. vm_compute. discriminate.
  - eexists. split; [left; reflexivity |]. vm_compute. discriminate.
  - vm_compute. reflexivity.
  - repeat constructor.
  - reflexivity.
  - reflexivity.
  - reflexivity.
  - vm_compute. reflexivity.
Qed.

(* ================================================================== *)
(** * Leave *)

(** The emergency branch never reads the leave table. *)
Lemma emergency_ignores_leave (rq : request) (db : database) (now : datetime)
      (leaves : list DoctorLeaveRequest) :
  is_emergency rq = true ->
  get_available_slots rq
    (mkDatabase (users db) (appointments db) leaves (availabilities db)) now
  = get_available_slots rq db now.
Proof.
  intros Hem. unfold get_available_slots, get_available_slots_with.
  rewrite Hem. reflexivity.
Qed.

(** The regular branch keeps no candidate that overlaps the leave row it
    read, the first of the approved ones. *)
Lemma first_leave_excludes (db : database) (doctor : Z) (d : date)
      (lv : DoctorLeaveRequest) (c : interval) :
  first (approved_leaves db doctor d) = Some lv ->
  In c (loop_intervals false db doctor d) ->
  ~ overlaps c (leave_interval d (leave_start_time lv, leave_end_time lv)).
Proof.
  intros Hfirst Hin Hov. unfold loop_intervals in Hin. rewrite Hfirst in Hin.
  apply filter_In in Hin. destruct Hin as [Hc Hfree].
  assert (Hday : within_day d (combine d (mk_time 8 0)) (combine d (mk_time 22 0)))
    by (unfold within_day, combine, mk_time, day_us, hour_us, minute_us; lia).
  destruct (candidate_within_day d _ _ (minutes 30) c eq_refl Hday Hc)
    as (H1 & H2 & H3).
  apply free_spec in Hfree; [| assumption ..].
  destruct Hfree as [_ Hnl]. apply Hnl. eexists. split; [reflexivity | exact Hov].
Qed.

(** C4 at its failing input.  With two approved leaves on one day the view
    reads only the first (14:00 to 16:00) and returns the slot 09:00 to
    09:30, which the second leave (09:00 to 10:00) overlaps. *)
Theorem second_leave_not_excluded :
  let c := (at_time sample_day 9 0, at_time sample_day 9 30) in
  exists slots kept,
    get_available_slots rq_regular db_two_leaves (at_time sample_day 7 0)
    = Some (JsonSlots slots None (Some leave_warning))
    /\ available_intervals rq_regular db_two_leaves (at_time sample_day 7 0)
       = Some (JsonSlots kept None (Some leave_warning))
    /\ In (mkSlot "09:00" "09:30" "09:00 - 09:30") slots
    /\ In c kept
    /\ exists lv, In lv (approved_leaves db_two_leaves dr sample_day)
                  /\ overlaps c (leave_interval sample_day
                                                (leave_start_time lv, leave_end_time lv)).
Proof.
  cbv zeta. eexists _, _.
  split; [vm_compute; reflexivity |].
  split; [vm_compute; reflexivity |].
  split; [right; right; left; reflexivity |].
  split; [right; right; left; reflexivity |].
  eexists. split; [right; left; reflexivity |].
  vm_compute. split; reflexivity.
Qed.

(** C3 at its failing input, the one of C4.  The candidate 09:30 to 10:00
    of the standard window strictly overlaps the approved leave from 09:00
    to 10:00 ([candidate.start < other.end] and
    [candidate.end > other.start]), the request is no emergency, and the
    candidate is returned: the view tested it against the newest approved
    leave only, 14:00 to 16:00.  With the leave from 09:00 to 10:00 as the
    only one, the same candidate is excluded. *)
Theorem overlapped_candidate_not_excluded :
  let now := at_time sample_day 7 0 in
  let c := (at_time sample_day 9 30, at_time sample_day 10 0) in
  let blackout := leave_interval sample_day (mk_time 9 0, mk_time 10 0) in
  is_emergency rq_regular = false
  /\ In c (candidates (at_time sample_day 8 0) (at_time sample_day 22 0) (minutes 30))
  /\ (exists lv, In lv (approved_leaves db_two_leaves dr sample_day)
                 /\ leave_interval sample_day (leave_start_time lv, leave_end_time lv)
                    = blackout)
  /\ fst c < snd blackout /\ snd c > fst blackout
  /\ (exists kept,
         available_intervals rq_regular db_two_leaves now
         = Some (JsonSlots kept None (Some leave_warning))
         /\ In c kept)
  /\ (exists kept,
         available_intervals rq_regular db_morning_leave now
         = Some (JsonSlots kept None (Some leave_warning))
         /\ ~ In c kept).
Proof.
  cbv zeta. split; [reflexivity |].
  split; [vm_compute; tauto |].
  split; [eexists; split; [right; left; reflexivity | reflexivity] |].
  split; [reflexivity |]. split; [reflexivity |].
  split.
  - eexists. split; [vm_compute; reflexivity |]. vm_compute. tauto.
  - eexists. split; [vm_compute; reflexivity |].
    vm_compute. intros H.
    repeat (destruct H as [H | H]; [discriminate H |]). exact H.
Qed.

(* ================================================================== *)
(** * Determinism *)

Lemma fallback_interval_quarter (d : date) (now1 now2 : datetime) :
  hour now1 = hour now2 -> minute now1 / 15 = minute now2 / 15 ->
  fallback_interval d now1 = fallback_interval d now2.
Proof.
  unfold fallback_interval. now intros -> ->.
Qed.

(** What the emergency branch returns depends on the clock only when the
    fallback is built. *)
Lemma returned_intervals_clock (db1 db2 : database) (now1 now2 : datetime)
      (doctor : Z) (d : date) :
  existing_appointments db1 doctor d = existing_appointments db2 doctor d ->
  (exists c, In c (emergency_candidates d)
             /\ ~ booked d (existing_appointments db1 doctor d) c)
  \/ (d <> date_of now1 /\ d <> date_of now2)
  \/ (date_of now1 = date_of now2 /\ hour now1 = hour now2
      /\ minute now1 / 15 = minute now2 / 15) ->
  returned_intervals true db1 now1 doctor d = returned_intervals true db2 now2 doctor d.
Proof.
  intros Happts Hclock. unfold returned_intervals, loop_intervals.
  rewrite <- Happts.
  destruct (filter _ _) as [| c0 kept] eqn:E; [| reflexivity].
  simpl. destruct Hclock as [(c & Hc & Hnb) | [[H1 H2] | (Hd & Hh & Hm)]].
  - exfalso.
    assert (Hin : In c (filter (free d None (existing_appointments db1 doctor d))
                               (emergency_candidates d))).
    { apply filter_In. split; [exact Hc |]. rewrite free_no_leave.
      apply negb_true_iff.
      destruct (bookedb d (existing_appointments db1 doctor d) c) eqn:Eb;
        [| reflexivity].
      apply bookedb_spec in Eb. contradiction. }
    unfold emergency_candidates in Hin. rewrite E in Hin. destruct Hin.
  - apply Z.eqb_neq in H1. apply Z.eqb_neq in H2. now rewrite H1, H2.
  - rewrite Hd, (fallback_interval_quarter d now1 now2 Hh Hm). reflexivity.
Qed.

(** C8, as amended.  The view takes no current time from its caller: it
    reads the clock itself, and only to build the emergency fallback.  Two
    runs of the same request return the same response, slot for slot and
    in the same order, as soon as the two databases give the same answers
    to the queries of the view (the same booked rows, the same approved
    leave rows and the same availability rows for this doctor and day) and
    the request is no emergency, or one of its candidates is free, or
    neither run is made on the requested day, or the two clocks show the
    same day, hour and quarter of an hour. *)
Theorem same_inputs_same_slots
        (rq : request) (db1 db2 : database) (now1 now2 : datetime)
        (doctor : Z) (d : date) :
  accepted rq db1 doctor d ->
  accepted rq db2 doctor d ->
  existing_appointments db1 doctor d = existing_appointments db2 doctor d ->
  approved_leaves db1 doctor d = approved_leaves db2 doctor d ->
  doctor_has_slots db1 doctor = doctor_has_slots db2 doctor ->
  day_slots db1 doctor d = day_slots db2 doctor d ->
  is_emergency rq = false
  \/ (exists c, In c (emergency_candidates d)
                /\ ~ booked d (existing_appointments db1 doctor d) c)
  \/ (d <> date_of now1 /\ d <> date_of now2)
  \/ (date_of now1 = date_of now2 /\ hour now1 = hour now2
      /\ minute now1 / 15 = minute now2 / 15) ->
  get_available_slots rq db1 now1 = get_available_slots rq db2 now2.
Proof.
  intros Hacc1 Hacc2 Happts Hleaves Hhas Hrows Hclock. unfold get_available_slots.
  rewrite (accepted_dispatch _ _ _ now1 _ _ Hacc1),
    (accepted_dispatch _ _ _ now2 _ _ Hacc2).
  destruct (is_emergency rq).
  - destruct Hclock as [Hem | Hclock]; [discriminate |].
    rewrite !emergency_slots_spec, !calendar_overflow_emergency.
    now rewrite (returned_intervals_clock db1 db2 now1 now2 doctor d Happts Hclock).
  - unfold regular_slots. rewrite Happts, Hleaves, Hhas, Hrows. reflexivity.
Qed.

Lemma same_inputs_same_slots_witness :
  db_one_booking <> db_one_booking_and_others
  /\ get_available_slots rq_regular db_one_booking (at_time sample_day 8 10)
     = get_available_slots rq_regular db_one_booking_and_others
                           (at_time (sample_day + 3) 17 40).
Proof.
  split; [discriminate |].
  apply (same_inputs_same_slots rq_regular db_one_booking db_one_booking_and_others
           (at_time sample_day 8 10) (at_time (sample_day + 3) 17 40) dr sample_day).
  - sample_accepted.
  - sample_accepted.
  - reflexivity.
  - reflexivity.
  - reflexivity.
  - reflexivity.
  - left. reflexivity.
Defined.

(** C8, as stated, fails: the current time is no input of the view.  The
    same emergency request on the same tables, a fully booked day, gets the
    slot 08:00 to 08:15 at 08:10 and the slot 08:30 to 08:45 at 08:40. *)
Lemma clock_changes_the_answer :
  get_available_slots rq_emergency db_fully_booked (at_time sample_day 8 10)
  = Some (JsonSlots [mkSlot "08:00" "08:15" "08:00 - 08:15 (Emergency)"]
                    (Some emergency_message) None)
  /\ get_available_slots rq_emergency db_fully_booked (at_time sample_day 8 40)
     = Some (JsonSlots [mkSlot "08:30" "08:45" "08:30 - 08:45 (Emergency)"]
                       (Some emergency_message) None)
  /\ get_available_slots rq_emergency db_fully_booked (at_time sample_day 8 10)
     <> get_available_slots rq_emergency db_fully_booked (at_time sample_day 8 40).
Proof.
  split; [vm_compute; reflexivity |]. split; [vm_compute; reflexivity |].
  vm_compute. discriminate.
Qed.

(* ================================================================== *)
(* ================================================================== *)
(** * Validation of appointments *)

Lemma on_approved_leave_spec (start_time end_time : time) (is_emergency : bool)
      (leave_requests : list DoctorLeaveRequest) :
  on_approved_leave start_time end_time is_emergency leave_requests = true
  <-> is_emergency = false
      /\ exists leave, In leave leave_requests
                       /\ start_time < leave_end_time leave
                       /\ end_time > leave_start_time leave.
Proof.
  induction leave_requests as [| leave rest IH]; simpl.
  - split; [discriminate | intros (_ & leave & [] & _)].
  - destruct ((start_time <? leave_end_time leave)
              && (end_time >? leave_start_time leave)) eqn:E.
    + apply andb_true_iff in E. rewrite Z.ltb_lt, Z.gtb_ltb, Z.ltb_lt in E.
      destruct is_emergency; simpl.
      * rewrite IH. split; [intros (H & _) | intros (H & _)]; discriminate.
      * split; [| reflexivity]. intros _. split; [reflexivity |].
        exists leave. split; [now left | lia].
    + apply andb_false_iff in E. rewrite Z.ltb_ge, Z.gtb_ltb, Z.ltb_ge in E.
      rewrite IH. split; intros (Hem & l & Hl & Ho); split; try exact Hem.
      * exists l. split; [now right | exact Ho].
      * destruct Hl as [<- | Hl]; [lia |]. exists l. now split.
Qed.

Lemma overlaps_one_spec (start_time end_time : time) (others : list Booking) :
  overlaps_one start_time end_time others = true
  <-> exists a, In a others
                /\ start_time < appt_end_time (appt_row a)
                /\ end_time > appt_start_time (appt_row a).
Proof.
  induction others as [| appt rest IH]; simpl.
  - split; [discriminate | intros (a & [] & _)].
  - destruct ((start_time <? appt_end_time (appt_row appt))
              && (end_time >? appt_start_time (appt_row appt))) eqn:E.
    + apply andb_true_iff in E. rewrite Z.ltb_lt, Z.gtb_ltb, Z.ltb_lt in E.
      split; [| reflexivity]. intros _. exists appt. split; [now left | lia].
    + apply andb_false_iff in E. rewrite Z.ltb_ge, Z.gtb_ltb, Z.ltb_ge in E.
      rewrite IH. split; intros (a & Ha & Ho).
      * exists a. split; [now right | exact Ho].
      * destruct Ha as [<- | Ha]; [lia |]. exists a. now split.
Qed.

Lemma same_pk_false_iff (a b : option Z) :
  same_pk a b = false <-> a <> b \/ a = None.
Proof.
  destruct a as [x |], b as [y |]; simpl.
  - rewrite Z.eqb_neq. split.
    + intros H. left. congruence.
    + intros [H | H]; congruence.
  - split; [left; discriminate | reflexivity].
  - split; [now right | reflexivity].
  - split; [now right | reflexivity].
Qed.

(** The hours test of [Appointment.clean], as a proposition. *)
Lemma hours_cases (c : clinic) (self : Booking) :
  let start_time := appt_start_time (appt_row self) in
  let end_time := appt_end_time (appt_row self) in
  forall em : bool,
    (if doctor_has_slots (database_of c) (appt_doctor (appt_row self)) then
       if negb (covering_window c self) && negb em
       then ValidationError msg_not_available else Valid
     else
       if ((start_time <? mk_time 8 0) || (end_time >? mk_time 22 0)) && negb em
       then ValidationError msg_outside_hours else Valid) = Valid
    <-> (em = false ->
         if doctor_has_slots (database_of c) (appt_doctor (appt_row self))
         then covering_window c self = true
         else mk_time 8 0 <= start_time /\ end_time <= mk_time 22 0).
Proof.
  cbv zeta. intros em.
  destruct (doctor_has_slots (database_of c) (appt_doctor (appt_row self))).
  - destruct (covering_window c self), em; simpl; split; intros H; auto;
      try discriminate. discriminate (H eq_refl).
  - destruct ((appt_start_time (appt_row self) <? mk_time 8 0)
              || (appt_end_time (appt_row self) >? mk_time 22 0)) eqn:E.
    + apply orb_true_iff in E. rewrite Z.ltb_lt, Z.gtb_ltb, Z.ltb_lt in E.
      destruct em; simpl; split; intros H; auto; try discriminate.
      specialize (H eq_refl). lia.
    + apply orb_false_iff in E. rewrite Z.ltb_ge, Z.gtb_ltb, Z.ltb_ge in E.
      simpl. split; [intros _ _; lia | reflexivity].
Qed.

Lemma overlapping_doctor_In (c : clinic) (self a : Booking) :
  In a (overlapping_doctor c self)
  <-> In a (bookings c)
      /\ appt_doctor (appt_row a) = appt_doctor (appt_row self)
      /\ appt_date (appt_row a) = appt_date (appt_row self)
      /\ is_active (appt_row a) = true
      /\ same_pk (appt_id a) (appt_id self) = false.
Proof.
  unfold overlapping_doctor.
  rewrite filter_In, !andb_true_iff, negb_true_iff, !Z.eqb_eq. tauto.
Qed.

Lemma overlapping_patient_In (c : clinic) (self a : Booking) :
  In a (overlapping_patient c self)
  <-> In a (bookings c)
      /\ appt_patient a = appt_patient self
      /\ appt_date (appt_row a) = appt_date (appt_row self)
      /\ is_active (appt_row a) = true
      /\ same_pk (appt_id a) (appt_id self) = false.
Proof.
  unfold overlapping_patient.
  rewrite filter_In, !andb_true_iff, negb_true_iff, !Z.eqb_eq. tauto.
Qed.

Lemma Appointment_clean_spec (c : clinic) (self : Booking) :
  let doctor := appt_doctor (appt_row self) in
  let d := appt_date (appt_row self) in
  let start_time := appt_start_time (appt_row self) in
  let end_time := appt_end_time (appt_row self) in
  Appointment_clean c self = Valid
  <-> start_time < end_time
      /\ (emergency_booking self = false ->
          (forall leave, In leave (approved_leaves (database_of c) doctor d) ->
                         ~ (start_time < leave_end_time leave
                            /\ end_time > leave_start_time leave))
          /\ (if doctor_has_slots (database_of c) doctor
              then covering_window c self = true
              else mk_time 8 0 <= start_time /\ end_time <= mk_time 22 0))
      /\ (forall a, In a (bookings c) ->
                    same_pk (appt_id a) (appt_id self) = false ->
                    is_active (appt_row a) = true ->
                    appt_date (appt_row a) = d ->
                    appt_doctor (appt_row a) = doctor \/ appt_patient a = appt_patient self ->
                    ~ (start_time < appt_end_time (appt_row a)
                       /\ end_time > appt_start_time (appt_row a))).
Proof.
  cbv zeta. unfold Appointment_clean. fold (emergency_booking self).
  pose proof (on_approved_leave_spec
                (appt_start_time (appt_row self)) (appt_end_time (appt_row self))
                (emergency_booking self)
                (approved_leaves (database_of c) (appt_doctor (appt_row self))
                                 (appt_date (appt_row self)))) as Hleave.
  pose proof (hours_cases c self (emergency_booking self)) as Hhours.
  cbv zeta in Hhours.
  pose proof (overlaps_one_spec (appt_start_time (appt_row self))
                (appt_end_time (appt_row self)) (overlapping_doctor c self)) as Hdoc.
  pose proof (overlaps_one_spec (appt_start_time (appt_row self))
                (appt_end_time (appt_row self)) (overlapping_patient c self)) as Hpat.
  destruct (Z.geb_spec (appt_start_time (appt_row self))
                       (appt_end_time (appt_row self))) as [Hge | Hlt].
  { split; [discriminate | intros (H & _); lia]. }
  destruct (on_approved_leave _ _ _ _).
  { split; [discriminate |]. intros (_ & Hne & _).
    destruct (proj1 Hleave eq_refl) as (Hem & leave & Hin & Ho).
    destruct (Hne Hem) as [Hno _]. exfalso. exact (Hno leave Hin Ho). }
  assert (Hnoleave : emergency_booking self = false ->
                     forall leave,
                       In leave (approved_leaves (database_of c)
                                   (appt_doctor (appt_row self))
                                   (appt_date (appt_row self))) ->
                       ~ (appt_start_time (appt_row self) < leave_end_time leave
                          /\ appt_end_time (appt_row self) > leave_start_time leave)).
  { intros Hem leave Hin Ho.
    assert (Ht : false = true); [| discriminate].
    apply Hleave. split; [exact Hem |]. exists leave. tauto. }
  match goal with
  | |- match ?h with _ => _ end = _ <-> _ => destruct h eqn:Eh
  end.
  2:{ split; [discriminate |]. intros (_ & Hne & _).
      assert (Ht : ValidationError message = Valid); [| discriminate].
      apply Hhours. intros Hem. apply Hne, Hem. }
  destruct (overlaps_one _ _ (overlapping_doctor c self)).
  { split; [discriminate |]. intros (_ & _ & Hall).
    destruct (proj1 Hdoc eq_refl) as (a & Ha & Ho).
    apply overlapping_doctor_In in Ha. destruct Ha as (H1 & H2 & H3 & H4 & H5).
    exfalso. apply (Hall a); auto. }
  destruct (overlaps_one _ _ (overlapping_patient c self)).
  { split; [discriminate |]. intros (_ & _ & Hall).
    destruct (proj1 Hpat eq_refl) as (a & Ha & Ho).
    apply overlapping_patient_In in Ha. destruct Ha as (H1 & H2 & H3 & H4 & H5).
    exfalso. apply (Hall a); auto. }
  split; [intros _ | reflexivity].
  split; [lia |]. split.
  - intros Hem. split; [now apply Hnoleave |]. now apply Hhours.
  - intros a Hin Hpk Hact Hdate [Hd | Hp] Ho.
    + assert (Ht : false = true); [| discriminate].
      apply Hdoc. exists a. split; [| exact Ho].
      apply overlapping_doctor_In. auto.
    + assert (Ht : false = true); [| discriminate].
      apply Hpat. exists a. split; [| exact Ho].
      apply overlapping_patient_In. auto.
Qed.

(** X1.  [Appointment.clean] accepts a row exactly when it starts before it
    ends, no other active row of that day with the same doctor or the same
    patient overlaps it, and, unless the row is an emergency, no approved
    leave of the doctor overlaps it and it lies inside one availability
    window of the doctor for that weekday (inside 08:00-22:00 when the
    doctor has no window at all).  Emergencies skip the leave and hours
    tests, never the double-booking tests. *)
Theorem Appointment_clean_valid_iff (c : clinic) (self : Booking) :
  let doctor := appt_doctor (appt_row self) in
  let d := appt_date (appt_row self) in
  let start_time := appt_start_time (appt_row self) in
  let end_time := appt_end_time (appt_row self) in
  Appointment_clean c self = Valid
  <-> start_time < end_time
      /\ (emergency_booking self = false ->
          (forall leave, In leave (approved_leaves (database_of c) doctor d) ->
                         ~ (start_time < leave_end_time leave
                            /\ end_time > leave_start_time leave))
          /\ (if doctor_has_slots (database_of c) doctor
              then covering_window c self = true
              else mk_time 8 0 <= start_time /\ end_time <= mk_time 22 0))
      /\ (forall a, In a (bookings c) ->
                    same_pk (appt_id a) (appt_id self) = false ->
                    is_active (appt_row a) = true ->
                    appt_date (appt_row a) = d ->
                    appt_doctor (appt_row a) = doctor \/ appt_patient a = appt_patient self ->
                    ~ (start_time < appt_end_time (appt_row a)
                       /\ end_time > appt_start_time (appt_row a))).
Proof. exact (Appointment_clean_spec c self). Qed.

(* ================================================================== *)
(** * Saving keeps the table free of double bookings *)

Lemma stored_pks_In (rows : list Booking) (i : Z) :
  In i (stored_pks rows) <-> exists r, In r rows /\ appt_id r = Some i.
Proof.
  unfold stored_pks. rewrite in_flat_map. split.
  - intros (r & Hr & Hi). exists r. split; [exact Hr |].
    destruct (appt_id r); [destruct Hi as [-> | []]; reflexivity | destruct Hi].
  - intros (r & Hr & Hi). exists r. split; [exact Hr |]. rewrite Hi. now left.
Qed.

Lemma stored_pks_app (rows more : list Booking) :
  stored_pks (rows ++ more) = stored_pks rows ++ stored_pks more.
Proof. unfold stored_pks. apply flat_map_app. Qed.

Lemma next_pk_fresh (pks : list Z) : ~ In (next_pk pks) pks.
Proof.
  assert (H : forall x, In x pks -> x <= fold_right Z.max 0 pks).
  { induction pks as [| p pks IH]; simpl; [contradiction |].
    intros x [-> | Hx]; [lia |]. specialize (IH x Hx). lia. }
  intros Hin. apply H in Hin. unfold next_pk in Hin. lia.
Qed.

Lemma NoDup_snoc {A : Type} (l : list A) (x : A) :
  NoDup l -> ~ In x l -> NoDup (l ++ [x]).
Proof.
  intros Hl Hx. induction Hl as [| y l Hy Hl IH]; simpl.
  - constructor; [intros [] | constructor].
  - constructor.
    + rewrite in_app_iff. intros [H | [-> | []]]; [contradiction |].
      apply Hx. now left.
    + apply IH. intros H. apply Hx. now right.
Qed.

Lemma times_overlap_sym (a b : Appointment) : times_overlap a b -> times_overlap b a.
Proof. unfold times_overlap. lia. Qed.

Lemma clash_sym (a b : Booking) : clash a b -> clash b a.
Proof.
  unfold clash. intros (Hd & Hw & Ha & Hb & Ho).
  split; [congruence |]. split; [destruct Hw; [left | right]; congruence |].
  split; [exact Hb |]. split; [exact Ha |]. now apply times_overlap_sym.
Qed.

(** A row that [clean] accepts clashes with no stored row but itself. *)
Lemma accepted_row_clashes_with_none (c : clinic) (self self' r : Booking) :
  Appointment_clean c self = Valid ->
  appt_row self' = appt_row self -> appt_patient self' = appt_patient self ->
  In r (bookings c) -> same_pk (appt_id r) (appt_id self) = false ->
  ~ clash self' r.
Proof.
  intros Hvalid Hrow Hpat Hr Hpk (Hd & Hw & _ & Hact & Ho).
  apply Appointment_clean_spec in Hvalid. destruct Hvalid as (_ & _ & Hall).
  unfold times_overlap in Ho. rewrite Hrow in *. rewrite Hpat in *.
  apply (Hall r Hr Hpk Hact); [congruence | | exact Ho].
  destruct Hw; [left | right]; congruence.
Qed.

Lemma no_double_booking_snoc (c : clinic) (row : Booking) (i : Z) :
  no_double_booking c ->
  appt_id row = Some i -> ~ In i (stored_pks (bookings c)) ->
  (forall r, In r (bookings c) -> ~ clash row r) ->
  no_double_booking (mkClinic (staff c) (bookings c ++ [row]) (leaves c) (windows c)).
Proof.
  intros (Hnd & Hids & Hpairs) Hi Hfresh Hrow. unfold no_double_booking. simpl.
  split; [| split].
  - rewrite stored_pks_app. unfold stored_pks at 2. simpl. rewrite Hi. simpl.
    now apply NoDup_snoc.
  - apply Forall_app. split; [exact Hids |]. constructor; [| constructor]. congruence.
  - intros a b Ha Hb Hne.
    apply in_app_iff in Ha. apply in_app_iff in Hb.
    destruct Ha as [Ha | [<- | []]], Hb as [Hb | [<- | []]].
    + now apply Hpairs.
    + intros Hc. apply clash_sym in Hc. revert Hc. now apply Hrow.
    + now apply Hrow.
    + congruence.
Qed.

Lemma no_double_booking_replace (c : clinic) (self : Booking) (i : Z) :
  no_double_booking c ->
  appt_id self = Some i ->
  (forall r, In r (bookings c) -> same_pk (appt_id r) (Some i) = false ->
             ~ clash self r) ->
  no_double_booking
    (mkClinic (staff c)
              (map (fun r => if same_pk (appt_id r) (Some i) then self else r)
                   (bookings c))
              (leaves c) (windows c)).
Proof.
  intros (Hnd & Hids & Hpairs) Hi Hself. unfold no_double_booking. simpl.
  set (f := fun r => if same_pk (appt_id r) (Some i) then self else r).
  assert (Hid : forall r, appt_id r <> None -> appt_id (f r) = appt_id r).
  { intros r Hr. unfold f. destruct (appt_id r) as [x |] eqn:E; [| contradiction].
    simpl. destruct (Z.eqb_spec x i); [subst; now rewrite Hi | exact E]. }
  assert (Hpks : stored_pks (map f (bookings c)) = stored_pks (bookings c)).
  { clear Hnd Hpairs Hself. unfold stored_pks.
    induction (bookings c) as [| r rows IH]; [reflexivity |].
    apply Forall_cons_iff in Hids. destruct Hids as [Hr Hrows].
    simpl. rewrite (Hid r Hr), (IH Hrows). reflexivity. }
  assert (Hcase : forall a, In a (map f (bookings c)) ->
                            (In a (bookings c) /\ same_pk (appt_id a) (Some i) = false)
                            \/ a = self).
  { intros a Ha. apply in_map_iff in Ha. destruct Ha as (r & <- & Hr).
    unfold f. destruct (same_pk (appt_id r) (Some i)) eqn:E; [now right | left; auto]. }
  split; [| split].
  - now rewrite Hpks.
  - apply Forall_forall. intros a Ha.
    destruct (Hcase a Ha) as [[Hin _] | ->]; [| congruence].
    rewrite Forall_forall in Hids. now apply Hids.
  - intros a b Ha Hb Hne.
    destruct (Hcase a Ha) as [[Hina Hpa] | ->], (Hcase b Hb) as [[Hinb Hpb] | ->].
    + now apply Hpairs.
    + intros Hc. apply clash_sym in Hc. revert Hc. now apply Hself.
    + now apply Hself.
    + congruence.
Qed.

Lemma Appointment_save_invariant (c c' : clinic) (self : Booking) :
  no_double_booking c ->
  Appointment_save c self = inl c' ->
  no_double_booking c'.
Proof.
  intros Hinv Hsave. unfold Appointment_save in Hsave.
  destruct (Appointment_clean c self) eqn:Hvalid; [| discriminate].
  injection Hsave as <-.
  destruct (appt_id self) as [i |] eqn:Hi.
  - destruct (existsb (fun r => same_pk (appt_id r) (Some i)) (bookings c)) eqn:Hex.
    + apply no_double_booking_replace; auto.
      intros r Hr Hpk. apply (accepted_row_clashes_with_none c self self r); auto.
      now rewrite Hi.
    + assert (Hnone : forall r, In r (bookings c) ->
                                same_pk (appt_id r) (Some i) = false).
      { intros r Hr. destruct (same_pk (appt_id r) (Some i)) eqn:E; [| reflexivity].
        assert (Ht : existsb (fun r => same_pk (appt_id r) (Some i)) (bookings c) = true)
          by (apply existsb_exists; eauto).
        congruence. }
      apply (no_double_booking_snoc c self i); auto.
      * intros Hin. apply stored_pks_In in Hin. destruct Hin as (r & Hr & Hid).
        specialize (Hnone r Hr). rewrite Hid in Hnone. simpl in Hnone.
        rewrite Z.eqb_refl in Hnone. discriminate.
      * intros r Hr. apply (accepted_row_clashes_with_none c self self r); auto.
        rewrite Hi. now apply Hnone.
  - apply (no_double_booking_snoc c _ (next_pk (stored_pks (bookings c)))); auto.
    + apply next_pk_fresh.
    + intros r Hr. apply (accepted_row_clashes_with_none c self _ r); auto.
      rewrite Hi. destruct (appt_id r); reflexivity.
Qed.

(** X2.  Saving keeps the appointments table free of double bookings:
    when no two different active rows of one day that share the doctor or
    the patient overlap, the same holds of the table [Appointment.save]
    leaves, whether it inserts the row or updates it. *)
Theorem save_keeps_no_double_booking (c c' : clinic) (self : Booking) :
  no_double_booking c ->
  Appointment_save c self = inl c' ->
  no_double_booking c'.
Proof.
  intros Hinv Hsave. exact (Appointment_save_invariant c c' self Hinv Hsave).
Qed.

(* ================================================================== *)
(** * Booking the slots the view offers *)

Lemma existing_appointments_of (c : clinic) (doctor : Z) (d : date) (a : Appointment) :
  In a (existing_appointments (database_of c) doctor d)
  <-> exists b, In b (bookings c) /\ appt_row b = a
                /\ appt_doctor a = doctor /\ appt_date a = d /\ is_active a = true.
Proof.
  unfold existing_appointments, database_of. simpl.
  rewrite filter_In, in_map_iff, !andb_true_iff, !Z.eqb_eq. split.
  - intros ((b & Hb & Hin) & (Hd & Hdate) & Hact). exists b. auto.
  - intros (b & Hin & Hb & Hd & Hdate & Hact). split; [exists b |]; auto.
Qed.

Lemma combine_lt (d : date) (s t : time) : combine d s < combine d t <-> s < t.
Proof. unfold combine. lia. Qed.

Lemma time_of_bounds (d : date) (w s : interval) :
  combine d 0 <= fst w -> snd w < combine d day_us -> inside w s ->
  combine d (time_of (fst s)) = fst s /\ combine d (time_of (snd s)) = snd s.
Proof.
  unfold inside. intros H1 H2 (H3 & H4 & H5).
  rewrite !(time_of_within d) by lia. unfold combine. lia.
Qed.

(** A slot the loop kept, booked with its own bounds, overlaps no active
    row of the doctor on that day. *)
Lemma kept_slot_clear_of_doctor (c : clinic) (doctor : Z) (d : date)
      (leave : option (time * time)) (s : interval) (b : Booking) :
  free d leave (existing_appointments (database_of c) doctor d) s = true ->
  combine d (time_of (fst s)) = fst s -> combine d (time_of (snd s)) = snd s ->
  In b (bookings c) -> is_active (appt_row b) = true ->
  appt_date (appt_row b) = d -> appt_doctor (appt_row b) = doctor ->
  ~ (time_of (fst s) < appt_end_time (appt_row b)
     /\ time_of (snd s) > appt_start_time (appt_row b)).
Proof.
  intros Hfree Hs He Hb Hact Hdate Hdoc [Ho1 Ho2].
  unfold free in Hfree. apply andb_true_iff in Hfree. destruct Hfree as [_ Hav].
  destruct s as [s e]. simpl in *.
  apply is_available_spec in Hav. apply Hav.
  exists (appt_row b). split.
  - apply existing_appointments_of. exists b. auto.
  - unfold overlaps, booked_interval. simpl. rewrite <- Hs, <- He.
    split; [now apply combine_lt | apply Z.lt_gt, combine_lt; lia].
Qed.


(** ** The posted times of a slot *)

Lemma posted_time_whole (x : datetime) :
  whole_minute x -> posted_time x = time_of x.
Proof.
  unfold whole_minute, posted_time, mk_time, hour, minute. intros Hx.
  assert (Ht : time_of x mod minute_us = 0).
  { unfold time_of. rewrite Z.mod_mod_divide; [exact Hx |].
    exists 1440. reflexivity. }
  pose proof (Z.div_mod (time_of x) minute_us ltac:(discriminate)) as Hdm.
  pose proof (Z.div_mod (time_of x / minute_us) 60 ltac:(discriminate)) as Hdm'.
  assert (Hdd : time_of x / minute_us / 60 = time_of x / hour_us)
    by (rewrite Z.div_div by (unfold minute_us; lia); reflexivity).
  unfold hour_us in *. lia.
Qed.

Lemma new_booking_exact (patient doctor : Z) (d : date) (s : interval) (emergency : bool) :
  whole_minute (fst s) -> whole_minute (snd s) ->
  new_booking patient doctor d s emergency = slot_booking patient doctor d s emergency.
Proof.
  intros H1 H2. unfold new_booking, slot_booking.
  now rewrite (posted_time_whole _ H1), (posted_time_whole _ H2).
Qed.

Lemma whole_minute_combine (d : date) (t : time) :
  whole_minute t -> whole_minute (combine d t).
Proof.
  unfold whole_minute, combine. intros Ht.
  replace (d * day_us + t) with (t + (d * 1440) * minute_us)
    by (unfold day_us, hour_us; lia).
  now rewrite Z.mod_add by discriminate.
Qed.

Lemma whole_minute_add (x y : Z) :
  whole_minute x -> whole_minute y -> whole_minute (x + y).
Proof.
  unfold whole_minute. intros Hx Hy.
  rewrite Z.add_mod, Hx, Hy by discriminate. reflexivity.
Qed.

Lemma whole_minute_mul (k x : Z) : whole_minute x -> whole_minute (k * x).
Proof.
  unfold whole_minute. intros Hx.
  rewrite Z.mul_mod, Hx, Z.mul_0_r by discriminate. reflexivity.
Qed.

Lemma candidates_whole (open close : datetime) (step : timedelta) (s : interval) :
  whole_minute open -> whole_minute close -> whole_minute step ->
  In s (candidates open close step) ->
  whole_minute (fst s) /\ whole_minute (snd s).
Proof.
  intros Ho Hc Hs Hin. unfold candidates in Hin.
  apply in_map_iff in Hin. destruct Hin as (k & <- & _).
  unfold candidate. simpl. split.
  - apply whole_minute_add; [exact Ho | now apply whole_minute_mul].
  - destruct (Z.min_spec (open + (Z.of_nat k + 1) * step) close) as [[_ ->] | [_ ->]];
      [| exact Hc].
    apply whole_minute_add; [exact Ho | now apply whole_minute_mul].
Qed.

Lemma standard_candidates_whole (d : date) (s : interval) :
  In s (candidates (combine d (mk_time 8 0)) (combine d (mk_time 22 0)) (minutes 30)) ->
  whole_minute (fst s) /\ whole_minute (snd s).
Proof.
  apply candidates_whole; try apply whole_minute_combine; reflexivity.
Qed.

Lemma whole_minute_time_of (x : Z) : whole_minute x -> whole_minute (time_of x).
Proof.
  unfold whole_minute, time_of. intros Hx.
  rewrite Z.mod_mod_divide; [exact Hx |].
  exists 1440. reflexivity.
Qed.

Lemma fallback_whole (d : date) (now : datetime) :
  whole_minute (fst (fallback_interval d now))
  /\ whole_minute (snd (fallback_interval d now)).
Proof.
  assert (Hstart : whole_minute (mk_time (hour now) (minute now / 15 * 15))).
  { unfold mk_time, hour_us. apply whole_minute_add.
    - replace (hour now * (60 * minute_us)) with ((hour now * 60) * minute_us) by lia.
      apply whole_minute_mul. reflexivity.
    - apply whole_minute_mul. reflexivity. }
  unfold fallback_interval. simpl. split.
  - now apply whole_minute_combine.
  - apply whole_minute_combine, whole_minute_time_of, whole_minute_add;
      [now apply whole_minute_combine | reflexivity].
Qed.

Lemma standard_window_bounds (d : date) :
  combine d 0 <= fst (combine d (mk_time 8 0), combine d (mk_time 22 0))
  /\ snd (combine d (mk_time 8 0), combine d (mk_time 22 0)) < combine d day_us.
Proof. simpl. unfold combine, mk_time, day_us, hour_us, minute_us. lia. Qed.

Lemma slot_booking_valid (c : clinic) (patient doctor : Z) (d : date) (s : interval)
      (leave : option (time * time)) :
  free d leave (existing_appointments (database_of c) doctor d) s = true ->
  combine d (time_of (fst s)) = fst s -> combine d (time_of (snd s)) = snd s ->
  fst s < snd s ->
  patient_free c patient d s ->
  (forall lv, In lv (approved_leaves (database_of c) doctor d) ->
              ~ (time_of (fst s) < leave_end_time lv
                 /\ time_of (snd s) > leave_start_time lv)) ->
  (if doctor_has_slots (database_of c) doctor
   then covering_window c (slot_booking patient doctor d s false) = true
   else mk_time 8 0 <= time_of (fst s) /\ time_of (snd s) <= mk_time 22 0) ->
  Appointment_clean c (slot_booking patient doctor d s false) = Valid.
Proof.
  intros Hfree Hs He Hlt Hpat Hleave Hhours.
  apply Appointment_clean_spec. simpl. split; [| split].
  - apply (combine_lt d). now rewrite Hs, He.
  - intros _. split; [exact Hleave | exact Hhours].
  - intros a Ha _ Hact Hdate [Hdoc | Hp].
    + now apply (kept_slot_clear_of_doctor c doctor d leave s a).
    + now apply Hpat.
Qed.

(** X3.  For a doctor without availability rows and with at most one
    approved leave on the day, every slot a regular request is offered can
    be booked: [Appointment.clean] accepts the new appointment with the
    posted bounds of the slot for any patient who is free at that time. *)
Theorem standard_slots_are_bookable
        (c : clinic) (rq : request) (now : datetime) (doctor patient : Z) (d : date) :
  accepted rq (database_of c) doctor d ->
  calendar_overflow (is_emergency rq) (database_of c) doctor d = false ->
  is_emergency rq = false ->
  doctor_has_slots (database_of c) doctor = false ->
  (List.length (approved_leaves (database_of c) doctor d) <= 1)%nat ->
  exists kept message warning,
    available_intervals rq (database_of c) now = Some (JsonSlots kept message warning)
    /\ forall s, In s kept -> patient_free c patient d s ->
                 Appointment_clean c (new_booking patient doctor d s false) = Valid.
Proof.
  intros Hacc Hcal Hem Hno Hone.
  destruct (available_intervals_spec rq (database_of c) now doctor d Hacc Hcal)
    as (message & warning & Heq).
  exists (returned_intervals (is_emergency rq) (database_of c) now doctor d),
    message, warning.
  split; [exact Heq |]. rewrite Hem. intros s Hs Hpat.
  assert (Hin : In s (loop_intervals false (database_of c) doctor d)).
  { unfold returned_intervals in Hs.
    destruct (loop_intervals false (database_of c) doctor d); [destruct Hs | exact Hs]. }
  clear Hs. unfold loop_intervals in Hin. rewrite Hno in Hin. simpl andb in Hin.
  pose proof (standard_window_bounds d) as [Hw1 Hw2].
  assert (Hgen : forall leave,
             In s (filter (free d leave (existing_appointments (database_of c) doctor d))
                          (candidates (combine d (mk_time 8 0))
                                      (combine d (mk_time 22 0)) (minutes 30))) ->
             (forall lv, In lv (approved_leaves (database_of c) doctor d) ->
                         leave = Some (leave_start_time lv, leave_end_time lv)) ->
             Appointment_clean c (new_booking patient doctor d s false) = Valid).
  { intros leave Hkept Hlv.
    assert (Hcand : In s (candidates (combine d (mk_time 8 0))
                                     (combine d (mk_time 22 0)) (minutes 30)))
      by (apply filter_In in Hkept; apply Hkept).
    destruct (standard_candidates_whole d s Hcand) as [Hm1 Hm2].
    rewrite (new_booking_exact patient doctor d s false Hm1 Hm2).
    pose proof (kept_candidates_inside
                  (free d leave (existing_appointments (database_of c) doctor d))
                  (combine d (mk_time 8 0)) (combine d (mk_time 22 0)) (minutes 30)
                  eq_refl) as Hinside.
    rewrite Forall_forall in Hinside. specialize (Hinside s Hkept).
    destruct (time_of_bounds d _ s Hw1 Hw2 Hinside) as [Hs He].
    apply filter_In in Hkept. destruct Hkept as [_ Hfree].
    apply (slot_booking_valid c patient doctor d s leave); auto.
    - apply Hinside.
    - intros lv Hl Ho. rewrite (Hlv lv Hl) in Hfree.
      unfold free, on_leave in Hfree. apply andb_true_iff in Hfree.
      destruct Hfree as [Hnl _]. apply negb_true_iff, andb_false_iff in Hnl.
      rewrite Z.ltb_ge, Z.gtb_ltb, Z.ltb_ge in Hnl. lia.
    - rewrite Hno. destruct Hinside as (_ & H1 & H2). simpl in H1, H2.
      rewrite <- Hs in H1. rewrite <- He in H2. unfold combine in H1, H2. lia. }
  destruct (approved_leaves (database_of c) doctor d) as [| lv [| lv' rest]] eqn:El;
    simpl in Hin, Hone.
  - apply (Hgen None Hin). intros lv [].
  - apply (Hgen _ Hin). intros lv0 [<- | []]. reflexivity.
  - lia.
Qed.

Lemma insert_by_start_In (s x : DoctorAvailability) (rows : list DoctorAvailability) :
  In x (insert_by_start s rows) <-> x = s \/ In x rows.
Proof.
  induction rows as [| r rows IH]; simpl.
  - split; [intros [<- | []]; now left | intros [-> | []]; now left].
  - destruct (avail_start_time s <? avail_start_time r); simpl.
    + split; [intros [<- | H]; auto | intros [-> | H]; auto].
    + rewrite IH. split; [intros [<- | [-> | H]] | intros [-> | [<- | H]]]; auto.
Qed.

Lemma order_by_start_In (x : DoctorAvailability) (rows : list DoctorAvailability) :
  In x (order_by_start rows) <-> In x rows.
Proof.
  unfold order_by_start. induction rows as [| r rows IH]; simpl; [tauto |].
  rewrite insert_by_start_In, IH. split; [intros [-> | H] | intros [<- | H]]; auto.
Qed.

Lemma day_slots_In (db : database) (doctor : Z) (d : date) (row : DoctorAvailability) :
  In row (day_slots db doctor d)
  <-> In row (availabilities db) /\ avail_doctor row = doctor
      /\ avail_day_of_week row = weekday d.
Proof.
  unfold day_slots. rewrite order_by_start_In, filter_In, andb_true_iff, !Z.eqb_eq.
  tauto.
Qed.

Lemma exists_filter {A : Type} (f : A -> bool) (l : list A) :
  exists_ (filter f l) = true <-> exists x, In x l /\ f x = true.
Proof.
  split.
  - destruct (filter f l) as [| x rest] eqn:E; [discriminate |]. intros _.
    exists x. apply filter_In. rewrite E. now left.
  - intros (x & Hx & Hf).
    assert (Hin : In x (filter f l)) by (apply filter_In; auto).
    destruct (filter f l); [destruct Hin | reflexivity].
Qed.

Lemma day_slots_doctor_has_slots (db : database) (doctor : Z) (d : date)
      (row : DoctorAvailability) :
  In row (day_slots db doctor d) -> doctor_has_slots db doctor = true.
Proof.
  intros Hrow. apply day_slots_In in Hrow. destruct Hrow as (Hin & Hdoc & _).
  unfold doctor_has_slots. apply exists_filter. exists row.
  split; [exact Hin | now apply Z.eqb_eq].
Qed.

(** X4.  For a doctor with availability windows on the weekday, given in
    whole minutes, and no approved leave on the day, every slot a regular
    request is offered can be booked: it lies inside one of the windows,
    so [Appointment.clean] accepts it for any patient who is free at that
    time. *)
Theorem window_slots_are_bookable
        (c : clinic) (rq : request) (now : datetime) (doctor patient : Z) (d : date) :
  accepted rq (database_of c) doctor d ->
  calendar_overflow (is_emergency rq) (database_of c) doctor d = false ->
  is_emergency rq = false ->
  approved_leaves (database_of c) doctor d = [] ->
  day_slots (database_of c) doctor d <> [] ->
  Forall (fun row => valid_time (avail_start_time row) /\ valid_time (avail_end_time row))
         (day_slots (database_of c) doctor d) ->
  Forall (fun row => whole_minute (avail_start_time row)
                     /\ whole_minute (avail_end_time row))
         (day_slots (database_of c) doctor d) ->
  exists kept message warning,
    available_intervals rq (database_of c) now = Some (JsonSlots kept message warning)
    /\ forall s, In s kept -> patient_free c patient d s ->
                 Appointment_clean c (new_booking patient doctor d s false) = Valid.
Proof.
  intros Hacc Hcal Hem Hnoleave Hrows Hvalid Hwhole.
  destruct (available_intervals_spec rq (database_of c) now doctor d Hacc Hcal)
    as (message & warning & Heq).
  exists (returned_intervals (is_emergency rq) (database_of c) now doctor d),
    message, warning.
  split; [exact Heq |]. rewrite Hem. intros s Hs Hpat.
  assert (Hin : In s (loop_intervals false (database_of c) doctor d)).
  { unfold returned_intervals in Hs.
    destruct (loop_intervals false (database_of c) doctor d); [destruct Hs | exact Hs]. }
  clear Hs. unfold loop_intervals in Hin. rewrite Hnoleave in Hin. simpl first in Hin.
  destruct (day_slots (database_of c) doctor d) as [| row0 rows] eqn:Erows;
    [contradiction |].
  assert (Hhas : doctor_has_slots (database_of c) doctor = true).
  { apply (day_slots_doctor_has_slots _ _ d row0). rewrite Erows. now left. }
  rewrite Hhas in Hin. simpl andb in Hin. cbv iota in Hin.
  apply in_flat_map in Hin. destruct Hin as (row & Hrow & Hkept).
  rewrite Forall_forall in Hvalid. destruct (Hvalid row Hrow) as [Hvs Hve].
  rewrite Forall_forall in Hwhole. destruct (Hwhole row Hrow) as [Hms Hme].
  assert (Hm : whole_minute (fst s) /\ whole_minute (snd s)).
  { apply (candidates_whole (fst (window_of d row)) (snd (window_of d row)) (minutes 30));
      [now apply whole_minute_combine | now apply whole_minute_combine
       | reflexivity | apply filter_In in Hkept; apply Hkept]. }
  rewrite (new_booking_exact patient doctor d s false (proj1 Hm) (proj2 Hm)).
  pose proof (kept_candidates_inside
                (free d None (existing_appointments (database_of c) doctor d))
                (fst (window_of d row)) (snd (window_of d row)) (minutes 30)
                eq_refl) as Hinside.
  rewrite Forall_forall in Hinside. specialize (Hinside s Hkept).
  assert (Hwin : inside (window_of d row) s) by (destruct (window_of d row); exact Hinside).
  unfold valid_time in Hvs, Hve.
  destruct (time_of_bounds d (window_of d row) s) as [Hs He];
    [simpl; unfold combine; lia | simpl; unfold combine; lia | exact Hwin |].
  apply filter_In in Hkept. destruct Hkept as [_ Hfree].
  apply (slot_booking_valid c patient doctor d s None); auto.
  - apply Hwin.
  - rewrite Hnoleave. intros lv [].
  - rewrite Hhas. unfold covering_window. apply exists_filter. exists row.
    rewrite <- Erows in Hrow. apply day_slots_In in Hrow.
    destruct Hrow as (Hrin & Hdoc & Hdow). split; [exact Hrin |]. simpl.
    rewrite !andb_true_iff, !Z.eqb_eq, Z.leb_le, Z.geb_le.
    destruct Hwin as (_ & H1 & H2). unfold window_of in H1, H2. simpl in H1, H2.
    rewrite <- Hs in H1. rewrite <- He in H2. unfold combine in H1, H2.
    repeat split; auto; lia.
Qed.

(** X5.  For a doctor who has availability windows, but none on the
    weekday, and no approved leave on the day, a regular request is offered
    the unbooked standard slots, and none of them can be booked:
    [Appointment.clean] rejects each one, for every patient, because the
    doctor has no window that day. *)
Theorem standard_slots_of_other_weekdays_are_rejected
        (c : clinic) (rq : request) (now : datetime) (doctor : Z) (d : date) :
  accepted rq (database_of c) doctor d ->
  date_min <= d <= date_max ->
  is_emergency rq = false ->
  approved_leaves (database_of c) doctor d = [] ->
  doctor_has_slots (database_of c) doctor = true ->
  day_slots (database_of c) doctor d = [] ->
  available_intervals rq (database_of c) now
  = Some (JsonSlots
            (filter (fun s => negb (bookedb d (existing_appointments (database_of c) doctor d) s))
                    (candidates (combine d (mk_time 8 0)) (combine d (mk_time 22 0))
                                (minutes 30)))
            (match filter (fun s => negb (bookedb d (existing_appointments
                                                       (database_of c) doctor d) s))
                          (candidates (combine d (mk_time 8 0)) (combine d (mk_time 22 0))
                                      (minutes 30)) with
             | [] => Some no_slots_message
             | _ => None
             end)
            None)
  /\ forall s patient,
       In s (candidates (combine d (mk_time 8 0)) (combine d (mk_time 22 0)) (minutes 30)) ->
       Appointment_clean c (new_booking patient doctor d s false)
       = ValidationError msg_not_available.
Proof.
  intros Hacc Hd Hem Hnoleave Hhas Hrows. split.
  - unfold available_intervals.
    rewrite (accepted_dispatch _ _ _ _ _ _ Hacc), Hem.
    unfold regular_slots. rewrite Hnoleave, Hhas, Hrows. simpl.
    rewrite run_slot_loop_spec by reflexivity.
    rewrite (standard_in_calendar d Hd). simpl app.
    rewrite pair_of_pair.
    rewrite (filter_ext _ _ (free_no_leave d (existing_appointments (database_of c) doctor d))).
    reflexivity.
  - intros s patient Hs.
    destruct (standard_candidates_whole d s Hs) as [Hm1 Hm2].
    rewrite (new_booking_exact patient doctor d s false Hm1 Hm2).
    pose proof (candidates_bounds (combine d (mk_time 8 0)) (combine d (mk_time 22 0))
                                  (minutes 30) eq_refl) as Hb.
    rewrite Forall_forall in Hb. specialize (Hb s Hs).
    pose proof (standard_window_bounds d) as [Hw1 Hw2]. simpl in Hw1, Hw2.
    assert (Hlt : time_of (fst s) < time_of (snd s)).
    { rewrite !(time_of_within d) by lia. lia. }
    unfold Appointment_clean. simpl.
    destruct (Z.geb_spec (time_of (fst s)) (time_of (snd s))); [lia |].
    rewrite Hnoleave. simpl. rewrite Hhas.
    assert (Hcov : covering_window c (slot_booking patient doctor d s false) = false).
    { destruct (covering_window c (slot_booking patient doctor d s false)) eqn:E;
        [| reflexivity].
      apply exists_filter in E. destruct E as (row & Hrow & Hf). simpl in Hf.
      rewrite !andb_true_iff, !Z.eqb_eq in Hf. destruct Hf as (((Hdoc & Hdow) & _) & _).
      assert (Hin : In row (day_slots (database_of c) doctor d))
        by (apply day_slots_In; auto).
      rewrite Hrows in Hin. destruct Hin. }
    rewrite Hcov. reflexivity.
Qed.


Lemma same_pk_None (a : option Z) : same_pk a None = false.
Proof. destruct a; reflexivity. Qed.

Lemma emergency_skips_leave (start_time end_time : time)
      (leave_requests : list DoctorLeaveRequest) :
  on_approved_leave start_time end_time true leave_requests = false.
Proof.
  destruct (on_approved_leave start_time end_time true leave_requests) eqn:E;
    [| reflexivity].
  apply on_approved_leave_spec in E. destruct E as [E _]. discriminate.
Qed.

(** X6.  The emergency fallback slot can never be booked.  It is offered
    only when every candidate of the day is booked, so the appointment with
    its bounds overlaps an active appointment of the doctor and
    [Appointment.clean] rejects it, for every patient; in the last quarter
    of an hour of the day its end wraps to 00:00 and the row is rejected
    for ending before it starts. *)
Theorem fallback_slot_cannot_be_booked
        (c : clinic) (rq : request) (now : datetime) (doctor patient : Z) (d : date) :
  accepted rq (database_of c) doctor d ->
  is_emergency rq = true ->
  date_min <= d < date_max ->
  d = date_of now ->
  (forall cand, In cand (emergency_candidates d) ->
                booked d (existing_appointments (database_of c) doctor d) cand) ->
  available_intervals rq (database_of c) now
  = Some (JsonSlots [fallback_interval d now] (Some emergency_message) None)
  /\ (Appointment_clean c (new_booking patient doctor d (fallback_interval d now) true)
      = ValidationError msg_doctor_busy
      \/ Appointment_clean c (new_booking patient doctor d (fallback_interval d now) true)
         = ValidationError msg_start_before_end).
Proof.
  intros Hacc Hem Hd Hday Hall. split.
  - unfold available_intervals.
    rewrite (emergency_view_spec _ rq _ now doctor d Hacc Hem Hd).
    rewrite pair_of_pair. unfold returned_intervals.
    rewrite (emergency_all_booked _ _ _ Hall).
    assert (Heq : (d =? date_of now) = true) by now apply Z.eqb_eq.
    rewrite Heq. reflexivity.
  - destruct (fallback_whole d now) as [Hm1 Hm2].
    rewrite (new_booking_exact patient doctor d _ true Hm1 Hm2).
    pose proof (hour_range now) as Hh. pose proof (minute_range now) as Hm.
    set (q := minute now / 15).
    assert (Hq : 0 <= q < 4).
    { unfold q. split; [apply Z.div_pos; lia | apply Z.div_lt_upper_bound; lia]. }
    set (es := mk_time (hour now) (q * 15)).
    assert (Hes : es = (4 * hour now + q) * minutes 15)
      by (unfold es, mk_time, minutes, hour_us, minute_us; lia).
    assert (Hes_range : 0 <= es < day_us)
      by (rewrite Hes; unfold minutes, day_us, hour_us, minute_us; lia).
    assert (Hstart : time_of (fst (fallback_interval d now)) = es).
    { unfold fallback_interval. simpl fst. fold q. fold es.
      rewrite time_of_combine. unfold time_of. now apply Z.mod_small. }
    assert (Hend : time_of (snd (fallback_interval d now)) = time_of (es + minutes 15)).
    { unfold fallback_interval. simpl snd. fold q. fold es.
      rewrite time_of_combine, time_of_idem.
      unfold combine. rewrite <- Z.add_assoc. apply (time_of_combine d). }
    set (fb := fallback_interval d now) in *. clearbody fb.
    unfold Appointment_clean. simpl. rewrite Hstart, Hend.
    destruct (Z.lt_ge_cases (es + minutes 15) day_us) as [Hfit | Hwrap].
    + left.
      assert (Hend' : time_of (es + minutes 15) = es + minutes 15)
        by (unfold time_of; apply Z.mod_small; unfold minutes, minute_us in *; lia).
      rewrite Hend'.
      destruct (Z.geb_spec es (es + minutes 15));
        [unfold minutes, minute_us in *; lia |].
      rewrite emergency_skips_leave.
      assert (Hhours : forall b : bool,
                 (if doctor_has_slots (database_of c) doctor
                  then if negb b && false then ValidationError msg_not_available else Valid
                  else if ((es <? mk_time 8 0) || (es + minutes 15 >? mk_time 22 0)) && false
                       then ValidationError msg_outside_hours else Valid) = Valid).
      { intros b. rewrite !andb_false_r. now destruct (doctor_has_slots _ _). }
      rewrite Hhours.
      set (k := Z.to_nat (4 * hour now + q)).
      assert (Hcand : In (candidate (combine d (mk_time 0 0)) (combine d (mk_time 23 59))
                                    (minutes 15) k)
                         (emergency_candidates d)).
      { unfold emergency_candidates, candidates. apply in_map.
        rewrite emergency_slot_count. apply in_seq. unfold k. lia. }
      destruct (Hall _ Hcand) as (a & Ha & Ho1 & Ho2).
      unfold candidate, booked_interval in Ho1, Ho2. simpl in Ho1, Ho2.
      assert (Hk : Z.of_nat k = 4 * hour now + q) by (unfold k; lia).
      rewrite Hk in Ho1, Ho2.
      apply existing_appointments_of in Ha.
      destruct Ha as (b & Hb & <- & Hdoc & Hdate & Hact).
      assert (Hov : overlaps_one es (es + minutes 15)
                                 (overlapping_doctor
                                    c (slot_booking patient doctor d fb true)) = true).
      { apply overlaps_one_spec. exists b. split.
        - apply overlapping_doctor_In. simpl.
          repeat split; auto using same_pk_None.
        - unfold combine, mk_time in Ho1, Ho2. rewrite Hes. lia. }
      now rewrite Hov.
    + right.
      assert (Hend' : time_of (es + minutes 15) = es + minutes 15 - day_us).
      { unfold time_of. symmetry. apply Z.mod_unique with (q := 1);
          [left; unfold minutes, day_us, hour_us, minute_us in *; lia | lia]. }
      rewrite Hend'.
      destruct (Z.geb_spec es (es + minutes 15 - day_us)); [reflexivity |].
      unfold minutes, day_us, hour_us, minute_us in *. lia.
Qed.

(** ** The theorems above at the sample tables *)

Lemma clinic_morning_no_double_booking : no_double_booking clinic_morning.
Proof.
  split; [| split].
  - vm_compute. repeat constructor; simpl; intuition discriminate.
  - repeat constructor; discriminate.
  - intros a b [<- | [<- | []]] [<- | [<- | []]] Hne (_ & _ & _ & _ & Ho);
      try congruence; vm_compute in Ho; destruct Ho; discriminate.
Qed.

Lemma save_keeps_no_double_booking_witness :
  exists c',
    Appointment_save clinic_morning
                     (new_booking 102 dr sample_day
                                  (at_time sample_day 10 0, at_time sample_day 10 30) false)
    = inl c'
    /\ List.length (bookings c') = 3%nat
    /\ no_double_booking c'.
Proof.
  eexists. split; [vm_compute; reflexivity |]. split; [reflexivity |].
  apply (save_keeps_no_double_booking
           clinic_morning _
           (new_booking 102 dr sample_day
                        (at_time sample_day 10 0, at_time sample_day 10 30) false)).
  - exact clinic_morning_no_double_booking.
  - vm_compute. reflexivity.
Defined.

Lemma standard_slots_are_bookable_witness :
  exists kept message warning,
    available_intervals rq_regular (database_of clinic_morning) (at_time sample_day 7 0)
    = Some (JsonSlots kept message warning)
    /\ In (at_time sample_day 8 30, at_time sample_day 9 0) kept
    /\ Appointment_clean clinic_morning
         (new_booking 102 dr sample_day (at_time sample_day 8 30, at_time sample_day 9 0)
                      false) = Valid.
Proof.
  destruct (standard_slots_are_bookable clinic_morning rq_regular (at_time sample_day 7 0)
              dr 102 sample_day) as (kept & message & warning & Heq & Hall).
  - sample_accepted.
  - reflexivity.
  - reflexivity.
  - reflexivity.
  - vm_compute. constructor.
  - exists kept, message, warning. split; [exact Heq |].
    assert (Hin : In (at_time sample_day 8 30, at_time sample_day 9 0) kept).
    { vm_compute in Heq. injection Heq as <- _ _. left. reflexivity. }
    split; [exact Hin |]. apply Hall; [exact Hin |].
    intros a [<- | [<- | []]] Hp; vm_compute in Hp; discriminate.
Defined.

Lemma window_slots_are_bookable_witness :
  exists kept message warning,
    available_intervals rq_regular (database_of clinic_two_windows)
                        (at_time sample_day 7 0)
    = Some (JsonSlots kept message warning)
    /\ In (at_time sample_day 15 0, at_time sample_day 15 15) kept
    /\ Appointment_clean clinic_two_windows
         (new_booking 102 dr sample_day (at_time sample_day 15 0, at_time sample_day 15 15)
                      false) = Valid.
Proof.
  destruct (window_slots_are_bookable clinic_two_windows rq_regular
              (at_time sample_day 7 0) dr 102 sample_day)
    as (kept & message & warning & Heq & Hall).
  - sample_accepted.
  - reflexivity.
  - reflexivity.
  - reflexivity.
  - vm_compute. discriminate.
  - unfold valid_time. repeat constructor; vm_compute; discriminate.
  - unfold whole_minute. repeat constructor.
  - exists kept, message, warning. split; [exact Heq |].
    assert (Hin : In (at_time sample_day 15 0, at_time sample_day 15 15) kept).
    { vm_compute in Heq. injection Heq as <- _ _. vm_compute. tauto. }
    split; [exact Hin |]. apply Hall; [exact Hin |].
    intros a [<- | []] Hp; vm_compute in Hp; discriminate.
Defined.

Lemma standard_slots_of_other_weekdays_are_rejected_witness :
  (exists kept,
      available_intervals rq_regular (database_of clinic_other_weekday)
                          (at_time sample_day 7 0)
      = Some (JsonSlots kept None None)
      /\ List.length kept = 28%nat)
  /\ Appointment_clean clinic_other_weekday
       (new_booking 102 dr sample_day (at_time sample_day 8 0, at_time sample_day 8 30)
                    false)
     = ValidationError msg_not_available.
Proof.
  destruct (standard_slots_of_other_weekdays_are_rejected
              clinic_other_weekday rq_regular (at_time sample_day 7 0) dr sample_day)
    as [Heq Hall].
  - sample_accepted.
  - vm_compute. split; discriminate.
  - reflexivity.
  - reflexivity.
  - reflexivity.
  - reflexivity.
  - split.
    + eexists. split; [rewrite Heq; vm_compute; reflexivity | reflexivity].
    + apply Hall. vm_compute. tauto.
Defined.

Lemma fallback_slot_cannot_be_booked_witness :
  available_intervals rq_emergency (database_of clinic_fully_booked)
                      (at_time sample_day 8 10)
  = Some (JsonSlots [(at_time sample_day 8 0, at_time sample_day 8 15)]
                    (Some emergency_message) None)
  /\ Appointment_clean clinic_fully_booked
       (new_booking 102 dr sample_day (at_time sample_day 8 0, at_time sample_day 8 15) true)
     = ValidationError msg_doctor_busy.
Proof.
  destruct (fallback_slot_cannot_be_booked clinic_fully_booked rq_emergency
              (at_time sample_day 8 10) dr 102 sample_day) as [Heq Hclean].
  - sample_accepted.
  - reflexivity.
  - vm_compute. split; [discriminate | reflexivity].
  - vm_compute. reflexivity.
  - apply all_booked_reflect. vm_compute. reflexivity.
  - split; [rewrite Heq; vm_compute; reflexivity |].
    destruct Hclean as [H | H]; vm_compute in H; [| discriminate H].
    vm_compute. exact H.
Defined.

(* ================================================================== *)
(** * Validated availability windows *)

Lemma touches_one_spec (start_time end_time : time)
      (others : list (Z * DoctorAvailability)) :
  touches_one start_time end_time others = true
  <-> exists r, In r others
                /\ start_time <= avail_end_time (snd r)
                /\ end_time >= avail_start_time (snd r).
Proof.
  induction others as [| slot rest IH]; simpl.
  - split; [discriminate | intros (r & [] & _)].
  - destruct ((start_time <=? avail_end_time (snd slot))
              && (end_time >=? avail_start_time (snd slot))) eqn:E.
    + apply andb_true_iff in E. rewrite Z.leb_le, Z.geb_le in E.
      split; [| reflexivity]. intros _. exists slot. split; [now left | lia].
    + apply andb_false_iff in E. rewrite Z.leb_gt, Z.geb_leb, Z.leb_gt in E.
      rewrite IH. split; intros (r & Hr & Ho).
      * exists r. split; [now right | exact Ho].
      * destruct Hr as [<- | Hr]; [lia |]. exists r. now split.
Qed.

Lemma DoctorAvailability_clean_spec (c : clinic) (pk : option Z)
      (self : DoctorAvailability) :
  DoctorAvailability_clean c pk self = Valid
  <-> avail_start_time self < avail_end_time self
      /\ forall r, In r (windows c) ->
                   avail_doctor (snd r) = avail_doctor self ->
                   avail_day_of_week (snd r) = avail_day_of_week self ->
                   same_pk (Some (fst r)) pk = false ->
                   windows_apart self (snd r).
Proof.
  unfold DoctorAvailability_clean, windows_apart, window_before.
  destruct (Z.geb_spec (avail_start_time self) (avail_end_time self)) as [Hge | Hlt].
  { split; [discriminate | intros [H _]; lia]. }
  match goal with |- (if touches_one ?s ?e ?l then _ else _) = _ <-> _ =>
    pose proof (touches_one_spec s e l) as Ht; destruct (touches_one s e l)
  end.
  - split; [discriminate |]. intros [_ Hall].
    destruct (proj1 Ht eq_refl) as (r & Hr & Ho).
    apply filter_In in Hr. destruct Hr as [Hr Hf].
    rewrite !andb_true_iff, negb_true_iff, !Z.eqb_eq in Hf.
    destruct Hf as ((Hd & Hw) & Hpk).
    specialize (Hall r Hr Hd Hw Hpk). lia.
  - split; [intros _ | reflexivity]. split; [exact Hlt |].
    intros r Hr Hd Hw Hpk.
    destruct (Z.lt_ge_cases (avail_end_time self) (avail_start_time (snd r)));
      [now left |].
    destruct (Z.lt_ge_cases (avail_end_time (snd r)) (avail_start_time self));
      [now right |].
    assert (Hf : false = true); [| discriminate].
    apply Ht. exists r. split; [| lia].
    apply filter_In. split; [exact Hr |].
    rewrite !andb_true_iff, negb_true_iff, !Z.eqb_eq. auto.
Qed.

Lemma pairs_of_distinct_keys {A : Type} (key : A -> Z) (R : A -> A -> Prop)
      (l : list A) :
  NoDup (map key l) ->
  (forall a b, In a l -> In b l -> key a <> key b -> R a b) ->
  ForallOrdPairs R l.
Proof.
  induction l as [| x l IH]; simpl; intros Hnd HR; [constructor |].
  apply NoDup_cons_iff in Hnd. destruct Hnd as [Hx Hnd].
  constructor.
  - apply Forall_forall. intros y Hy. apply HR; auto.
    intros Heq. apply Hx. rewrite Heq. now apply in_map.
  - apply IH; auto.
Qed.

Lemma ForallOrdPairs_map {A B : Type} (f : A -> B) (R : B -> B -> Prop) (l : list A) :
  ForallOrdPairs (fun a b => R (f a) (f b)) l -> ForallOrdPairs R (map f l).
Proof.
  induction 1 as [| x l Hx Hl IH]; simpl; constructor; auto.
  apply Forall_forall. intros y Hy. apply in_map_iff in Hy.
  destruct Hy as (z & <- & Hz). rewrite Forall_forall in Hx. now apply Hx.
Qed.

Lemma ForallOrdPairs_filter {A : Type} (f : A -> bool) (R : A -> A -> Prop) (l : list A) :
  ForallOrdPairs R l -> ForallOrdPairs R (filter f l).
Proof.
  induction 1 as [| x l Hx Hl IH]; simpl; [constructor |].
  destruct (f x); [| exact IH]. constructor; [| exact IH].
  now apply filter_Forall.
Qed.

Lemma insert_by_start_chain (s : DoctorAvailability) (rows : list DoctorAvailability) :
  StronglySorted window_before rows ->
  Forall (fun r => avail_start_time r < avail_end_time r) rows ->
  avail_start_time s < avail_end_time s ->
  Forall (windows_apart s) rows ->
  StronglySorted window_before (insert_by_start s rows).
Proof.
  unfold windows_apart, window_before.
  induction 1 as [| r rows Hs IH Hr]; intros Hvalid Hsv Hsep; simpl.
  - repeat constructor.
  - apply Forall_cons_iff in Hvalid. destruct Hvalid as [Hrv Hvalid].
    apply Forall_cons_iff in Hsep. destruct Hsep as [Hsr Hsep].
    destruct (Z.ltb_spec (avail_start_time s) (avail_start_time r)) as [Hlt | Hge].
    + constructor; [now constructor |].
      constructor; [lia |].
      rewrite Forall_forall in *. intros x Hx. specialize (Hr x Hx). lia.
    + constructor; [now apply IH |].
      apply Forall_forall. intros x Hx. apply insert_by_start_In in Hx.
      destruct Hx as [-> | Hx]; [lia |].
      rewrite Forall_forall in Hr. now apply Hr.
Qed.

Lemma order_by_start_chain (rows : list DoctorAvailability) :
  ForallOrdPairs windows_apart rows ->
  Forall (fun r => avail_start_time r < avail_end_time r) rows ->
  StronglySorted window_before (order_by_start rows).
Proof.
  unfold order_by_start.
  induction 1 as [| s rows Hs Hrows IH]; intros Hvalid; simpl; [constructor |].
  apply Forall_cons_iff in Hvalid. destruct Hvalid as [Hsv Hvalid].
  apply insert_by_start_chain; auto.
  - apply Forall_forall. intros r Hr. apply (proj1 (order_by_start_In _ _)) in Hr.
    rewrite Forall_forall in Hvalid. now apply Hvalid.
  - apply Forall_forall. intros r Hr. apply (proj1 (order_by_start_In _ _)) in Hr.
    rewrite Forall_forall in Hs. now apply Hs.
Qed.

Lemma validated_windows_apart (c : clinic) :
  windows_validated c ->
  Forall (fun r => avail_start_time (snd r) < avail_end_time (snd r)) (windows c)
  /\ ForallOrdPairs
       (fun a b => avail_doctor (snd a) = avail_doctor (snd b) ->
                   avail_day_of_week (snd a) = avail_day_of_week (snd b) ->
                   windows_apart (snd a) (snd b))
       (windows c).
Proof.
  intros [Hnd Hall]. rewrite Forall_forall in Hall. split.
  - apply Forall_forall. intros r Hr.
    apply (DoctorAvailability_clean_spec c (Some (fst r)) (snd r)). now apply Hall.
  - apply (pairs_of_distinct_keys fst); [exact Hnd |].
    intros a b Ha Hb Hne Hd Hw.
    apply (DoctorAvailability_clean_spec c (Some (fst a)) (snd a)); auto.
    simpl. apply Z.eqb_neq. congruence.
Qed.

(** X7.  When every stored availability window passes
    [DoctorAvailability.clean] against the others, the windows the slot
    view reads for any doctor and day come in order of start time and each
    one ends strictly before the next begins. *)
Theorem validated_windows_in_sequence (c : clinic) (doctor : Z) (d : date) :
  windows_validated c ->
  StronglySorted window_before (day_slots (database_of c) doctor d)
  /\ windows_in_sequence (day_slots (database_of c) doctor d).
Proof.
  intros Hval. destruct (validated_windows_apart c Hval) as [Hvalid Hpairs].
  assert (Hchain : StronglySorted window_before (day_slots (database_of c) doctor d)).
  { unfold day_slots, database_of. simpl.
    set (f := fun s => (avail_doctor s =? doctor) && (avail_day_of_week s =? weekday d)).
    apply order_by_start_chain.
    - assert (Hfop : ForallOrdPairs
                       (fun a b => f a = true -> f b = true -> windows_apart a b)
                       (map snd (windows c))).
      { apply ForallOrdPairs_map.
        clear Hvalid Hval. induction Hpairs as [| x l Hx Hl IH]; constructor; auto.
        eapply Forall_impl; [| exact Hx]. simpl. unfold f. intros y Hy Hfx Hfy.
        rewrite andb_true_iff, !Z.eqb_eq in Hfx, Hfy. apply Hy; lia. }
      clear Hpairs Hvalid Hval.
      induction Hfop as [| x l Hx Hl IH]; simpl; [constructor |].
      destruct (f x) eqn:Efx; [| exact IH].
      constructor; [| exact IH].
      apply Forall_forall. intros y Hy. apply filter_In in Hy. destruct Hy as [Hy Hfy].
      rewrite Forall_forall in Hx. now apply Hx.
    - apply filter_Forall. apply Forall_forall. intros r Hr.
      apply in_map_iff in Hr. destruct Hr as (x & <- & Hx).
      rewrite Forall_forall in Hvalid. now apply Hvalid. }
  split; [exact Hchain |].
  unfold windows_in_sequence.
  clear Hval Hvalid Hpairs.
  induction Hchain as [| r rows Hs IH Hr]; constructor; auto.
  eapply Forall_impl; [| exact Hr]. unfold window_before. intros x Hx. lia.
Qed.

(** X8.  A window that begins exactly when a stored window of the same
    doctor and weekday ends, or ends exactly when one begins, is rejected
    by [DoctorAvailability.clean]: its test counts touching windows as
    overlapping. *)
Theorem touching_window_is_rejected
        (c : clinic) (pk : option Z) (self : DoctorAvailability) (r : Z * DoctorAvailability) :
  avail_start_time self < avail_end_time self ->
  In r (windows c) ->
  avail_doctor (snd r) = avail_doctor self ->
  avail_day_of_week (snd r) = avail_day_of_week self ->
  pk <> Some (fst r) ->
  avail_start_time (snd r) <= avail_end_time (snd r) ->
  avail_start_time self = avail_end_time (snd r)
  \/ avail_end_time self = avail_start_time (snd r) ->
  DoctorAvailability_clean c pk self = ValidationError msg_window_overlap.
Proof.
  intros Hlt Hr Hd Hw Hpk Hrv Htouch. unfold DoctorAvailability_clean.
  destruct (Z.geb_spec (avail_start_time self) (avail_end_time self)); [lia |].
  match goal with |- (if touches_one ?s ?e ?l then _ else _) = _ =>
    assert (Ht : touches_one s e l = true); [| now rewrite Ht]
  end.
  apply touches_one_spec. exists r. split; [| lia].
  apply filter_In. split; [exact Hr |].
  rewrite !andb_true_iff, negb_true_iff, !Z.eqb_eq. repeat split; auto.
  destruct pk as [x |]; simpl; [| reflexivity].
  apply Z.eqb_neq. congruence.
Qed.

Lemma validated_windows_in_sequence_witness :
  windows_validated clinic_two_windows
  /\ day_slots (database_of clinic_two_windows) dr sample_day
     = [mkAvailability dr (weekday sample_day) (mk_time 9 0) (mk_time 11 30);
        mkAvailability dr (weekday sample_day) (mk_time 14 0) (mk_time 15 15)]
  /\ windows_in_sequence (day_slots (database_of clinic_two_windows) dr sample_day).
Proof.
  assert (Hval : windows_validated clinic_two_windows).
  { split.
    - simpl. repeat constructor; simpl; intuition discriminate.
    - repeat constructor. }
  split; [exact Hval |]. split; [reflexivity |].
  apply (validated_windows_in_sequence clinic_two_windows dr sample_day Hval).
Defined.

Lemma touching_window_is_rejected_witness :
  DoctorAvailability_clean clinic_two_windows None
    (mkAvailability dr (weekday sample_day) (mk_time 11 30) (mk_time 13 0))
  = ValidationError msg_window_overlap.
Proof.
  apply (touching_window_is_rejected clinic_two_windows None _
           (2, mkAvailability dr (weekday sample_day) (mk_time 9 0) (mk_time 11 30))).
  - reflexivity.
  - right. left. reflexivity.
  - reflexivity.
  - reflexivity.
  - discriminate.
  - vm_compute. discriminate.
  - left. reflexivity.
Defined.


(* ================================================================== *)
(** * Leave requests *)

Lemma hour_zero_small (t : time) :
  0 <= t < day_us -> hour t = 0 -> t < hour_us.
Proof.
  intros Ht Hh. unfold hour, time_of in Hh.
  rewrite (Z.mod_small t day_us) in Hh by exact Ht.
  destruct (Z.lt_ge_cases t hour_us) as [H | H]; [exact H |].
  assert (1 <= t / hour_us) by (apply Z.div_le_lower_bound; [reflexivity | lia]).
  lia.
Qed.

Lemma hour_23_late (t : time) :
  0 <= t < day_us -> hour t = 23 -> 23 * hour_us <= t.
Proof.
  intros Ht Hh. unfold hour, time_of in Hh.
  rewrite (Z.mod_small t day_us) in Hh by exact Ht.
  assert (Hm := Z.mul_div_le t hour_us eq_refl). lia.
Qed.

(** X9.  What [DoctorLeaveRequestForm.clean] lets through always passes the
    model's [clean]: the stored request is pending, its dates are in order
    and it starts before it ends; equal times at 00:00 are stored as the
    full day, 00:00 to 23:59. *)
Theorem cleaned_leave_passes_model_clean
        (lv cleaned : DoctorLeaveRequest) (doctor : Z) :
  valid_time (leave_start_time lv) ->
  DoctorLeaveRequestForm_clean lv = inl cleaned ->
  let stored := DoctorLeaveRequestForm_save doctor cleaned in
  DoctorLeaveRequest_clean stored = Valid
  /\ leave_status_of stored = LEAVE_PENDING
  /\ leave_doctor stored = doctor
  /\ leave_start_date stored <= leave_end_date stored
  /\ leave_start_time stored < leave_end_time stored
  /\ (leave_start_time lv = leave_end_time lv ->
      leave_end_time stored = mk_time 23 59).
Proof.
  unfold valid_time, DoctorLeaveRequestForm_clean, DoctorLeaveRequest_clean.
  intros Hvalid Hclean. cbv zeta.
  destruct (leave_start_date lv >? leave_end_date lv) eqn:Hd; [discriminate |].
  assert (Hle : leave_start_date lv <= leave_end_date lv).
  { destruct (Z.gtb_spec (leave_start_date lv) (leave_end_date lv)); [discriminate | lia]. }
  destruct ((leave_start_time lv =? leave_end_time lv)
            && (hour (leave_start_time lv) =? 0)
            && (minute (leave_start_time lv) =? 0)) eqn:Efull.
  - injection Hclean as <-. simpl.
    rewrite !andb_true_iff, !Z.eqb_eq in Efull. destruct Efull as [[Heq Hh] Hm].
    rewrite Hd, Hh, Hm. simpl.
    assert (Hsmall := hour_zero_small _ Hvalid Hh).
    repeat split; auto.
    unfold mk_time, hour_us, minute_us in *. lia.
  - destruct (leave_start_time lv >=? leave_end_time lv) eqn:Hge; [discriminate |].
    injection Hclean as <-. simpl. rewrite Hd, Hge.
    assert (Hlt : leave_start_time lv < leave_end_time lv).
    { destruct (Z.geb_spec (leave_start_time lv) (leave_end_time lv));
        [discriminate | lia]. }
    repeat split; auto; try lia.
    destruct ((hour (leave_start_time lv) =? 0) && (minute (leave_start_time lv) =? 0)
              && (hour (leave_end_time lv) =? 23) && (minute (leave_end_time lv) =? 59));
      reflexivity.
Qed.

Lemma cleaned_leave_passes_model_clean_witness :
  DoctorLeaveRequestForm_clean
    (mkLeave 0 sample_day (sample_day + 2) (mk_time 0 0) (mk_time 0 0) LEAVE_PENDING)
  = inl (mkLeave 0 sample_day (sample_day + 2) (mk_time 0 0) (mk_time 23 59) LEAVE_PENDING)
  /\ DoctorLeaveRequest_clean
       (mkLeave dr sample_day (sample_day + 2) (mk_time 0 0) (mk_time 23 59) LEAVE_PENDING)
     = Valid.
Proof.
  split; [reflexivity |].
  apply (cleaned_leave_passes_model_clean
           (mkLeave 0 sample_day (sample_day + 2) (mk_time 0 0) (mk_time 0 0) LEAVE_PENDING)
           (mkLeave 0 sample_day (sample_day + 2) (mk_time 0 0) (mk_time 23 59)
                    LEAVE_PENDING) dr).
  - vm_compute. split; [discriminate | reflexivity].
  - reflexivity.
Defined.

(** X10.  Every leave that the model's [clean] accepts has its dates in
    order and, its times being times of day, starts before it ends: the
    rule that lets a leave from 00:00 to 23:59 through without the time
    test lets nothing else through. *)
Theorem accepted_leave_is_well_formed (lv : DoctorLeaveRequest) :
  valid_time (leave_start_time lv) ->
  valid_time (leave_end_time lv) ->
  DoctorLeaveRequest_clean lv = Valid ->
  leave_start_date lv <= leave_end_date lv
  /\ leave_start_time lv < leave_end_time lv.
Proof.
  unfold valid_time, DoctorLeaveRequest_clean. intros Hs He Hclean. cbv zeta in Hclean.
  destruct (Z.gtb_spec (leave_start_date lv) (leave_end_date lv)) as [Hd | Hd];
    [discriminate |].
  split; [lia |].
  destruct ((hour (leave_start_time lv) =? 0) && (minute (leave_start_time lv) =? 0)
            && (hour (leave_end_time lv) =? 23) && (minute (leave_end_time lv) =? 59))
           eqn:Efull.
  - rewrite !andb_true_iff, !Z.eqb_eq in Efull.
    destruct Efull as [[[Hh _] Hh'] _].
    assert (H1 := hour_zero_small _ Hs Hh). assert (H2 := hour_23_late _ He Hh').
    unfold hour_us, minute_us in *. lia.
  - destruct (Z.geb_spec (leave_start_time lv) (leave_end_time lv)); [discriminate | lia].
Qed.

Lemma accepted_leave_is_well_formed_witness :
  leave_start_date (mkLeave dr sample_day sample_day (mk_time 0 0) (mk_time 23 59)
                            LEAVE_APPROVED)
  <= leave_end_date (mkLeave dr sample_day sample_day (mk_time 0 0) (mk_time 23 59)
                             LEAVE_APPROVED)
  /\ leave_start_time (mkLeave dr sample_day sample_day (mk_time 0 0) (mk_time 23 59)
                               LEAVE_APPROVED)
     < leave_end_time (mkLeave dr sample_day sample_day (mk_time 0 0) (mk_time 23 59)
                               LEAVE_APPROVED).
Proof.
  apply accepted_leave_is_well_formed.
  - vm_compute. split; [discriminate | reflexivity].
  - vm_compute. split; [discriminate | reflexivity].
  - reflexivity.
Defined.


(** X11.  While the approved leave that the view reads for the day starts
    before 08:30 and ends after 21:30, as a full-day leave does, a regular
    request is offered no slot at all, booked or not, and gets the leave
    warning; the same request made as an emergency is not affected by the
    leave table. *)
Theorem leave_over_the_day_leaves_no_regular_slot
        (rq : request) (db : database) (now : datetime) (doctor : Z) (d : date)
        (lv : DoctorLeaveRequest) :
  accepted rq db doctor d ->
  date_min <= d <= date_max ->
  is_emergency rq = false ->
  first (approved_leaves db doctor d) = Some lv ->
  leave_start_time lv < mk_time 8 30 ->
  mk_time 21 30 < leave_end_time lv ->
  let as_emergency :=
    mkRequest (user_is_authenticated rq) (method_is_GET rq) (doctor_id rq) (date_str rq)
              true in
  get_available_slots rq db now = Some (JsonSlots [] None (Some leave_warning))
  /\ get_available_slots as_emergency db now
     = get_available_slots as_emergency
                           (mkDatabase (users db) (appointments db) [] (availabilities db))
                           now.
Proof.
  intros Hacc Hd Hem Hfirst Hstart Hend. cbv zeta. split.
  - unfold get_available_slots.
    rewrite (accepted_dispatch _ _ _ _ _ _ Hacc), Hem.
    unfold regular_slots. rewrite Hfirst.
    rewrite run_slot_loop_spec by reflexivity.
    rewrite (standard_in_calendar d Hd). simpl app.
    rewrite filter_none; [reflexivity |].
    intros c Hc. unfold candidates in Hc. rewrite standard_slot_count in Hc.
    apply in_map_iff in Hc. destruct Hc as (k & <- & Hk). apply in_seq in Hk.
    unfold free, on_leave, candidate. simpl fst. simpl snd.
    assert (Hs : time_of (combine d (mk_time 8 0) + Z.of_nat k * minutes 30)
                 = mk_time 8 0 + Z.of_nat k * minutes 30).
    { rewrite (time_of_within d); unfold combine, mk_time, minutes, day_us, hour_us, minute_us;
        lia. }
    assert (He : time_of (Z.min (combine d (mk_time 8 0) + (Z.of_nat k + 1) * minutes 30)
                                (combine d (mk_time 22 0)))
                 = mk_time 8 0 + (Z.of_nat k + 1) * minutes 30).
    { rewrite (time_of_within d); unfold combine, mk_time, minutes, day_us, hour_us, minute_us;
        lia. }
    rewrite Hs, He.
    assert (H1 : (mk_time 8 0 + Z.of_nat k * minutes 30 <? leave_end_time lv) = true)
      by (apply Z.ltb_lt; unfold mk_time, minutes, hour_us, minute_us in *; lia).
    assert (H2 : (mk_time 8 0 + (Z.of_nat k + 1) * minutes 30 >? leave_start_time lv) = true)
      by (rewrite Z.gtb_ltb; apply Z.ltb_lt;
          unfold mk_time, minutes, hour_us, minute_us in *; lia).
    rewrite H1, H2. reflexivity.
  - apply (emergency_ignores_leave
             (mkRequest (user_is_authenticated rq) (method_is_GET rq) (doctor_id rq)
                        (date_str rq) true) db now []).
    reflexivity.
Qed.

Lemma leave_over_the_day_leaves_no_regular_slot_witness :
  get_available_slots rq_regular db_full_day_leave (at_time sample_day 7 0)
  = Some (JsonSlots [] None (Some leave_warning))
  /\ exists slots,
       get_available_slots rq_emergency db_full_day_leave (at_time sample_day 7 0)
       = Some (JsonSlots slots (Some emergency_message) None)
       /\ List.length slots = 96%nat.
Proof.
  destruct (leave_over_the_day_leaves_no_regular_slot
              rq_regular db_full_day_leave (at_time sample_day 7 0) dr sample_day
              (mkLeave dr (sample_day - 1) (sample_day + 1) (mk_time 0 0) (mk_time 23 59)
                       LEAVE_APPROVED)) as [Hreg Hem].
  - sample_accepted.
  - vm_compute. split; discriminate.
  - reflexivity.
  - reflexivity.
  - reflexivity.
  - reflexivity.
  - split; [exact Hreg |]. eexists. split; [vm_compute; reflexivity | reflexivity].
Defined.


(* ================================================================== *)
(** * The life of a leave request *)

Lemma find_after_rewrite (pk pk' : Z) (lv : DoctorLeaveRequest)
      (rows : list (Z * DoctorLeaveRequest)) :
  find (fun r => fst r =? pk')
       (map (fun r => if fst r =? pk then (pk, lv) else r) rows)
  = option_map (fun r => if fst r =? pk then (pk, lv) else r)
               (find (fun r => fst r =? pk') rows).
Proof.
  induction rows as [| r rows IH]; simpl; [reflexivity |].
  destruct (Z.eqb_spec (fst r) pk) as [Heq | Hne]; simpl.
  - rewrite Heq. destruct (pk =? pk'); simpl; [| exact IH].
    rewrite Heq, Z.eqb_refl. reflexivity.
  - destruct (fst r =? pk'); simpl; [| exact IH].
    destruct (Z.eqb_spec (fst r) pk); [contradiction | reflexivity].
Qed.

Lemma find_leave_key (c : clinic) (pk : Z) (r : Z * DoctorLeaveRequest) :
  find_leave c pk = Some r -> fst r = pk.
Proof.
  unfold find_leave. intros H. apply find_some in H. now apply Z.eqb_eq.
Qed.

Lemma status_after_save (c c' : clinic) (pk pk' : Z) (lv : DoctorLeaveRequest) :
  DoctorLeaveRequest_save c pk lv = inl c' ->
  leave_status_at c' pk'
  = if pk' =? pk
    then option_map (fun _ => leave_status_of lv) (find_leave c pk')
    else leave_status_at c pk'.
Proof.
  unfold DoctorLeaveRequest_save, leave_status_at, find_leave.
  destruct (DoctorLeaveRequest_clean lv); [| discriminate].
  intros H. injection H as <-. simpl. rewrite find_after_rewrite.
  destruct (find (fun r => fst r =? pk') (leaves c)) as [r |] eqn:E; simpl.
  - apply find_some in E. destruct E as [_ E]. apply Z.eqb_eq in E. rewrite E.
    destruct (pk' =? pk); reflexivity.
  - now destruct (pk' =? pk).
Qed.

(** One step changes the status of a request only from pending, and only
    as the two views allow. *)
Lemma leave_step_cases (c : clinic) (ev : leave_event) (pk : Z) (s s' : leave_status) :
  leave_status_at c pk = Some s ->
  leave_status_at (leave_step c ev) pk = Some s' ->
  s' = s
  \/ (s = LEAVE_PENDING
      /\ ((s' = LEAVE_CANCELLED
           /\ exists u lv, ev = CancelLeave (Some u) true pk
                           /\ user_role u = DOCTOR
                           /\ find_leave c pk = Some (pk, lv)
                           /\ leave_doctor lv = user_pk u)
          \/ ((s' = LEAVE_APPROVED \/ s' = LEAVE_REJECTED)
              /\ exists u, ev = ReviewLeave (Some u) true (Some s') pk
                           /\ user_role u = ADMIN))).
Proof.
  intros Hs Hs'. destruct ev as [u is_POST pk0 | u is_POST status pk0]; simpl in Hs'.
  - unfold cancel_leave_request in Hs'.
    destruct (has_role u DOCTOR) eqn:Hrole; [| left; simpl in Hs'; congruence].
    destruct u as [u |]; [| discriminate].
    destruct (find_leave c pk0) as [[k lv] |] eqn:Efind;
      [| left; simpl in Hs'; congruence].
    destruct (Z.eqb_spec (leave_doctor lv) (user_pk u)) as [Hdoc | Hdoc];
      [| left; simpl in Hs'; congruence].
    destruct (leave_status_of lv) eqn:Est; try (left; simpl in Hs'; congruence).
    destruct is_POST; [| left; simpl in Hs'; congruence].
    destruct (DoctorLeaveRequest_save c pk0 (with_status lv LEAVE_CANCELLED))
      as [c' | message] eqn:Esave; [| left; simpl in Hs'; congruence].
    simpl in Hs'. rewrite (status_after_save _ _ _ _ _ Esave) in Hs'.
    destruct (Z.eqb_spec pk pk0) as [-> | Hne]; [| left; congruence].
    pose proof (find_leave_key _ _ _ Efind) as Hk. simpl in Hk. subst k.
    unfold leave_status_at in Hs. rewrite Efind in *. simpl in Hs, Hs'.
    right. split; [congruence |]. left. split; [congruence |].
    exists u, lv. repeat split; auto.
    unfold has_role in Hrole. destruct (user_role u); try discriminate. reflexivity.
  - unfold review_leave_request in Hs'.
    destruct (has_role u ADMIN) eqn:Hrole; [| left; simpl in Hs'; congruence].
    destruct u as [u |]; [| discriminate].
    destruct (find_leave c pk0) as [[k lv] |] eqn:Efind;
      [| left; simpl in Hs'; congruence].
    destruct (leave_status_of lv) eqn:Est; try (left; simpl in Hs'; congruence).
    destruct is_POST; [| left; simpl in Hs'; congruence].
    destruct (LeaveRequestReviewForm_is_valid lv status) as [reviewed |] eqn:Evalid;
      [| left; simpl in Hs'; congruence].
    destruct (DoctorLeaveRequest_save c pk0 reviewed) as [c' | message] eqn:Esave;
      [| left; simpl in Hs'; congruence].
    simpl in Hs'. rewrite (status_after_save _ _ _ _ _ Esave) in Hs'.
    destruct (Z.eqb_spec pk pk0) as [-> | Hne]; [| left; congruence].
    unfold leave_status_at in Hs. rewrite Efind in *. simpl in Hs, Hs'.
    right. split; [congruence |]. right.
    assert (Hrole' : user_role u = ADMIN)
      by (unfold has_role in Hrole; destruct (user_role u); try discriminate; reflexivity).
    unfold LeaveRequestReviewForm_is_valid in Evalid.
    destruct status as [[| | |] |]; try discriminate;
      destruct (DoctorLeaveRequest_clean _); try discriminate;
      injection Evalid as <-; simpl in Hs'; injection Hs' as <-;
      (split; [auto | exists u; auto]).
Qed.

Lemma leave_step_keeps_rows (c : clinic) (ev : leave_event) (pk : Z) (s : leave_status) :
  leave_status_at c pk = Some s ->
  exists s', leave_status_at (leave_step c ev) pk = Some s'.
Proof.
  intros Hs.
  assert (Hsave : forall pk0 lv c', DoctorLeaveRequest_save c pk0 lv = inl c' ->
                                    exists s', leave_status_at c' pk = Some s').
  { intros pk0 lv c' Esave. rewrite (status_after_save _ _ _ _ _ Esave).
    unfold leave_status_at in Hs.
    destruct (pk =? pk0); [| eauto].
    destruct (find_leave c pk); [simpl; eauto | discriminate]. }
  destruct ev as [u is_POST pk0 | u is_POST status pk0]; simpl.
  - unfold cancel_leave_request.
    destruct (has_role u DOCTOR); [| eauto].
    destruct u as [u |]; [| eauto].
    destruct (find_leave c pk0) as [[k lv] |]; [| eauto].
    destruct (leave_doctor lv =? user_pk u); [| eauto].
    destruct (leave_status_of lv); eauto.
    destruct is_POST; [| eauto].
    destruct (DoctorLeaveRequest_save c pk0 _) eqn:E; simpl; eauto.
  - unfold review_leave_request.
    destruct (has_role u ADMIN); [| eauto].
    destruct (find_leave c pk0) as [[k lv] |]; [| eauto].
    destruct (leave_status_of lv); eauto.
    destruct is_POST; [| eauto].
    destruct (LeaveRequestReviewForm_is_valid lv status); [| eauto].
    destruct (DoctorLeaveRequest_save c pk0 _) eqn:E; simpl; eauto.
Qed.

(** X12.  The two leave views change the status of a request only from
    pending: to cancelled, on a POST of the doctor who owns the request,
    or to approved or rejected, on a POST of an administrator with that
    status. *)
Theorem leave_status_changes_only_from_pending
        (c : clinic) (ev : leave_event) (pk : Z) (s s' : leave_status) :
  leave_status_at c pk = Some s ->
  leave_status_at (leave_step c ev) pk = Some s' ->
  s' <> s ->
  s = LEAVE_PENDING
  /\ ((s' = LEAVE_CANCELLED
       /\ exists u lv, ev = CancelLeave (Some u) true pk
                       /\ user_role u = DOCTOR
                       /\ find_leave c pk = Some (pk, lv)
                       /\ leave_doctor lv = user_pk u)
      \/ ((s' = LEAVE_APPROVED \/ s' = LEAVE_REJECTED)
          /\ exists u, ev = ReviewLeave (Some u) true (Some s') pk
                       /\ user_role u = ADMIN)).
Proof.
  intros Hs Hs' Hne.
  destruct (leave_step_cases c ev pk s s' Hs Hs') as [Heq | H]; [contradiction | exact H].
Qed.

(** X13.  A leave request that is approved, rejected or cancelled keeps its
    status through any sequence of requests to the two leave views. *)
Theorem settled_leave_keeps_its_status
        (events : list leave_event) (c : clinic) (pk : Z) (s : leave_status) :
  leave_status_at c pk = Some s ->
  s <> LEAVE_PENDING ->
  leave_status_at (fold_left leave_step events c) pk = Some s.
Proof.
  revert c. induction events as [| ev events IH]; intros c Hs Hne; simpl; [exact Hs |].
  apply IH; [| exact Hne].
  destruct (leave_step_keeps_rows c ev pk s Hs) as (s' & Hs').
  destruct (leave_step_cases c ev pk s s' Hs Hs') as [-> | [Hp _]];
    [exact Hs' | contradiction].
Qed.

Lemma leave_status_changes_only_from_pending_witness :
  leave_status_at clinic_leaves 1 = Some LEAVE_PENDING
  /\ leave_status_at
       (leave_step clinic_leaves (ReviewLeave (Some the_admin) true (Some LEAVE_APPROVED) 1))
       1 = Some LEAVE_APPROVED
  /\ exists u, user_role u = ADMIN.
Proof.
  split; [reflexivity |]. split; [reflexivity |].
  destruct (leave_status_changes_only_from_pending
              clinic_leaves (ReviewLeave (Some the_admin) true (Some LEAVE_APPROVED) 1)
              1 LEAVE_PENDING LEAVE_APPROVED)
    as [_ [[Hc _] | [_ (u & _ & Hu)]]].
  - reflexivity.
  - reflexivity.
  - discriminate.
  - discriminate Hc.
  - exists u. exact Hu.
Defined.

Lemma settled_leave_keeps_its_status_witness :
  leave_status_at
    (fold_left leave_step
               [CancelLeave (Some the_doctor) true 2;
                ReviewLeave (Some the_admin) true (Some LEAVE_REJECTED) 2;
                ReviewLeave (Some the_admin) true (Some LEAVE_APPROVED) 1]
               clinic_leaves) 2
  = Some LEAVE_APPROVED.
Proof.
  apply settled_leave_keeps_its_status.
  - reflexivity.
  - discriminate.
Defined.

(* ================================================================== *)
(** * The status views of an appointment *)

Lemma stored_row_unique (rows : list Booking) (r a : Booking) (i : Z) :
  NoDup (stored_pks rows) -> In r rows -> In a rows ->
  appt_id r = Some i -> appt_id a = Some i -> r = a.
Proof.
  induction rows as [| x rows IH]; intros Hnd Hr Ha Hri Hai; [destruct Hr |].
  change (stored_pks (x :: rows))
    with (match appt_id x with Some k => [k] | None => [] end ++ stored_pks rows) in Hnd.
  assert (Hfresh : appt_id x = Some i -> ~ In i (stored_pks rows)).
  { intros Hx. rewrite Hx in Hnd. simpl in Hnd. now inversion Hnd. }
  assert (Hrest : NoDup (stored_pks rows)) by (eapply NoDup_app_remove_l; exact Hnd).
  assert (Hin : forall b, In b rows -> appt_id b = Some i -> In i (stored_pks rows))
    by (intros b Hb Hbi; apply stored_pks_In; eauto).
  destruct Hr as [-> | Hr], Ha as [-> | Ha].
  - reflexivity.
  - exfalso. apply (Hfresh Hri). eauto.
  - exfalso. apply (Hfresh Hai). eauto.
  - now apply IH.
Qed.

Lemma find_booking_found (c : clinic) (pk : Z) (a : Booking) :
  find_booking c pk = Some a -> In a (bookings c) /\ appt_id a = Some pk.
Proof.
  unfold find_booking. intros H. apply find_some in H. destruct H as [Hin Hpk].
  split; [exact Hin |]. destruct (appt_id a) as [i |]; [| discriminate].
  simpl in Hpk. apply Z.eqb_eq in Hpk. now subst i.
Qed.

Lemma same_appointment_refl (a : Booking) : same_appointment a a.
Proof. unfold same_appointment. repeat split. Qed.

Lemma differ_refl (pk : Z) (c : clinic) : differ_in_status_and_notes pk c c.
Proof.
  unfold differ_in_status_and_notes. repeat split.
  induction (bookings c) as [| r rows IH]; constructor; [| exact IH].
  split; [apply same_appointment_refl | congruence].
Qed.

Lemma Forall2_map_self {A : Type} (R : A -> A -> Prop) (f : A -> A) (l : list A) :
  (forall x, In x l -> R x (f x)) -> Forall2 R l (map f l).
Proof.
  induction l as [| x l IH]; intros H; simpl; constructor.
  - apply H. now left.
  - apply IH. intros y Hy. apply H. now right.
Qed.

(** Saving a stored row with a new status and new notes rewrites that row
    and no other. *)
Lemma save_stored_row (c c' : clinic) (pk : Z) (a : Booking)
      (status : appointment_status) (notes : string) :
  NoDup (stored_pks (bookings c)) ->
  find_booking c pk = Some a ->
  Appointment_save c (with_status_and_notes a status notes) = inl c' ->
  differ_in_status_and_notes pk c c'.
Proof.
  intros Hnd Hfind Hsave. destruct (find_booking_found c pk a Hfind) as [Hin Hpk].
  unfold Appointment_save in Hsave.
  destruct (Appointment_clean c (with_status_and_notes a status notes));
    [| discriminate].
  simpl appt_id in Hsave. rewrite Hpk in Hsave.
  assert (Hex : existsb (fun r => same_pk (appt_id r) (Some pk)) (bookings c) = true).
  { apply existsb_exists. exists a. split; [exact Hin |]. rewrite Hpk. simpl.
    apply Z.eqb_refl. }
  rewrite Hex in Hsave. injection Hsave as <-.
  unfold differ_in_status_and_notes. simpl. repeat split.
  apply Forall2_map_self. intros r Hr.
  destruct (same_pk (appt_id r) (Some pk)) eqn:E.
  - assert (Hrpk : appt_id r = Some pk).
    { destruct (appt_id r) as [i |]; [| discriminate]. simpl in E.
      apply Z.eqb_eq in E. now subst i. }
    assert (r = a) as -> by exact (stored_row_unique _ r a pk Hnd Hr Hin Hrpk Hpk).
    split; [| intros _; exact Hpk]. unfold same_appointment. simpl. repeat split.
  - split; [apply same_appointment_refl | congruence].
Qed.

(** X14.  The two status views of an appointment,
    [update_appointment_status] and [cancel_appointment], change nothing
    but the status and the notes of the one appointment they are called
    for: every other row, and the patient, doctor, date, times and type of
    that row, stay as they are.  They change something only on a POST, of
    an administrator, a receptionist or the doctor of the appointment for
    the first view, of a receptionist for the second. *)
Theorem status_views_touch_one_row
        (c : clinic) (u : option user) (is_POST : bool)
        (status : option appointment_status) (notes reason stamp : string) (pk : Z) :
  NoDup (stored_pks (bookings c)) ->
  let updated := snd (update_appointment_status u is_POST status notes stamp pk c) in
  let cancelled := snd (cancel_appointment u is_POST reason stamp pk c) in
  differ_in_status_and_notes pk c updated
  /\ differ_in_status_and_notes pk c cancelled
  /\ (updated <> c ->
      is_POST = true
      /\ exists u0 a, u = Some u0 /\ find_booking c pk = Some a /\ may_update u0 a = true)
  /\ (cancelled <> c -> is_POST = true /\ has_role u RECEPTIONIST = true).
Proof.
  intros Hnd. cbv zeta.
  unfold update_appointment_status, cancel_appointment.
  split; [| split; [| split]].
  - destruct u as [u0 |]; [| apply differ_refl].
    destruct (find_booking c pk) as [a |] eqn:Hfind; [| apply differ_refl].
    destruct (may_update u0 a); simpl; [| apply differ_refl].
    destruct is_POST; [| apply differ_refl].
    destruct status as [st |]; [| apply differ_refl].
    destruct (Appointment_save c _) as [c' | message] eqn:Hsave; [| apply differ_refl].
    exact (save_stored_row c c' pk a _ _ Hnd Hfind Hsave).
  - destruct (has_role u RECEPTIONIST); [| apply differ_refl].
    destruct (find_booking c pk) as [a |] eqn:Hfind; [| apply differ_refl].
    destruct is_POST; [| apply differ_refl].
    destruct (Appointment_save c _) as [c' | message] eqn:Hsave; [| apply differ_refl].
    exact (save_stored_row c c' pk a _ _ Hnd Hfind Hsave).
  - destruct u as [u0 |]; [| intros H; now destruct H].
    destruct (find_booking c pk) as [a |] eqn:Hfind; [| intros H; now destruct H].
    destruct (may_update u0 a) eqn:Hmay; simpl; [| intros H; now destruct H].
    destruct is_POST; [| intros H; now destruct H].
    intros _. split; [reflexivity |]. exists u0, a. auto.
  - destruct (has_role u RECEPTIONIST); [| intros H; now destruct H].
    destruct (find_booking c pk) as [a |]; [| intros H; now destruct H].
    destruct is_POST; [| intros H; now destruct H].
    intros _. auto.
Qed.

Lemma status_views_touch_one_row_witness :
  snd (cancel_appointment (Some the_receptionist) true "patient asked"
                          "2021-07-29 10:00" 2 clinic_morning)
  <> clinic_morning
  /\ differ_in_status_and_notes
       2 clinic_morning
       (snd (cancel_appointment (Some the_receptionist) true "patient asked"
                                "2021-07-29 10:00" 2 clinic_morning)).
Proof.
  split; [vm_compute; discriminate |].
  apply (status_views_touch_one_row clinic_morning (Some the_receptionist) true
           None "" "patient asked" "2021-07-29 10:00" 2).
  vm_compute. repeat constructor; simpl; intuition discriminate.
Defined.

(** X15.  An appointment that an approved leave of its doctor has come to
    overlap can no longer be cancelled, nor have its status updated,
    unless it is an emergency: both views save the row through
    [Appointment.save], whose validation looks at the times, not at the new
    status, and raises. *)
Theorem appointment_on_leave_is_stuck
        (c : clinic) (u : user) (pk : Z) (a : Booking) :
  has_role (Some u) RECEPTIONIST = true ->
  find_booking c pk = Some a ->
  emergency_booking a = false ->
  appt_start_time (appt_row a) < appt_end_time (appt_row a) ->
  inside_approved_leave c a ->
  (forall reason stamp,
      cancel_appointment (Some u) true reason stamp pk c = (Raised msg_on_leave, c))
  /\ (forall status notes stamp,
         update_appointment_status (Some u) true (Some status) notes stamp pk c
         = (Raised msg_on_leave, c)).
Proof.
  intros Hrole Hfind Hem Hlt (lv & Hlv & Ho1 & Ho2).
  assert (Hclean : forall status notes,
             Appointment_save c (with_status_and_notes a status notes)
             = inr msg_on_leave).
  { intros status notes. unfold Appointment_save, Appointment_clean. simpl.
    destruct (Z.geb_spec (appt_start_time (appt_row a)) (appt_end_time (appt_row a)));
      [lia |].
    unfold emergency_booking in Hem. rewrite Hem.
    assert (Hon : on_approved_leave (appt_start_time (appt_row a))
                                    (appt_end_time (appt_row a)) false
                                    (approved_leaves (database_of c)
                                                     (appt_doctor (appt_row a))
                                                     (appt_date (appt_row a))) = true).
    { apply on_approved_leave_spec. split; [reflexivity |]. exists lv. auto. }
    now rewrite Hon. }
  split.
  - intros reason stamp. unfold cancel_appointment.
    now rewrite Hrole, Hfind, Hclean.
  - intros status notes stamp. unfold update_appointment_status.
    rewrite Hfind.
    assert (Hmay : may_update u a = true).
    { unfold may_update. rewrite Hrole. now rewrite orb_true_r. }
    rewrite Hmay. simpl. now rewrite Hclean.
Qed.

Lemma appointment_on_leave_is_stuck_witness :
  cancel_appointment (Some the_receptionist) true "doctor away" "2021-07-28 10:00" 1
                     clinic_leave_after_booking
  = (Raised msg_on_leave, clinic_leave_after_booking).
Proof.
  apply (appointment_on_leave_is_stuck
           clinic_leave_after_booking the_receptionist 1
           (mkBooking (Some 1) 100
                      (mkAppointment dr sample_day (mk_time 9 0) (mk_time 9 30) SCHEDULED)
                      REGULAR false "")).
  - reflexivity.
  - reflexivity.
  - reflexivity.
  - reflexivity.
  - eexists. split; [left; reflexivity |]. split; reflexivity.
Defined.

(** X16.  The two status views keep the appointments table free of double
    bookings, also when they bring a cancelled appointment back to an
    active status: the row goes through [Appointment.save]. *)
Theorem status_views_keep_no_double_booking
        (c : clinic) (u : option user) (is_POST : bool)
        (status : option appointment_status) (notes reason stamp : string) (pk : Z) :
  no_double_booking c ->
  no_double_booking (snd (update_appointment_status u is_POST status notes stamp pk c))
  /\ no_double_booking (snd (cancel_appointment u is_POST reason stamp pk c)).
Proof.
  intros Hinv. unfold update_appointment_status, cancel_appointment. split.
  - destruct u as [u0 |]; [| exact Hinv].
    destruct (find_booking c pk) as [a |]; [| exact Hinv].
    destruct (may_update u0 a); simpl; [| exact Hinv].
    destruct is_POST; [| exact Hinv].
    destruct status as [st |]; [| exact Hinv].
    destruct (Appointment_save c _) as [c' | message] eqn:Hsave; [| exact Hinv].
    exact (Appointment_save_invariant c c' _ Hinv Hsave).
  - destruct (has_role u RECEPTIONIST); [| exact Hinv].
    destruct (find_booking c pk) as [a |]; [| exact Hinv].
    destruct is_POST; [| exact Hinv].
    destruct (Appointment_save c _) as [c' | message] eqn:Hsave; [| exact Hinv].
    exact (Appointment_save_invariant c c' _ Hinv Hsave).
Qed.

Lemma status_views_keep_no_double_booking_witness :
  no_double_booking
    (snd (update_appointment_status (Some the_doctor) true (Some COMPLETED) "seen"
                                    "2021-07-29 09:40" 2 clinic_morning)).
Proof.
  apply (status_views_keep_no_double_booking
           clinic_morning (Some the_doctor) true (Some COMPLETED) "seen" ""
           "2021-07-29 09:40" 2).
  exact clinic_morning_no_double_booking.
Defined.
